(** * PDF analysis pipeline ([function_app.py]): a shallow embedding

    The development follows the source file top to bottom: the four analysis
    activities, the report reducer, the table-storage activity, the HTTP
    query function and the orchestrator.  Python dictionaries are kept as
    insertion-ordered association lists, exceptions as an error monad whose
    payload is the text of [str(e)], Python strings as their UTF-8 text, and
    the table as a finite map keyed by [(PartitionKey, RowKey)]. *)

From Stdlib Require Import ZArith QArith Qreduction Ascii String List Lia Bool.
From Stdlib Require Import Permutation Sorted DecimalString DecimalFacts DecimalN.
From Stdlib Require Import OrderedTypeEx.
From Stdlib Require Import Qround Qabs Lqa.
From stdpp Require Import base option list gmap strings.

Set Warnings "-register-all".

Local Open Scope string_scope.
Local Open Scope list_scope.
Local Open Scope Z_scope.

(** ** Exceptions *)

(** A Python computation either returns or raises; an exception is kept as
    the text that [str(e)] yields, which is all the source ever looks at. *)
Inductive result (A : Type) : Type :=
| Ok (a : A)
| Raise (msg : string).
Arguments Ok {A} a.
Arguments Raise {A} msg.

Definition bind {A B} (m : result A) (k : A -> result B) : result B :=
  match m with
  | Ok a => k a
  | Raise msg => Raise msg
  end.

Notation "'let*' x ':=' m 'in' k" := (bind m (fun x => k))
  (at level 10, x name, m at level 100, k at level 200).

Notation "'let*' ( x , y ) ':=' m 'in' k" := (bind m (fun '(x, y) => k))
  (at level 10, x name, y name, m at level 100, k at level 200).

(** [try: body  except Exception as e: handler(str(e))]. *)
Definition try_except {A} (body : result A) (handler : string -> result A) : result A :=
  match body with
  | Ok a => Ok a
  | Raise msg => handler msg
  end.

(** ** Python values *)

(** The floats that denote no number: [float('nan')], [float('inf')] and
    [float('-inf')]. *)
Inductive nonfinite := NaN | Infinity | NegInfinity.

(** The values that travel between the functions: JSON-like data.  A float
    is represented by the rational it denotes, kept in lowest terms; IEEE
    rounding is not modelled.  The three floats that denote no number come
    last. *)
Inductive pyval : Type :=
| PNone
| PBool (b : bool)
| PInt (n : Z)
| PFloat (q : Q)
| PStr (s : string)
| PList (l : list pyval)
| PDict (d : list (string * pyval))
| PNonFinite (x : nonfinite).

(** [type(v).__name__] *)
Definition type_name (v : pyval) : string :=
  match v with
  | PNone => "NoneType"
  | PBool _ => "bool"
  | PInt _ => "int"
  | PFloat _ => "float"
  | PStr _ => "str"
  | PList _ => "list"
  | PDict _ => "dict"
  | PNonFinite _ => "float"
  end.

Abbreviation dict := (list (string * pyval)).

Fixpoint dict_lookup (k : string) (d : dict) : option pyval :=
  match d with
  | [] => None
  | (k', v) :: d' => if String.eqb k k' then Some v else dict_lookup k d'
  end.

(** [d[k] = v] on a dictionary: replace in place, or append. *)
Fixpoint dict_set (k : string) (v : pyval) (d : dict) : dict :=
  match d with
  | [] => [(k, v)]
  | (k', v') :: d' => if String.eqb k k' then (k, v) :: d' else (k', v') :: dict_set k v d'
  end.

Definition dict_keys (d : dict) : list string := map fst d.

(** [obj[k]] for a string [k]: [KeyError] on a missing key, [TypeError] off
    a dictionary. *)
Definition getitem (obj : pyval) (k : string) : result pyval :=
  match obj with
  | PDict d =>
      match dict_lookup k d with
      | Some v => Ok v
      | None => Raise ("'" ++ k ++ "'")
      end
  | PStr _ => Raise "string indices must be integers, not 'str'"
  | PList _ => Raise "list indices must be integers or slices, not str"
  | _ => Raise ("'" ++ type_name obj ++ "' object is not subscriptable")
  end.

(** [obj.get(k, default)]. *)
Definition get_default (obj : pyval) (k : string) (default : pyval) : result pyval :=
  match obj with
  | PDict d =>
      match dict_lookup k d with
      | Some v => Ok v
      | None => Ok default
      end
  | _ => Raise ("'" ++ type_name obj ++ "' object has no attribute 'get'")
  end.

(** Python truthiness, as used by [x if c else y] and [if c:]. *)
Definition truthy (v : pyval) : bool :=
  match v with
  | PNone => false
  | PBool b => b
  | PInt n => negb (n =? 0)
  | PFloat q => negb (Qnum q =? 0)
  | PStr s => negb (String.eqb s "")
  | PList l => negb (Nat.eqb (length l) 0)
  | PDict d => negb (Nat.eqb (length d) 0)
  | PNonFinite _ => true
  end.

(** Fuel that the JSON parser needs to read a value back. *)
Fixpoint size (v : pyval) : nat :=
  match v with
  | PList l => S (list_sum (map (fun x => S (size x)) l))
  | PDict d => S (list_sum (map (fun kv => S (size (snd kv))) d))
  | _ => 1
  end.

(** Induction on values, through the lists and dictionaries they nest. *)
Section PyvalInduction.

Variable P : pyval -> Prop.
Hypothesis HNone : P PNone.
Hypothesis HBool : forall b, P (PBool b).
Hypothesis HInt : forall n, P (PInt n).
Hypothesis HFloat : forall q, P (PFloat q).
Hypothesis HStr : forall s, P (PStr s).
Hypothesis HList : forall l, Forall P l -> P (PList l).
Hypothesis HDict : forall d, Forall (fun kv => P (snd kv)) d -> P (PDict d).
Hypothesis HNonFinite : forall x, P (PNonFinite x).

Fixpoint pyval_nested_ind (v : pyval) : P v :=
  match v with
  | PNone => HNone
  | PBool b => HBool b
  | PInt n => HInt n
  | PFloat q => HFloat q
  | PStr s => HStr s
  | PList l =>
      HList l ((fix all (l : list pyval) : Forall P l :=
                  match l with
                  | [] => @List.Forall_nil _ P
                  | x :: l' => @List.Forall_cons _ P x l' (pyval_nested_ind x) (all l')
                  end) l)
  | PDict d =>
      HDict d ((fix all (d : dict) : Forall (fun kv => P (snd kv)) d :=
                  match d with
                  | [] => @List.Forall_nil _ _
                  | kv :: d' =>
                      @List.Forall_cons _ (fun kv => P (snd kv)) kv d'
                        (pyval_nested_ind (snd kv)) (all d')
                  end) d)
  | PNonFinite x => HNonFinite x
  end.

End PyvalInduction.

(** [a / b] on integers: true division, [ZeroDivisionError] on [b = 0]. *)
Definition truediv (a b : Z) : result Q :=
  if b =? 0 then Raise "division by zero"
  else Ok (Qred (Qdiv (inject_Z a) (inject_Z b))).

(** [bytes(obj)]: the bytes of a list of integers in [range(0, 256)], or
    as many zero bytes as an integer says. *)
Fixpoint bytes_of_ints (l : list pyval) : result (list Byte.byte) :=
  match l with
  | [] => Ok []
  | x :: l' =>
      let* n :=
        match x with
        | PInt n => Ok n
        | PBool b => Ok (if b then 1 else 0)
        | _ => Raise ("'" ++ type_name x ++ "' object cannot be interpreted as an integer")
        end in
      if (0 <=? n) && (n <? 256) then
        match Byte.of_N (Z.to_N n) with
        | Some b => let* bs := bytes_of_ints l' in Ok (b :: bs)
        | None => Raise "bytes must be in range(0, 256)"
        end
      else Raise "bytes must be in range(0, 256)"
  end.

Definition py_bytes (v : pyval) : result (list Byte.byte) :=
  match v with
  | PList l => bytes_of_ints l
  | PInt n =>
      if n <? 0 then Raise "negative count" else Ok (repeat Byte.x00 (Z.to_nat n))
  | PBool b => Ok (repeat Byte.x00 (if b then 1%nat else 0%nat))
  | PDict [] => Ok []
  | PDict (_ :: _) => Raise "'str' object cannot be interpreted as an integer"
  | PStr _ => Raise "string argument without an encoding"
  | _ => Raise ("cannot convert '" ++ type_name v ++ "' object to bytes")
  end.

(** ** Strings *)

(** A Python [str] is kept as its UTF-8 text, one [ascii] per byte.  A byte
    that belongs to no well-formed sequence stands for the lone surrogate
    [U+DC80 + (byte - 128)], as with Python's [surrogateescape], so that every
    string here denotes a text and gets its bytes back when encoded. *)

Definition newline : string := String (ascii_of_nat 10) EmptyString.

Definition is_cont (b : ascii) : bool :=
  let n := N_of_ascii b in ((128 <=? n) && (n <? 192))%N.

Definition utf8_one (b : ascii) : N :=
  let n := N_of_ascii b in if (n <? 128)%N then n else (56320 + n)%N.

Definition utf8_two (b1 b2 : ascii) : option N :=
  let n1 := N_of_ascii b1 in
  let n2 := N_of_ascii b2 in
  if ((194 <=? n1) && (n1 <? 224))%N && is_cont b2
  then Some ((n1 - 192) * 64 + (n2 - 128))%N
  else None.

(** No overlong form and no surrogate. *)
Definition utf8_three (b1 b2 b3 : ascii) : option N :=
  let n1 := N_of_ascii b1 in
  let n2 := N_of_ascii b2 in
  let n3 := N_of_ascii b3 in
  let cp := ((n1 - 224) * 4096 + (n2 - 128) * 64 + (n3 - 128))%N in
  if ((224 <=? n1) && (n1 <? 240))%N && is_cont b2 && is_cont b3
     && (2048 <=? cp)%N && negb ((55296 <=? cp) && (cp <? 57344))%N
  then Some cp
  else None.

(** No overlong form, nothing above [U+10FFFF]. *)
Definition utf8_four (b1 b2 b3 b4 : ascii) : option N :=
  let n1 := N_of_ascii b1 in
  let n2 := N_of_ascii b2 in
  let n3 := N_of_ascii b3 in
  let n4 := N_of_ascii b4 in
  let cp := ((n1 - 240) * 262144 + (n2 - 128) * 4096 + (n3 - 128) * 64 + (n4 - 128))%N in
  if ((240 <=? n1) && (n1 <? 245))%N && is_cont b2 && is_cont b3 && is_cont b4
     && (65536 <=? cp)%N && (cp <? 1114112)%N
  then Some cp
  else None.

(** The code points of a text. *)
Fixpoint utf8_decode (s : list ascii) : list N :=
  match s with
  | [] => []
  | b1 :: s1 =>
      match s1 with
      | [] => [utf8_one b1]
      | b2 :: s2 =>
          match utf8_two b1 b2 with
          | Some cp => cp :: utf8_decode s2
          | None =>
              match s2 with
              | [] => utf8_one b1 :: utf8_decode s1
              | b3 :: s3 =>
                  match utf8_three b1 b2 b3 with
                  | Some cp => cp :: utf8_decode s3
                  | None =>
                      match s3 with
                      | [] => utf8_one b1 :: utf8_decode s1
                      | b4 :: s4 =>
                          match utf8_four b1 b2 b3 b4 with
                          | Some cp => cp :: utf8_decode s4
                          | None => utf8_one b1 :: utf8_decode s1
                          end
                      end
                  end
              end
          end
      end
  end.

(** The bytes of a code point; the surrogates [U+DC80] to [U+DCFF] are the
    single bytes they stand for, the other surrogates take three bytes. *)
Definition utf8_encode (cp : N) : list ascii :=
  if (cp <? 128)%N then [ascii_of_N cp]
  else if (cp <? 2048)%N then
    [ascii_of_N (192 + cp / 64); ascii_of_N (128 + cp mod 64)]
  else if ((56448 <=? cp) && (cp <? 56576))%N then [ascii_of_N (cp - 56320)]
  else if (cp <? 65536)%N then
    [ascii_of_N (224 + cp / 4096); ascii_of_N (128 + cp / 64 mod 64);
     ascii_of_N (128 + cp mod 64)]
  else
    [ascii_of_N (240 + cp / 262144); ascii_of_N (128 + cp / 4096 mod 64);
     ascii_of_N (128 + cp / 64 mod 64); ascii_of_N (128 + cp mod 64)].

Definition text_of (cps : list N) : string :=
  string_of_list_ascii (flat_map utf8_encode cps).

(** [str.isspace] on one character: the white space of Unicode. *)
Definition is_space (cp : N) : bool :=
  ((9 <=? cp) && (cp <=? 13) || (28 <=? cp) && (cp <=? 32) || (cp =? 133) || (cp =? 160)
   || (cp =? 5760) || (8192 <=? cp) && (cp <=? 8202) || (cp =? 8232) || (cp =? 8233)
   || (cp =? 8239) || (cp =? 8287) || (cp =? 12288))%N.

(** [s.split()]: the maximal runs of characters that are not white space.
    [cur] is the run being read, in reverse. *)
Fixpoint split_ws (cur : list N) (cps : list N) : list string :=
  match cps with
  | [] =>
      match cur with
      | [] => []
      | _ => [text_of (rev cur)]
      end
  | cp :: cps' =>
      if is_space cp then
        match cur with
        | [] => split_ws [] cps'
        | _ => text_of (rev cur) :: split_ws [] cps'
        end
      else split_ws (cp :: cur) cps'
  end.

Definition py_split (s : string) : list string :=
  split_ws [] (utf8_decode (list_ascii_of_string s)).

(** [sep in s] for a one-character [sep]. *)
Fixpoint contains_char (c : ascii) (s : string) : bool :=
  match s with
  | EmptyString => false
  | String c' s' => Ascii.eqb c c' || contains_char c s'
  end.

(** [s.split(sep)[-1]] for a one-character [sep]: what follows the last
    occurrence of [sep], or all of [s] when there is none. *)
Fixpoint last_segment (c : ascii) (s : string) : string :=
  match s with
  | EmptyString => EmptyString
  | String c' s' =>
      if contains_char c s' then last_segment c s'
      else if Ascii.eqb c c' then s' else s
  end.

(** ** The PDF library, at its interface *)

Module Pypdf.
Record datetime := { isoformat : string }.

(** The document information; its two dates are parsed when they are read,
    which raises on a date that is malformed. *)
Record DocumentInformation := {
  title : option string;
  author : option string;
  creator : option string;
  producer : option string;
  creation_date : result (option datetime);
  modification_date : result (option datetime);
}.

Record PageObject := { extract_text : result string }.

(** What a constructed reader answers; each access may itself raise. *)
Record reader := {
  pages : result (list PageObject);
  metadata : result (option DocumentInformation);
}.
End Pypdf.

(** The four patterns handed to [re.findall], in source order. *)
Inductive pattern := EmailPattern | PhonePattern | UrlPattern | DatePattern.

Definition opt_str (o : option string) : pyval :=
  match o with
  | Some s => PStr s
  | None => PNone
  end.

(** Attribute access on an object that may be [None]. *)
Definition attr {A B} (name : string) (o : option A) (f : A -> B) : result B :=
  match o with
  | Some a => Ok (f a)
  | None => Raise ("'NoneType' object has no attribute '" ++ name ++ "'")
  end.

Section Activities.

(** [PdfReader(io.BytesIO(pdf_bytes))] and [re.findall(pattern, text)]
    belong to libraries; the activities are written against them. *)
Variable PdfReader : list Byte.byte -> result Pypdf.reader.
Variable re_findall : pattern -> string -> list string.

Definition open_reader (inputData : pyval) : result Pypdf.reader :=
  let* blob := getitem inputData "blob_bytes" in
  let* pdf_bytes := py_bytes blob in
  PdfReader pdf_bytes.

(** [for page in reader.pages: text = page.extract_text() or "";
    if text: all_text.append(text)] *)
Fixpoint nonempty_texts (pages : list Pypdf.PageObject) : result (list string) :=
  match pages with
  | [] => Ok []
  | page :: rest =>
      let* text := Pypdf.extract_text page in
      let* all_text := nonempty_texts rest in
      Ok (if String.eqb text "" then all_text else text :: all_text)
  end.

Definition extract_text (inputData : pyval) : result pyval :=
  try_except
    (let* reader := open_reader inputData in
     let* pages := Pypdf.pages reader in
     let* all_text := nonempty_texts pages in
     Ok (PDict [("hasText", PBool (if Nat.eqb (length all_text) 0 then false else true));
                ("extractedText", PStr (String.concat newline all_text));
                ("confidence", PFloat 0);
                ("language", PStr "unknown")]))
    (fun e =>
       Ok (PDict [("hasText", PBool false);
                  ("extractedText", PStr "");
                  ("confidence", PFloat 0);
                  ("error", PStr e)])).

Definition extract_metadata (inputData : pyval) : result pyval :=
  try_except
    (let* reader := open_reader inputData in
     let* metadata := Pypdf.metadata reader in
     let* title := attr "title" metadata Pypdf.title in
     let* author := attr "author" metadata Pypdf.author in
     let* creator := attr "creator" metadata Pypdf.creator in
     let* producer := attr "producer" metadata Pypdf.producer in
     let* created := attr "creation_date" metadata Pypdf.creation_date in
     let* created := created in
     let* creation_date := attr "isoformat" created Pypdf.isoformat in
     let* modified := attr "modification_date" metadata Pypdf.modification_date in
     let* modified := modified in
     let* mod_date := attr "isoformat" modified Pypdf.isoformat in
     Ok (PDict [("title", opt_str title);
                ("author", opt_str author);
                ("creator", opt_str creator);
                ("producer", opt_str producer);
                ("creation_date", PStr creation_date);
                ("mod_date", PStr mod_date)]))
    (fun e =>
       Ok (PDict [("title", PStr "");
                  ("author", PStr "");
                  ("error", PStr e)])).

(** [for page in reader.pages: all_text += (page.extract_text() or "") + "\n"] *)
Fixpoint page_text (acc : string) (pages : list Pypdf.PageObject) : result string :=
  match pages with
  | [] => Ok acc
  | page :: rest =>
      let* text := Pypdf.extract_text page in
      page_text (acc ++ text ++ newline) rest
  end.

Definition analyze_statistics (inputData : pyval) : result pyval :=
  try_except
    (let* reader := open_reader inputData in
     let* pages := Pypdf.pages reader in
     let page_count := Z.of_nat (length pages) in
     let* all_text := page_text "" pages in
     let words := py_split all_text in
     let word_count := Z.of_nat (length words) in
     let* avg_words_per_page :=
       if truthy (PInt page_count)
       then (let* q := truediv word_count page_count in Ok (PFloat q))
       else Ok (PInt 0) in
     let* reading_time_minutes := truediv word_count 200 in
     Ok (PDict [("page_count", PInt page_count);
                ("word_count", PInt word_count);
                ("avg_words_per_page", avg_words_per_page);
                ("estimated_reading_time_min", PFloat reading_time_minutes)]))
    (fun e =>
       Ok (PDict [("page_count", PInt 0);
                  ("word_count", PInt 0);
                  ("avg_words_per_page", PInt 0);
                  ("estimated_reading_time_min", PInt 0);
                  ("error", PStr e)])).

Definition str_list (l : list string) : pyval := PList (map PStr l).

Definition detect_sensitive_data (inputData : pyval) : result pyval :=
  try_except
    (let* reader := open_reader inputData in
     let* pages := Pypdf.pages reader in
     let* text := page_text "" pages in
     let emails := re_findall EmailPattern text in
     let phones := re_findall PhonePattern text in
     let urls := re_findall UrlPattern text in
     let dates := re_findall DatePattern text in
     Ok (PDict [("emails", str_list emails);
                ("phones", str_list phones);
                ("urls", str_list urls);
                ("dates", str_list dates)]))
    (fun e =>
       Ok (PDict [("emails", PList []);
                  ("phones", PList []);
                  ("urls", PList []);
                  ("dates", PList []);
                  ("error", PStr e)])).

End Activities.

(** ** JSON text: [json.dumps] and [json.loads] *)

Module Json.

Definition dquote : ascii := "034"%char.
Definition backslash : ascii := "\"%char.
Definition lf : ascii := "010"%char.

Definition chars (s : string) : list ascii := list_ascii_of_string s.

(** *** Numerals *)

Fixpoint chars_of_uint (u : Decimal.uint) : list ascii :=
  match u with
  | Decimal.Nil => []
  | Decimal.D0 u => "0"%char :: chars_of_uint u
  | Decimal.D1 u => "1"%char :: chars_of_uint u
  | Decimal.D2 u => "2"%char :: chars_of_uint u
  | Decimal.D3 u => "3"%char :: chars_of_uint u
  | Decimal.D4 u => "4"%char :: chars_of_uint u
  | Decimal.D5 u => "5"%char :: chars_of_uint u
  | Decimal.D6 u => "6"%char :: chars_of_uint u
  | Decimal.D7 u => "7"%char :: chars_of_uint u
  | Decimal.D8 u => "8"%char :: chars_of_uint u
  | Decimal.D9 u => "9"%char :: chars_of_uint u
  end.

Definition digit_of_char (c : ascii) : option (Decimal.uint -> Decimal.uint) :=
  if Ascii.eqb c "0" then Some Decimal.D0
  else if Ascii.eqb c "1" then Some Decimal.D1
  else if Ascii.eqb c "2" then Some Decimal.D2
  else if Ascii.eqb c "3" then Some Decimal.D3
  else if Ascii.eqb c "4" then Some Decimal.D4
  else if Ascii.eqb c "5" then Some Decimal.D5
  else if Ascii.eqb c "6" then Some Decimal.D6
  else if Ascii.eqb c "7" then Some Decimal.D7
  else if Ascii.eqb c "8" then Some Decimal.D8
  else if Ascii.eqb c "9" then Some Decimal.D9
  else None.

Definition is_digit (c : ascii) : bool :=
  match digit_of_char c with
  | Some _ => true
  | None => false
  end.

(** The longest run of decimal digits at the head of the text. *)
Fixpoint read_uint (s : list ascii) : Decimal.uint * list ascii :=
  match s with
  | [] => (Decimal.Nil, [])
  | c :: s' =>
      match digit_of_char c with
      | Some d => let (u, r) := read_uint s' in (d u, r)
      | None => (Decimal.Nil, s)
      end
  end.

Definition uint_is_nil (u : Decimal.uint) : bool :=
  match u with
  | Decimal.Nil => true
  | _ => false
  end.

(** No superfluous leading zero: [0] or a numeral that starts with [1-9]. *)
Definition plain_uint (u : Decimal.uint) : bool :=
  match u with
  | Decimal.Nil => false
  | Decimal.D0 Decimal.Nil => true
  | Decimal.D0 _ => false
  | _ => true
  end.

Definition digit_cons (n : N) : Decimal.uint -> Decimal.uint :=
  match n with
  | 0%N => Decimal.D0
  | 1%N => Decimal.D1
  | 2%N => Decimal.D2
  | 3%N => Decimal.D3
  | 4%N => Decimal.D4
  | 5%N => Decimal.D5
  | 6%N => Decimal.D6
  | 7%N => Decimal.D7
  | 8%N => Decimal.D8
  | _ => Decimal.D9
  end.

(** Long division: the decimal digits of [r / d] for [r < d], until the
    remainder vanishes or [fuel] digits are out. *)
Fixpoint frac_digits (fuel : nat) (r d : N) : Decimal.uint :=
  match fuel with
  | O => Decimal.Nil
  | S fuel' =>
      if (r =? 0)%N then Decimal.Nil
      else digit_cons (10 * r / d)%N (frac_digits fuel' (10 * r mod d)%N d)
  end.

(** Does the long division end within [fuel] digits? *)
Fixpoint frac_exact (fuel : nat) (r d : N) : bool :=
  match fuel with
  | O => (r =? 0)%N
  | S fuel' => (r =? 0)%N || frac_exact fuel' (10 * r mod d)%N d
  end.

(** The value of the digits after the point. *)
Fixpoint frac_value (u : Decimal.uint) : Q :=
  let shift (n : Z) (u' : Decimal.uint) := ((inject_Z n + frac_value u') / 10)%Q in
  match u with
  | Decimal.Nil => 0%Q
  | Decimal.D0 u' => shift 0 u'
  | Decimal.D1 u' => shift 1 u'
  | Decimal.D2 u' => shift 2 u'
  | Decimal.D3 u' => shift 3 u'
  | Decimal.D4 u' => shift 4 u'
  | Decimal.D5 u' => shift 5 u'
  | Decimal.D6 u' => shift 6 u'
  | Decimal.D7 u' => shift 7 u'
  | Decimal.D8 u' => shift 8 u'
  | Decimal.D9 u' => shift 9 u'
  end.

(** Digits printed after the point before the expansion is cut. *)
Definition float_digits : nat := 40.

Definition encode_int (n : Z) : list ascii :=
  (if n <? 0 then ["-"%char] else []) ++ chars_of_uint (N.to_uint (Z.abs_N n)).

(** The digits printed after the point: at least one. *)
Definition shown_fraction (frac : Decimal.uint) : Decimal.uint :=
  if uint_is_nil frac then Decimal.D0 Decimal.Nil else frac.

(** [float.__repr__], in positional notation; the expansion is cut after
    [float_digits] digits. *)
Definition encode_float (q : Q) : list ascii :=
  let a := Z.abs_N (Qnum q) in
  let d := Npos (Qden q) in
  let frac := frac_digits float_digits (a mod d)%N d in
  (if Qnum q <? 0 then ["-"%char] else [])
    ++ chars_of_uint (N.to_uint (a / d)%N)
    ++ "."%char :: chars_of_uint (shown_fraction frac).

(** *** Strings *)

Definition hex_char (n : N) : ascii :=
  match n with
  | 0%N => "0" | 1%N => "1" | 2%N => "2" | 3%N => "3" | 4%N => "4"
  | 5%N => "5" | 6%N => "6" | 7%N => "7" | 8%N => "8" | 9%N => "9"
  | 10%N => "a" | 11%N => "b" | 12%N => "c" | 13%N => "d" | 14%N => "e"
  | _ => "f"
  end%char.

Definition hex_value (c : ascii) : option N :=
  let n := N_of_ascii c in
  if ((48 <=? n) && (n <=? 57))%N then Some (n - 48)%N
  else if ((97 <=? n) && (n <=? 102))%N then Some (n - 87)%N
  else if ((65 <=? n) && (n <=? 70))%N then Some (n - 55)%N
  else None.

Definition hex4_chars (n : N) : list ascii :=
  [hex_char (n / 4096); hex_char (n / 256 mod 16); hex_char (n / 16 mod 16);
   hex_char (n mod 16)]%N.

(** [ensure_ascii=True]: everything outside [' '..'~'], the quote and the
    backslash is escaped, a character above [U+FFFF] as a surrogate pair. *)
Definition escape_cp (cp : N) : list ascii :=
  if (cp =? 34)%N then [backslash; dquote]
  else if (cp =? 92)%N then [backslash; backslash]
  else if (cp =? 10)%N then [backslash; "n"%char]
  else if (cp =? 13)%N then [backslash; "r"%char]
  else if (cp =? 9)%N then [backslash; "t"%char]
  else if (cp =? 8)%N then [backslash; "b"%char]
  else if (cp =? 12)%N then [backslash; "f"%char]
  else if ((32 <=? cp) && (cp <=? 126))%N then [ascii_of_N cp]
  else if (cp <? 65536)%N then backslash :: "u"%char :: hex4_chars cp
  else
    let v := (cp - 65536)%N in
    backslash :: "u"%char :: hex4_chars (55296 + v / 1024)
      ++ backslash :: "u"%char :: hex4_chars (56320 + v mod 1024).

Definition encode_string (s : string) : list ascii :=
  dquote :: flat_map escape_cp (utf8_decode (chars s)) ++ [dquote].

Definition unescape (c : ascii) : option ascii :=
  if Ascii.eqb c dquote then Some dquote
  else if Ascii.eqb c backslash then Some backslash
  else if Ascii.eqb c "/" then Some "/"%char
  else if Ascii.eqb c "n" then Some lf
  else if Ascii.eqb c "r" then Some "013"%char
  else if Ascii.eqb c "t" then Some "009"%char
  else if Ascii.eqb c "b" then Some "008"%char
  else if Ascii.eqb c "f" then Some "012"%char
  else None.

Definition hex4 (a b c d : ascii) : option N :=
  match hex_value a, hex_value b, hex_value c, hex_value d with
  | Some x, Some y, Some z, Some w => Some (((x * 16 + y) * 16 + z) * 16 + w)%N
  | _, _, _, _ => None
  end.

Definition is_high_surrogate (n : N) : bool := ((55296 <=? n) && (n <? 56320))%N.
Definition is_low_surrogate (n : N) : bool := ((56320 <=? n) && (n <? 57344))%N.

(** The character of a surrogate pair. *)
Definition of_surrogates (hi lo : N) : N :=
  (65536 + (hi - 55296) * 1024 + (lo - 56320))%N.

(** The characters of a string literal, read after its opening quote, up
    to and including the closing one.  A [\uXXXX] escape of a high
    surrogate joins the escape of a low surrogate that follows it. *)
Fixpoint parse_string (s : list ascii) : result (list ascii * list ascii) :=
  match s with
  | [] => Raise "Unterminated string"
  | c :: s1 =>
      if Ascii.eqb c dquote then Ok ([], s1)
      else if Ascii.eqb c backslash then
        match s1 with
        | [] => Raise "Unterminated string"
        | e :: s2 =>
            if Ascii.eqb e "u" then
              match s2 with
              | h1 :: h2 :: h3 :: h4 :: s3 =>
                  match hex4 h1 h2 h3 h4 with
                  | Some n =>
                      let alone :=
                        let* (cs, r) := parse_string s3 in Ok (utf8_encode n ++ cs, r) in
                      if is_high_surrogate n then
                        match s3 with
                        | b :: u :: l1 :: l2 :: l3 :: l4 :: s4 =>
                            if Ascii.eqb b backslash && Ascii.eqb u "u" then
                              match hex4 l1 l2 l3 l4 with
                              | Some m =>
                                  if is_low_surrogate m then
                                    let* (cs, r) := parse_string s4 in
                                    Ok (utf8_encode (of_surrogates n m) ++ cs, r)
                                  else alone
                              | None => Raise "Invalid \uXXXX escape"
                              end
                            else alone
                        | _ => alone
                        end
                      else alone
                  | None => Raise "Invalid \uXXXX escape"
                  end
              | _ => Raise "Invalid \uXXXX escape"
              end
            else
              match unescape e with
              | Some c' => let* (cs, r) := parse_string s2 in Ok (c' :: cs, r)
              | None => Raise "Invalid \escape"
              end
        end
      else if (N_of_ascii c <? 32)%N then Raise "Invalid control character"
      else let* (cs, r) := parse_string s1 in Ok (c :: cs, r)
  end.

(** *** Values *)

Definition is_ws (c : ascii) : bool :=
  Ascii.eqb c " " || Ascii.eqb c "009" || Ascii.eqb c lf || Ascii.eqb c "013".

Fixpoint skip_ws (s : list ascii) : list ascii :=
  match s with
  | [] => []
  | c :: s' => if is_ws c then skip_ws s' else s
  end.

Fixpoint strip_prefix (p s : list ascii) : option (list ascii) :=
  match p, s with
  | [], _ => Some s
  | a :: p', b :: s' => if Ascii.eqb a b then strip_prefix p' s' else None
  | _ :: _, [] => None
  end.

(** ['\n' + ' ' * (indent * level)], or nothing without [indent]. *)
Definition newline_indent (indent : option nat) (level : nat) : list ascii :=
  match indent with
  | None => []
  | Some n => lf :: repeat " "%char (n * level)
  end.

Definition item_separator (indent : option nat) (level : nat) : list ascii :=
  match indent with
  | None => [","%char; " "%char]
  | Some _ => ","%char :: newline_indent indent level
  end.

Definition key_separator : list ascii := [":"%char; " "%char].

Fixpoint join (sep : list ascii) (parts : list (list ascii)) : list ascii :=
  match parts with
  | [] => []
  | p :: ps =>
      match ps with
      | [] => p
      | _ => p ++ sep ++ join sep ps
      end
  end.

Definition bracket (opening closing : ascii) (indent : option nat) (level : nat)
    (parts : list (list ascii)) : list ascii :=
  match parts with
  | [] => [opening; closing]
  | _ =>
      opening :: newline_indent indent (S level)
        ++ join (item_separator indent (S level)) parts
        ++ newline_indent indent level ++ [closing]
  end.

Fixpoint encode (indent : option nat) (level : nat) (v : pyval) : list ascii :=
  match v with
  | PNone => chars "null"
  | PBool true => chars "true"
  | PBool false => chars "false"
  | PInt n => encode_int n
  | PFloat q => encode_float q
  | PStr s => encode_string s
  | PList l => bracket "[" "]" indent level (map (encode indent (S level)) l)
  | PDict d =>
      bracket "{" "}" indent level
        (map (fun kv => encode_string (fst kv) ++ key_separator
                          ++ encode indent (S level) (snd kv)) d)
  | PNonFinite NaN => chars "NaN"
  | PNonFinite Infinity => chars "Infinity"
  | PNonFinite NegInfinity => chars "-Infinity"
  end.

(** [json.dumps(obj)] and [json.dumps(obj, indent=n)]. *)
Definition dumps (obj : pyval) (indent : option nat) : string :=
  string_of_list_ascii (encode indent 0 obj).

Definition read_sign (s : list ascii) : bool * list ascii :=
  match s with
  | c :: s' => if Ascii.eqb c "-" then (true, s') else (false, s)
  | [] => (false, s)
  end.

Definition read_fraction (s : list ascii) : option Decimal.uint * list ascii :=
  match s with
  | c :: s' =>
      if Ascii.eqb c "." then
        let (f, r) := read_uint s' in
        if uint_is_nil f then (None, s) else (Some f, r)
      else (None, s)
  | [] => (None, s)
  end.

Definition read_exponent (s : list ascii) : option Z * list ascii :=
  match s with
  | c :: s' =>
      if Ascii.eqb c "e" || Ascii.eqb c "E" then
        let (neg, s'') :=
          match s' with
          | c' :: t =>
              if Ascii.eqb c' "-" then (true, t)
              else if Ascii.eqb c' "+" then (false, t) else (false, s')
          | [] => (false, s')
          end in
        let (e, r) := read_uint s'' in
        if uint_is_nil e then (None, s)
        else (Some (if neg then - Z.of_N (N.of_uint e) else Z.of_N (N.of_uint e)), r)
      else (None, s)
  | [] => (None, s)
  end.

(** The digits of a number token, its sign read: an [int] without fraction
    and exponent, a [float] with either. *)
Definition number_body (neg : bool) (s1 : list ascii) : result (pyval * list ascii) :=
  let (ip, s2) := read_uint s1 in
  if plain_uint ip then
    let n := Z.of_N (N.of_uint ip) in
    let (frac, s3) := read_fraction s2 in
    let (exp, s4) := read_exponent s3 in
    match frac, exp with
    | None, None => Ok (PInt (if neg then - n else n), s4)
    | _, _ =>
        let f := match frac with Some u => frac_value u | None => 0%Q end in
        let scale := match exp with Some e => Qpower 10 e | None => 1%Q end in
        let x := (inject_Z n + f)%Q in
        Ok (PFloat (Qred ((if neg then - x else x) * scale)), s4)
    end
  else Raise "Expecting value".

Definition parse_number (s : list ascii) : result (pyval * list ascii) :=
  let (neg, s1) := read_sign s in
  number_body neg s1.

(** [dict(pairs)]: a repeated key keeps its first place and its last value. *)
Definition dict_of_pairs (pairs : dict) : dict :=
  fold_left (fun d kv => dict_set (fst kv) (snd kv) d) pairs [].

Fixpoint parse_value (fuel : nat) (s : list ascii) {struct fuel}
    : result (pyval * list ascii) :=
  match fuel with
  | O => Raise "maximum recursion depth exceeded"
  | S fuel' =>
      match s with
      | [] => Raise "Expecting value"
      | c :: s1 =>
          if Ascii.eqb c dquote then
            let* (cs, r) := parse_string s1 in
            Ok (PStr (string_of_list_ascii cs), r)
          else if Ascii.eqb c "{" then
            match skip_ws s1 with
            | [] => Raise "Expecting property name enclosed in double quotes"
            | c' :: s2 =>
                if Ascii.eqb c' "}" then Ok (PDict [], s2)
                else
                  let* (pairs, r) := parse_members fuel' (c' :: s2) in
                  Ok (PDict (dict_of_pairs pairs), r)
            end
          else if Ascii.eqb c "[" then
            match skip_ws s1 with
            | [] => Raise "Expecting value"
            | c' :: s2 =>
                if Ascii.eqb c' "]" then Ok (PList [], s2)
                else
                  let* (items, r) := parse_items fuel' (c' :: s2) in
                  Ok (PList items, r)
            end
          else
            match strip_prefix (chars "null") s with
            | Some r => Ok (PNone, r)
            | None =>
                match strip_prefix (chars "true") s with
                | Some r => Ok (PBool true, r)
                | None =>
                    match strip_prefix (chars "false") s with
                    | Some r => Ok (PBool false, r)
                    | None =>
                        match strip_prefix (chars "NaN") s with
                        | Some r => Ok (PNonFinite NaN, r)
                        | None =>
                            match strip_prefix (chars "Infinity") s with
                            | Some r => Ok (PNonFinite Infinity, r)
                            | None =>
                                match strip_prefix (chars "-Infinity") s with
                                | Some r => Ok (PNonFinite NegInfinity, r)
                                | None => parse_number s
                                end
                            end
                        end
                    end
                end
            end
      end
  end

with parse_items (fuel : nat) (s : list ascii) {struct fuel}
    : result (list pyval * list ascii) :=
  match fuel with
  | O => Raise "maximum recursion depth exceeded"
  | S fuel' =>
      let* (v, s1) := parse_value fuel' s in
      match skip_ws s1 with
      | [] => Raise "Expecting ',' delimiter"
      | c :: s2 =>
          if Ascii.eqb c "," then
            let* (vs, r) := parse_items fuel' (skip_ws s2) in
            Ok (v :: vs, r)
          else if Ascii.eqb c "]" then Ok ([v], s2)
          else Raise "Expecting ',' delimiter"
      end
  end

with parse_members (fuel : nat) (s : list ascii) {struct fuel}
    : result (dict * list ascii) :=
  match fuel with
  | O => Raise "maximum recursion depth exceeded"
  | S fuel' =>
      match s with
      | [] => Raise "Expecting property name enclosed in double quotes"
      | c :: s1 =>
          if Ascii.eqb c dquote then
            let* (ks, s2) := parse_string s1 in
            match skip_ws s2 with
            | [] => Raise "Expecting ':' delimiter"
            | c2 :: s3 =>
                if Ascii.eqb c2 ":" then
                  let* (v, s4) := parse_value fuel' (skip_ws s3) in
                  match skip_ws s4 with
                  | [] => Raise "Expecting ',' delimiter"
                  | c3 :: s5 =>
                      if Ascii.eqb c3 "," then
                        let* (kvs, r) := parse_members fuel' (skip_ws s5) in
                        Ok ((string_of_list_ascii ks, v) :: kvs, r)
                      else if Ascii.eqb c3 "}" then
                        Ok ([(string_of_list_ascii ks, v)], s5)
                      else Raise "Expecting ',' delimiter"
                  end
                else Raise "Expecting ':' delimiter"
            end
          else Raise "Expecting property name enclosed in double quotes"
      end
  end.

(** [json.loads(s)]: one value, white space around it, nothing after. *)
Definition loads (s : string) : result pyval :=
  let cs := skip_ws (chars s) in
  let* (v, r) := parse_value (S (2 * length cs)) cs in
  match skip_ws r with
  | [] => Ok v
  | _ :: _ => Raise "Extra data"
  end.

(** *** Notions for the round trip *)

(** What may follow a number token. *)
Definition ends_number (rest : list ascii) : bool :=
  match rest with
  | [] => true
  | c :: _ => negb (is_digit c || Ascii.eqb c "." || Ascii.eqb c "e" || Ascii.eqb c "E")
  end.

Definition no_digit_ahead (rest : list ascii) : bool :=
  match rest with
  | [] => true
  | c :: _ => negb (is_digit c)
  end.

(** A text that begins with the first character of a value. *)
Definition starts_value (s : list ascii) : bool :=
  match s with
  | [] => false
  | c :: _ => negb (is_ws c) && negb (Ascii.eqb c "]")
  end.

(** The text of one member of an object. *)
Definition member (indent : option nat) (level : nat) (kv : string * pyval) : list ascii :=
  encode_string (fst kv) ++ key_separator ++ encode indent level (snd kv).

(** The float that the text of [q] denotes: [q] itself when its expansion
    ends within the digits printed. *)
Definition float_reloaded (q : Q) : Q :=
  let a := Z.abs_N (Qnum q) in
  let d := Npos (Qden q) in
  let frac := shown_fraction (frac_digits float_digits (a mod d)%N d) in
  let x := (inject_Z (Z.of_N (a / d)) + frac_value frac)%Q in
  Qred ((if Qnum q <? 0 then - x else x) * 1).

(** What [json.loads] makes of the text that [json.dumps] writes: the value
    itself, with every float as its text denotes it and every dictionary
    built anew from its pairs. *)
Fixpoint reloaded (v : pyval) : pyval :=
  match v with
  | PFloat q => PFloat (float_reloaded q)
  | PList l => PList (map reloaded l)
  | PDict d => PDict (dict_of_pairs (map (fun kv => (fst kv, reloaded (snd kv))) d))
  | _ => v
  end.

(** The parser, given fuel for it, reads [v] from its text, whatever the
    layout and whatever follows. *)
Definition reads_back (v : pyval) : Prop :=
  forall indent level fuel rest,
    (size v <= fuel)%nat ->
    ends_number rest = true ->
    parse_value fuel (encode indent level v ++ rest) = Ok (reloaded v, rest).

End Json.

(** ** The report reducer *)

(** What the process asks of its host: [str(uuid.uuid4())] and
    [datetime.utcnow().isoformat()], each a stream of answers consumed call
    by call. *)
Record host := {
  uuid_stream : nat -> string;
  clock : nat -> string;
  uuid_calls : nat;
  clock_calls : nat;
}.

Definition uuid4 (h : host) : string * host :=
  (uuid_stream h (uuid_calls h),
   {| uuid_stream := uuid_stream h; clock := clock h;
      uuid_calls := S (uuid_calls h); clock_calls := clock_calls h |}).

Definition utcnow (h : host) : string * host :=
  (clock h (clock_calls h),
   {| uuid_stream := uuid_stream h; clock := clock h;
      uuid_calls := uuid_calls h; clock_calls := S (clock_calls h) |}).

Definition is_slash (v : pyval) : bool :=
  match v with
  | PStr s => String.eqb s "/"
  | _ => false
  end.

(** [blob_name.split("/")[-1] if "/" in blob_name else blob_name] *)
Definition file_name_of (blob_name : pyval) : result pyval :=
  match blob_name with
  | PStr s => Ok (PStr (if contains_char "/" s then last_segment "/" s else s))
  | PList l =>
      if existsb is_slash l then Raise "'list' object has no attribute 'split'"
      else Ok blob_name
  | PDict d =>
      if existsb (String.eqb "/") (dict_keys d)
      then Raise "'dict' object has no attribute 'split'"
      else Ok blob_name
  | _ => Raise ("argument of type '" ++ type_name blob_name ++ "' is not iterable")
  end.

Definition generate_report (reportData : pyval) (h : host) : result pyval * host :=
  match (let* blob_name := getitem reportData "blob_name" in
         let* filename := file_name_of blob_name in
         Ok (blob_name, filename)) with
  | Raise e => (Raise e, h)
  | Ok (blob_name, filename) =>
      let (id, h1) := uuid4 h in
      let (analyzedAt, h2) := utcnow h1 in
      (let* text := getitem reportData "text" in
       let* metadata := getitem reportData "metadata" in
       let* statistics := getitem reportData "statistics" in
       let* sensitive_data := getitem reportData "sensitive_data" in
       let* format := get_default metadata "format" (PStr "Unknown") in
       let* hasText := get_default text "hasText" (PBool false) in
       Ok (PDict [("id", PStr id);
                  ("fileName", filename);
                  ("blobPath", blob_name);
                  ("analyzedAt", PStr analyzedAt);
                  ("analyses", PDict [("text", text);
                                      ("metadata", metadata);
                                      ("statistics", statistics);
                                      ("sensitive_data", sensitive_data)]);
                  ("summary", PDict [("format", format);
                                     ("hasText", hasText)])]),
       h2)
  end.

(** ** Table storage *)

Definition TABLE_NAME : string := "PDFAnalysisResults".

(** What the functions ask of the table service: a client for a connection
    string, which the library builds without a request of its own but
    refuses for a string it cannot read, and the four requests. *)
Inductive request :=
| Connect (connection_string : string)
| CreateTable
| UpsertEntity
| GetEntity
| QueryEntities.

(** The storage account as the functions see it: the process environment,
    the tables with their rows under [(PartitionKey, RowKey)], and, for each
    kind of request, the error it currently ends with, if any (a malformed
    connection string, no network, no permission, ...). *)
Record storage := {
  environ : gmap string string;
  outage : request -> option string;
  tables : gmap string (gmap (string * string) dict);
}.

(** Code that talks to the account: it reads and updates the storage and
    may raise. *)
Definition io (A : Type) : Type := storage -> result A * storage.

Definition io_ret {A} (a : A) : io A := fun st => (Ok a, st).

Definition io_lift {A} (r : result A) : io A := fun st => (r, st).

Definition io_bind {A B} (m : io A) (k : A -> io B) : io B :=
  fun st =>
    match m st with
    | (Ok a, st') => k a st'
    | (Raise e, st') => (Raise e, st')
    end.

Definition io_try {A} (body : io A) (handler : string -> io A) : io A :=
  fun st =>
    match body st with
    | (Ok a, st') => (Ok a, st')
    | (Raise e, st') => handler e st'
    end.

Notation "'let!' x ':=' m 'in' k" := (io_bind m (fun x => k))
  (at level 10, x name, m at level 100, k at level 200).

Definition with_tables (st : storage) (t : gmap string (gmap (string * string) dict))
    : storage :=
  {| environ := environ st; outage := outage st; tables := t |}.

Definition create_table_if_not_exists (name : string) : io unit :=
  fun st =>
    match outage st CreateTable with
    | Some e => (Raise e, st)
    | None =>
        match tables st !! name with
        | Some _ => (Ok tt, st)
        | None => (Ok tt, with_tables st (<[name := ∅]> (tables st)))
        end
    end.

(** [TableServiceClient.from_connection_string(conn_str)] *)
Definition from_connection_string (conn_str : string) : io unit :=
  fun st =>
    match outage st (Connect conn_str) with
    | Some e => (Raise e, st)
    | None => (Ok tt, st)
    end.

(** The client is the name of the table it is bound to. *)
Definition get_table_client : io string :=
  fun st =>
    match environ st !! "PDFStorageConnection" with
    | None => (Raise "'PDFStorageConnection'", st)
    | Some connection_string =>
        (let! _ := from_connection_string connection_string in
         let! _ := create_table_if_not_exists TABLE_NAME in
         io_ret TABLE_NAME) st
    end.

Definition as_str (v : pyval) : result string :=
  match v with
  | PStr s => Ok s
  | _ => Raise "expected str"
  end.

(** The two keys of an entity; the service refuses keys that are not text. *)
Definition entity_key (entity : dict) : result (string * string) :=
  let* pk := getitem (PDict entity) "PartitionKey" in
  let* pk := as_str pk in
  let* rk := getitem (PDict entity) "RowKey" in
  let* rk := as_str rk in
  Ok (pk, rk).

Definition upsert_entity (client : string) (entity : dict) : io unit :=
  fun st =>
    match outage st UpsertEntity with
    | Some e => (Raise e, st)
    | None =>
        match entity_key entity with
        | Raise e => (Raise e, st)
        | Ok key =>
            match tables st !! client with
            | None => (Raise "TableNotFound", st)
            | Some rows =>
                (Ok tt, with_tables st (<[client := <[key := entity]> rows]> (tables st)))
            end
        end
    end.

Definition get_entity (client partition_key row_key : string) : io dict :=
  fun st =>
    match outage st GetEntity with
    | Some e => (Raise e, st)
    | None =>
        match tables st !! client with
        | None => (Raise "TableNotFound", st)
        | Some rows =>
            match rows !! (partition_key, row_key) with
            | Some entity => (Ok entity, st)
            | None => (Raise "ResourceNotFound", st)
            end
        end
    end.

(** Stable insertion by ascending [RowKey]. *)
Fixpoint insert_row (x : (string * string) * dict) (l : list ((string * string) * dict))
    : list ((string * string) * dict) :=
  match l with
  | [] => [x]
  | y :: l' =>
      if String.ltb (snd (fst x)) (snd (fst y)) then x :: l else y :: insert_row x l'
  end.

(** [query_entities(query_filter="PartitionKey eq '<partition_key>'")]: the
    entities of the partition, which the service hands out by ascending
    [RowKey]. *)
Definition query_entities (client partition_key : string) : io (list dict) :=
  fun st =>
    match outage st QueryEntities with
    | Some e => (Raise e, st)
    | None =>
        match tables st !! client with
        | None => (Raise "TableNotFound", st)
        | Some rows =>
            (Ok (map snd
                   (fold_right insert_row []
                      (filter (fun kv => fst (fst kv) = partition_key)
                              (map_to_list rows)))), st)
        end
    end.

(** ** The persistence activity *)

Definition dumps_str (v : pyval) : pyval := PStr (Json.dumps v None).

(** The flat entity written for a report: nested data as JSON text. *)
Definition entity_of (report : pyval) : result dict :=
  let* id := getitem report "id" in
  let* fileName := getitem report "fileName" in
  let* blobPath := getitem report "blobPath" in
  let* analyzedAt := getitem report "analyzedAt" in
  let* summary := getitem report "summary" in
  let* analyses := getitem report "analyses" in
  let* text := getitem analyses "text" in
  let* analyses := getitem report "analyses" in
  let* metadata := getitem analyses "metadata" in
  Ok [("PartitionKey", PStr "PDFAnalysis");
      ("RowKey", id);
      ("FileName", fileName);
      ("BlobPath", blobPath);
      ("AnalyzedAt", analyzedAt);
      ("Summary", dumps_str summary);
      ("TextAnalysis", dumps_str text);
      ("MetadataAnalysis", dumps_str metadata)].

Definition stored_record (report : pyval) : result pyval :=
  let* id := getitem report "id" in
  let* fileName := getitem report "fileName" in
  let* analyzedAt := getitem report "analyzedAt" in
  let* summary := getitem report "summary" in
  Ok (PDict [("id", id);
             ("fileName", fileName);
             ("status", PStr "stored");
             ("analyzedAt", analyzedAt);
             ("summary", summary)]).

Definition error_record (report : pyval) (e : string) : result pyval :=
  let* id := get_default report "id" (PStr "unknown") in
  Ok (PDict [("id", id);
             ("status", PStr "error");
             ("error", PStr e)]).

(** The first line formats [report['fileName']] for the log, outside the
    [try]. *)
Definition store_results (report : pyval) : io pyval :=
  let! _ := io_lift (getitem report "fileName") in
  io_try
    (let! table_client := get_table_client in
     let! entity := io_lift (entity_of report) in
     let! _ := upsert_entity table_client entity in
     io_lift (stored_record report))
    (fun e => io_lift (error_record report e)).

(** ** The query function *)

Record HttpRequest := {
  route_params : gmap string string;
  params : gmap string string;
}.

Record HttpResponse := {
  body : string;
  mimetype : string;
  status_code : Z;
}.

Definition json_response (payload : pyval) (indent : option nat) (status : Z)
    : HttpResponse :=
  {| body := Json.dumps payload indent;
     mimetype := "application/json";
     status_code := status |}.

(** [json.loads(entity[k])] *)
Definition loads_field (entity : dict) (k : string) : result pyval :=
  let* v := getitem (PDict entity) k in
  match v with
  | PStr s => Json.loads s
  | _ => Raise ("the JSON object must be str, bytes or bytearray, not " ++ type_name v)
  end.

(** The dictionary [get_results] rebuilds from one stored entity. *)
Definition result_of_entity (entity : dict) : result pyval :=
  let* id := getitem (PDict entity) "RowKey" in
  let* fileName := getitem (PDict entity) "FileName" in
  let* blobPath := getitem (PDict entity) "BlobPath" in
  let* analyzedAt := getitem (PDict entity) "AnalyzedAt" in
  let* summary := loads_field entity "Summary" in
  let* text := loads_field entity "TextAnalysis" in
  let* metadata := loads_field entity "MetadataAnalysis" in
  Ok (PDict [("id", id);
             ("fileName", fileName);
             ("blobPath", blobPath);
             ("analyzedAt", analyzedAt);
             ("summary", summary);
             ("analyses", PDict [("text", text); ("metadata", metadata)])]).

(** One line of the listing. *)
Definition summary_of_entity (entity : dict) : result pyval :=
  let* id := getitem (PDict entity) "RowKey" in
  let* fileName := getitem (PDict entity) "FileName" in
  let* analyzedAt := getitem (PDict entity) "AnalyzedAt" in
  let* summary := loads_field entity "Summary" in
  Ok (PDict [("id", id);
             ("fileName", fileName);
             ("analyzedAt", analyzedAt);
             ("summary", summary)]).

Fixpoint summaries (entities : list dict) : result (list pyval) :=
  match entities with
  | [] => Ok []
  | entity :: rest =>
      let* x := summary_of_entity entity in
      let* xs := summaries rest in
      Ok (x :: xs)
  end.

(** [x["analyzedAt"]] as a sort key.  Time stamps are strings, as
    [store_results] writes them; a key of another type is a [TypeError]. *)
Definition sort_key (x : pyval) : result string :=
  let* k := getitem x "analyzedAt" in
  match k with
  | PStr s => Ok s
  | _ => Raise "'<' not supported between these instances"
  end.

Fixpoint keyed (results : list pyval) : result (list (string * pyval)) :=
  match results with
  | [] => Ok []
  | x :: rest =>
      let* k := sort_key x in
      let* ks := keyed rest in
      Ok ((k, x) :: ks)
  end.

(** Stable insertion for a descending order: [x] goes in front of the first
    element whose key is not above its own. *)
Fixpoint insert_desc (x : string * pyval) (l : list (string * pyval))
    : list (string * pyval) :=
  match l with
  | [] => [x]
  | y :: l' =>
      if String.ltb (fst x) (fst y) then y :: insert_desc x l' else x :: l
  end.

(** [results.sort(key=lambda x: x["analyzedAt"], reverse=True)]: a stable
    sort, largest key first. *)
Definition sort_desc (results : list pyval) : result (list pyval) :=
  let* ks := keyed results in
  Ok (map snd (fold_right insert_desc [] ks)).

(** [l[:limit]], with Python's reading of a negative bound. *)
Definition slice_to {A} (limit : Z) (l : list A) : list A :=
  if 0 <=? limit then firstn (Z.to_nat limit) l
  else firstn (Z.to_nat (Z.of_nat (length l) + limit)) l.

(** The decimal digits of Unicode 15 come in runs of ten: the code points of
    the zeros. *)
Definition decimal_zeros : list N :=
  [48; 1632; 1776; 1984; 2406; 2534; 2662; 2790; 2918; 3046; 3174; 3302; 3430;
   3558; 3664; 3792; 3872; 4160; 4240; 6112; 6160; 6470; 6608; 6784; 6800; 6992;
   7088; 7232; 7248; 42528; 43216; 43264; 43472; 43504; 43600; 44016; 65296;
   66720; 68912; 69734; 69872; 69942; 70096; 70384; 70736; 70864; 71248; 71360;
   71472; 71904; 72016; 72784; 73040; 73120; 73552; 92768; 92864; 93008; 120782;
   120792; 120802; 120812; 120822; 123200; 123632; 124144; 125264; 130032]%N.

Definition decimal_value (cp : N) : option N :=
  match find (fun z => (z <=? cp) && (cp <? z + 10))%N decimal_zeros with
  | Some z => Some (cp - z)%N
  | None => None
  end.

(** What [int] reads for a character: itself in ASCII, a blank for a white
    space of Unicode, the ASCII digit of a decimal digit, and nothing it can
    use otherwise. *)
Definition to_ascii (cp : N) : ascii :=
  if (cp <? 128)%N then ascii_of_N cp
  else if is_space cp then " "%char
  else
    match decimal_value cp with
    | Some d => ascii_of_N (48 + d)
    | None => "?"%char
    end.

(** C's [isspace]. *)
Definition is_c_space (c : ascii) : bool :=
  let n := N_of_ascii c in ((9 <=? n) && (n <=? 13) || (n =? 32))%N.

Fixpoint lstrip (s : list ascii) : list ascii :=
  match s with
  | [] => []
  | c :: s' => if is_c_space c then lstrip s' else s
  end.

(** Decimal digits, single underscores allowed between them. *)
Fixpoint int_digits (after_digit : bool) (s : list ascii) : option Decimal.uint :=
  match s with
  | [] => if after_digit then Some Decimal.Nil else None
  | c :: s' =>
      if Ascii.eqb c "_" then
        match s' with
        | [] => None
        | _ :: _ => if after_digit then int_digits false s' else None
        end
      else
        match Json.digit_of_char c with
        | Some d => option_map d (int_digits true s')
        | None => None
        end
  end.

(** [int(s)] for a string: optional white space around an optionally signed
    decimal numeral. *)
Definition py_int (s : string) : result Z :=
  let cs := map to_ascii (utf8_decode (list_ascii_of_string s)) in
  let cs := rev (lstrip (rev (lstrip cs))) in
  let (neg, digits) :=
    match cs with
    | c :: cs' =>
        if Ascii.eqb c "-" then (true, cs')
        else if Ascii.eqb c "+" then (false, cs') else (false, cs)
    | [] => (false, cs)
    end in
  match int_digits false digits with
  | Some u => Ok (if neg then - Z.of_N (N.of_uint u) else Z.of_N (N.of_uint u))
  | None => Raise ("invalid literal for int() with base 10: '" ++ s ++ "'")
  end.

Definition get_results (req : HttpRequest) : io HttpResponse :=
  io_try
    (let! table_client := get_table_client in
     let result_id := route_params req !! "id" in
     if truthy (opt_str result_id) then
       let result_id := default "" result_id in
       io_try
         (let! entity := get_entity table_client "PDFAnalysis" result_id in
          let! result := io_lift (result_of_entity entity) in
          io_ret (json_response result (Some 2%nat) 200))
         (fun _ =>
            io_ret (json_response
                      (PDict [("error", PStr ("Result not found: " ++ result_id))])
                      None 404))
     else
       let! limit := io_lift (py_int (default "10" (params req !! "limit"))) in
       let! entities := query_entities table_client "PDFAnalysis" in
       let! results := io_lift (summaries entities) in
       let! results := io_lift (sort_desc results) in
       let results := slice_to limit results in
       io_ret (json_response
                 (PDict [("count", PInt (Z.of_nat (length results)));
                         ("results", PList results)])
                 (Some 2%nat) 200))
    (fun e => io_ret (json_response (PDict [("error", PStr e)]) None 500)).

(** ** The blob trigger *)

Module Func.
(** [func.InputStream]: the blob that fired the trigger. *)
Record InputStream := {
  name : string;
  read : list Byte.byte;
}.
End Func.

(** [round(x, ndigits)] on a float: the nearest multiple of
    [10 ** -ndigits], the even one on a tie. *)
Definition py_round (x : Q) (ndigits : nat) : Q :=
  let scale := 10 ^ Z.of_nat ndigits in
  let y := (x * inject_Z scale)%Q in
  let below := Qfloor y in
  let nearest :=
    match Qcompare (2 * (y - inject_Z below)) 1 with
    | Lt => below
    | Gt => below + 1
    | Eq => if Z.even below then below else below + 1
    end in
  Qred (inject_Z nearest / inject_Z scale).

(** [list(blob_bytes)] *)
Definition list_of_bytes (b : list Byte.byte) : pyval :=
  PList (map (fun x => PInt (Z.of_N (Byte.to_N x))) b).

(** An orchestration as the durable client has started it: the function to
    run and its input, which travels as JSON text. *)
Record instance := {
  instance_id : string;
  orchestration_function_name : string;
  input : string;
}.

Record DurableOrchestrationClient := {
  new_instance_id : nat -> string;
  instances : list instance;
}.

(** [client.start_new(name, client_input=...)] *)
Definition start_new (name : string) (client_input : pyval)
    (client : DurableOrchestrationClient) : string * DurableOrchestrationClient :=
  let id := new_instance_id client (length (instances client)) in
  (id,
   {| new_instance_id := new_instance_id client;
      instances := instances client
                     ++ [{| instance_id := id;
                            orchestration_function_name := name;
                            input := Json.dumps client_input None |}] |}).

(** [context.get_input()] *)
Definition get_input (i : instance) : result pyval := Json.loads (input i).

(** The dictionary that the trigger builds for the orchestrator. *)
Definition blob_input (myblob : Func.InputStream) : result pyval :=
  let blob_name := Func.name myblob in
  let blob_bytes := Func.read myblob in
  let* kb := truediv (Z.of_nat (length blob_bytes)) 1024 in
  let blob_size_kb := py_round kb 2 in
  Ok (PDict [("blob_name", PStr blob_name);
             ("blob_bytes", list_of_bytes blob_bytes);
             ("blob_size_kb", PFloat blob_size_kb)]).

Definition blob_trigger (myblob : Func.InputStream) (client : DurableOrchestrationClient)
    : result unit * DurableOrchestrationClient :=
  match blob_input myblob with
  | Raise e => (Raise e, client)
  | Ok input_data =>
      let (instance_id, client') :=
        start_new "pdf_analyzer_orchestrator" input_data client in
      (Ok tt, client')
  end.

(** ** The orchestrator *)

(** Everything outside the process that a run can observe or change. *)
Record world := {
  w_host : host;
  w_storage : storage;
}.

(** [context.call_activity(name, input)]: a task, not yet run. *)
Record task := call_activity {
  task_name : string;
  task_input : pyval;
}.

(** How a run, driven as far as the completed tasks allow, stands. *)
Inductive outcome :=
| Completed (output : pyval)
| Failed (msg : string)
| Pending.

Section Orchestration.

Variable PdfReader : list Byte.byte -> result Pypdf.reader.
Variable re_findall : pattern -> string -> list string.

(** The activity functions registered with the app, by name. *)
Definition run_activity (t : task) (w : world) : result pyval * world :=
  let name := task_name t in
  let input := task_input t in
  if String.eqb name "extract_text" then (extract_text PdfReader input, w)
  else if String.eqb name "extract_metadata" then (extract_metadata PdfReader input, w)
  else if String.eqb name "analyze_statistics" then (analyze_statistics PdfReader input, w)
  else if String.eqb name "detect_sensitive_data" then
    (detect_sensitive_data PdfReader re_findall input, w)
  else if String.eqb name "generate_report" then
    let (r, h) := generate_report input (w_host w) in
    (r, {| w_host := h; w_storage := w_storage w |})
  else if String.eqb name "store_results" then
    let (r, st) := store_results input (w_storage w) in
    (r, {| w_host := w_host w; w_storage := st |})
  else (Raise ("activity not found: " ++ name), w).

(** The tasks of a fan-out finish in some order; [order] lists their
    positions as they complete.  Each result is filed under the position
    of its task. *)
Fixpoint complete (tasks : list task) (order : list nat)
    (slots : list (option (result pyval))) (w : world)
    : list (option (result pyval)) * world :=
  match order with
  | [] => (slots, w)
  | i :: order' =>
      match tasks !! i with
      | Some t =>
          let (r, w') := run_activity t w in
          complete tasks order' (<[i := Some r]> slots) w'
      | None => complete tasks order' slots w
      end
  end.

(** All slots filled: the results in task order, or the first failure. *)
Fixpoint gather (slots : list (option (result pyval))) : option (result (list pyval)) :=
  match slots with
  | [] => Some (Ok [])
  | None :: _ => None
  | Some r :: rest =>
      match gather rest with
      | None => None
      | Some rs =>
          Some (let* v := r in let* vs := rs in Ok (v :: vs))
      end
  end.

(** [yield context.task_all(tasks)] *)
Definition task_all (tasks : list task) (order : list nat) (w : world)
    : option (result (list pyval)) * world :=
  let (slots, w') := complete tasks order (replicate (length tasks) None) w in
  (gather slots, w').

Definition analysis_tasks (input_data : pyval) : list task :=
  [call_activity "extract_text" input_data;
   call_activity "extract_metadata" input_data;
   call_activity "analyze_statistics" input_data;
   call_activity "detect_sensitive_data" input_data].

(** [results[i]] *)
Definition index (results : list pyval) (i : nat) : result pyval :=
  match results !! i with
  | Some v => Ok v
  | None => Raise "list index out of range"
  end.

Definition report_input_of (input_data : pyval) (results : list pyval) : result pyval :=
  let* blob_name := getitem input_data "blob_name" in
  let* text := index results 0 in
  let* metadata := index results 1 in
  let* statistics := index results 2 in
  let* sensitive_data := index results 3 in
  Ok (PDict [("blob_name", blob_name);
             ("text", text);
             ("metadata", metadata);
             ("statistics", statistics);
             ("sensitive_data", sensitive_data)]).

Definition pdf_analyzer_orchestrator (input_data : pyval) (order : list nat) (w : world)
    : outcome * world :=
  match getitem input_data "blob_name" with
  | Raise e => (Failed e, w)
  | Ok _ =>
      match task_all (analysis_tasks input_data) order w with
      | (None, w1) => (Pending, w1)
      | (Some (Raise e), w1) => (Failed e, w1)
      | (Some (Ok results), w1) =>
          match report_input_of input_data results with
          | Raise e => (Failed e, w1)
          | Ok report_input =>
              match run_activity (call_activity "generate_report" report_input) w1 with
              | (Raise e, w2) => (Failed e, w2)
              | (Ok report, w2) =>
                  match run_activity (call_activity "store_results" report) w2 with
                  | (Raise e, w3) => (Failed e, w3)
                  | (Ok record, w3) => (Completed record, w3)
                  end
              end
          end
      end
  end.

End Orchestration.

(** ** Notions used in the statements *)

Definition numeric (v : pyval) : option Q :=
  match v with
  | PBool b => Some (if b then 1%Q else 0%Q)
  | PInt n => Some (inject_Z n)
  | PFloat q => Some q
  | _ => None
  end.

(** Python's [==] on these values: numbers by value, lists position by
    position, dictionaries key by key whatever the order of insertion. *)
Fixpoint py_eq (a b : pyval) : bool :=
  match a, b with
  | PNone, PNone => true
  | PStr x, PStr y => String.eqb x y
  | PList x, PList y =>
      (fix eq_list (l1 l2 : list pyval) : bool :=
         match l1, l2 with
         | [], [] => true
         | u :: l1', w :: l2' => py_eq u w && eq_list l1' l2'
         | _, _ => false
         end) x y
  | PDict x, PDict y =>
      Nat.eqb (length x) (length y)
      && forallb (fun kv =>
                    match dict_lookup (fst kv) y with
                    | Some w => py_eq (snd kv) w
                    | None => false
                    end) x
  | PNonFinite x, PNonFinite y =>
      match x, y with
      | Infinity, Infinity | NegInfinity, NegInfinity => true
      | _, _ => false
      end
  | _, _ =>
      match numeric a, numeric b with
      | Some p, Some q => Qeq_bool p q
      | _, _ => false
      end
  end.

Fixpoint distinct (l : list string) : bool :=
  match l with
  | [] => true
  | k :: l' => negb (existsb (String.eqb k) l') && distinct l'
  end.

(** A float in lowest terms whose decimal expansion ends within the digits
    that [Json.encode_float] prints. *)
Definition printable_float (q : Q) : bool :=
  (Qnum (Qred q) =? Qnum q) && (Qden (Qred q) =? Qden q)%positive
  && Json.frac_exact Json.float_digits
       (Z.abs_N (Qnum q) mod Npos (Qden q))%N (Npos (Qden q)).

(** The values that JSON text carries without loss: dictionaries with
    pairwise distinct keys, floats as above. *)
Fixpoint json_ok (v : pyval) : bool :=
  match v with
  | PFloat q => printable_float q
  | PList l => forallb json_ok l
  | PDict d => distinct (dict_keys d) && forallb (fun kv => json_ok (snd kv)) d
  | _ => true
  end.

(** [a] is at least as recent as [b], by their [analyzedAt] texts. *)
Definition not_older (a b : pyval) : Prop :=
  exists ka kb, sort_key a = Ok ka /\ sort_key b = Ok kb /\ String.leb kb ka = true.

(** Every entry is at least as recent as all that follow it. *)
Definition newest_first (results : list pyval) : Prop := StronglySorted not_older results.

Definition key_ge (x y : string * pyval) : Prop := String.leb (fst y) (fst x) = true.

(** The result carries an [error] entry with a text that is not empty. *)
Definition has_nonempty_error (v : pyval) : Prop :=
  exists e, getitem v "error" = Ok (PStr e) /\ e <> "".

(** The text that the statistics and the sensitive-data tasks build from
    the texts of the pages: every page followed by a line feed. *)
Definition lines_of (texts : list string) : string :=
  String.concat "" (map (fun t => String.append t newline) texts).

(** The entity stored in table [name] under [key], if any. *)
Definition row (st : storage) (name : string) (key : string * string) : option dict :=
  match tables st !! name with
  | Some rows => rows !! key
  | None => None
  end.

(** The entities of a partition, as the query hands them out. *)
Definition partition_entities (partition_key : string) (rows : gmap (string * string) dict)
    : list dict :=
  map snd (fold_right insert_row []
             (filter (fun kv => fst (fst kv) = partition_key) (map_to_list rows))).


(** A document for the examples: no bytes do not parse, anything else has
    two pages of text and full document information. *)
Module Sample.

(** The title has a dash outside ASCII, [U+2014], which takes three bytes. *)
Definition em_dash : string := String "226" (String "128" (String "148" "")).

Definition title : string := String.append "Report " (String.append em_dash " 2024").

Definition info : Pypdf.DocumentInformation :=
  {| Pypdf.title := Some title; Pypdf.author := Some "A. Writer";
     Pypdf.creator := None; Pypdf.producer := Some "pdf-lib";
     Pypdf.creation_date := Ok (Some {| Pypdf.isoformat := "2024-01-15T10:00:00" |});
     Pypdf.modification_date := Ok (Some {| Pypdf.isoformat := "2024-01-16T11:30:00" |}) |}.

Definition undated : Pypdf.DocumentInformation :=
  {| Pypdf.title := Some "Report"; Pypdf.author := Some "A. Writer";
     Pypdf.creator := Some "editor"; Pypdf.producer := Some "pdf-lib";
     Pypdf.creation_date := Ok (Some {| Pypdf.isoformat := "2024-01-15T10:00:00" |});
     Pypdf.modification_date := Ok None |}.

(** Both dates are there, the second one is not a date. *)
Definition misdated : Pypdf.DocumentInformation :=
  {| Pypdf.title := Some "Report"; Pypdf.author := Some "A. Writer";
     Pypdf.creator := Some "editor"; Pypdf.producer := Some "pdf-lib";
     Pypdf.creation_date := Ok (Some {| Pypdf.isoformat := "2024-01-15T10:00:00" |});
     Pypdf.modification_date := Raise "Can not convert date: D:2024-01-16" |}.

Definition two_pages : list Pypdf.PageObject :=
  [ {| Pypdf.extract_text := Ok "write to a@b.com today" |};
    {| Pypdf.extract_text := Ok "or see https://x.com" |} ].

(** The second page cannot be read: the library gives up on it with an
    exception that has no text. *)
Definition torn_pages : list Pypdf.PageObject :=
  [ {| Pypdf.extract_text := Ok "write to a@b.com today" |};
    {| Pypdf.extract_text := Raise "" |} ].

(** An empty file does not parse.  One byte [0] stands for a document
    without a modification date, one byte [1] for a document whose second
    page cannot be read, one byte [2] for a document with a malformed
    modification date. *)
Definition PdfReader (b : list Byte.byte) : result Pypdf.reader :=
  match b with
  | [] => Raise "Cannot read an empty file"
  | [Byte.x00] => Ok {| Pypdf.pages := Ok two_pages; Pypdf.metadata := Ok (Some undated) |}
  | [Byte.x01] => Ok {| Pypdf.pages := Ok torn_pages; Pypdf.metadata := Ok (Some info) |}
  | [Byte.x02] => Ok {| Pypdf.pages := Ok two_pages; Pypdf.metadata := Ok (Some misdated) |}
  | _ => Ok {| Pypdf.pages := Ok two_pages; Pypdf.metadata := Ok (Some info) |}
  end.

Definition re_findall (p : pattern) (text : string) : list string :=
  match p with
  | EmailPattern => ["a@b.com"]
  | UrlPattern => ["https://x.com"]
  | _ => []
  end.

Definition input_data (blob_bytes : list Z) : pyval :=
  PDict [("blob_name", PStr "pdf/report.pdf");
         ("blob_bytes", PList (map PInt blob_bytes));
         ("blob_size_kb", PFloat (1 # 100))].

Definition the_host : host :=
  {| uuid_stream := fun n => String.append "0000-" (NilZero.string_of_uint (Nat.to_uint n));
     clock := fun n => String.append "2024-05-01T00:00:0" (NilZero.string_of_uint (Nat.to_uint n));
     uuid_calls := 0; clock_calls := 0 |}.

Definition the_storage : storage :=
  {| environ := {[ "PDFStorageConnection" := "UseDevelopmentStorage=true" ]};
     outage := fun _ => None;
     tables := ∅ |}.

(** What the four tasks return on the sample document. *)
Definition text_out : pyval :=
  PDict [("hasText", PBool true);
         ("extractedText",
          PStr (String.append "write to a@b.com today"
                  (String.append newline "or see https://x.com")));
         ("confidence", PFloat 0);
         ("language", PStr "unknown")].

Definition metadata_out : pyval :=
  PDict [("title", PStr title);
         ("author", PStr "A. Writer");
         ("creator", PNone);
         ("producer", PStr "pdf-lib");
         ("creation_date", PStr "2024-01-15T10:00:00");
         ("mod_date", PStr "2024-01-16T11:30:00")].

Definition statistics_out : pyval :=
  PDict [("page_count", PInt 2);
         ("word_count", PInt 7);
         ("avg_words_per_page", PFloat (7 # 2));
         ("estimated_reading_time_min", PFloat (7 # 200))].

Definition sensitive_out : pyval :=
  PDict [("emails", PList [PStr "a@b.com"]);
         ("phones", PList []);
         ("urls", PList [PStr "https://x.com"]);
         ("dates", PList [])].

Definition report_data : pyval :=
  PDict [("blob_name", PStr "pdf/report.pdf");
         ("text", text_out);
         ("metadata", metadata_out);
         ("statistics", statistics_out);
         ("sensitive_data", sensitive_out)].

Definition summary : pyval :=
  PDict [("format", PStr "Unknown"); ("hasText", PBool true)].

(** The report that the reducer builds from them on the sample host, the
    answer of the store to it, the entity written and what the query
    function rebuilds from that entity. *)
Definition report : pyval :=
  PDict [("id", PStr "0000-0");
         ("fileName", PStr "report.pdf");
         ("blobPath", PStr "pdf/report.pdf");
         ("analyzedAt", PStr "2024-05-01T00:00:00");
         ("analyses", PDict [("text", text_out);
                             ("metadata", metadata_out);
                             ("statistics", statistics_out);
                             ("sensitive_data", sensitive_out)]);
         ("summary", summary)].

Definition record : pyval :=
  PDict [("id", PStr "0000-0");
         ("fileName", PStr "report.pdf");
         ("status", PStr "stored");
         ("analyzedAt", PStr "2024-05-01T00:00:00");
         ("summary", summary)].

Definition entity : dict :=
  [("PartitionKey", PStr "PDFAnalysis");
   ("RowKey", PStr "0000-0");
   ("FileName", PStr "report.pdf");
   ("BlobPath", PStr "pdf/report.pdf");
   ("AnalyzedAt", PStr "2024-05-01T00:00:00");
   ("Summary", dumps_str summary);
   ("TextAnalysis", dumps_str text_out);
   ("MetadataAnalysis", dumps_str metadata_out)].

Definition rebuilt : pyval :=
  PDict [("id", PStr "0000-0");
         ("fileName", PStr "report.pdf");
         ("blobPath", PStr "pdf/report.pdf");
         ("analyzedAt", PStr "2024-05-01T00:00:00");
         ("summary", summary);
         ("analyses", PDict [("text", text_out); ("metadata", metadata_out)])].

(** The store after the report has been put, and the same store behind a
    service that fails reads of single entities. *)
Definition stored : storage := snd (store_results report the_storage).

Definition unreadable (st : storage) : storage :=
  {| environ := environ st;
     outage := fun r =>
       match r with
       | GetEntity => Some "The request timed out"
       | _ => None
       end;
     tables := tables st |}.

Definition request_for (id : string) : HttpRequest :=
  {| route_params := {[ "id" := id ]}; params := ∅ |}.

Definition request_list (limit : option string) : HttpRequest :=
  {| route_params := ∅;
     params := match limit with
               | Some l => {[ "limit" := l ]}
               | None => ∅
               end |}.

(** Three reports put one after the other, the second one the most recent. *)
Definition report_at (id analyzedAt : string) : pyval :=
  PDict [("id", PStr id);
         ("fileName", PStr "report.pdf");
         ("blobPath", PStr "pdf/report.pdf");
         ("analyzedAt", PStr analyzedAt);
         ("analyses", PDict [("text", PDict [("hasText", PBool true)]);
                             ("metadata", PDict [("title", PNone)])]);
         ("summary", PDict [("format", PStr "Unknown"); ("hasText", PBool true)])].

Definition three_stored : storage :=
  snd (store_results (report_at "c" "2024-05-02T08:00:00")
         (snd (store_results (report_at "b" "2024-05-03T08:00:00")
                 (snd (store_results (report_at "a" "2024-05-01T08:00:00")
                         the_storage))))).

Definition line (id analyzedAt : string) : pyval :=
  PDict [("id", PStr id);
         ("fileName", PStr "report.pdf");
         ("analyzedAt", PStr analyzedAt);
         ("summary", PDict [("format", PStr "Unknown"); ("hasText", PBool true)])].

Definition listing (results : list pyval) : HttpResponse :=
  json_response (PDict [("count", PInt (Z.of_nat (length results)));
                        ("results", PList results)])
                (Some 2%nat) 200.

(** The store of three reports with a fourth row that lacks its file name. *)
Definition truncated : dict :=
  [("PartitionKey", PStr "PDFAnalysis"); ("RowKey", PStr "z")].

Definition corrupted : storage :=
  with_tables three_stored
    (<[TABLE_NAME := <[("PDFAnalysis", "z") := truncated]>
                       (default ∅ (tables three_stored !! TABLE_NAME))]>
       (tables three_stored)).

(** The sample document as an uploaded blob. *)
Definition blob : Func.InputStream :=
  {| Func.name := "pdf/report.pdf"; Func.read := [Byte.x25; Byte.x50] |}.

(** A JSON string literal, and an entity whose summary was written by
    another program: a text with an escape above [U+00FF]. *)
Definition quoted (s : string) : string :=
  String Json.dquote (String.append s (String Json.dquote "")).

Definition foreign : dict :=
  [("PartitionKey", PStr "PDFAnalysis");
   ("RowKey", PStr "f");
   ("FileName", PStr "report.pdf");
   ("AnalyzedAt", PStr "2024-05-04T08:00:00");
   ("Summary", PStr (quoted "a \u2014 b"))].

Definition the_world : world :=
  {| w_host := the_host; w_storage := the_storage |}.

End Sample.

Section FanInNotions.

Variable PdfReader : list Byte.byte -> result Pypdf.reader.
Variable re_findall : pattern -> string -> list string.

(** What the four analysis tasks of a run return, in fan-out order. *)
Definition analysis_results (input_data : pyval) : list (result pyval) :=
  [extract_text PdfReader input_data;
   extract_metadata PdfReader input_data;
   analyze_statistics PdfReader input_data;
   detect_sensitive_data PdfReader re_findall input_data].

(** Filing the result of task [i] on completion. *)
Definition file_result (input_data : pyval)
    (slots : list (option (result pyval))) (i : nat) : list (option (result pyval)) :=
  match analysis_results input_data !! i with
  | Some r => <[i := Some r]> slots
  | None => slots
  end.

End FanInNotions.

(** ** Tactics *)

(** Linear arithmetic with quotients and remainders by constants, and case
    analysis on the comparisons of a goal. *)
Ltac lia_div := zify; Z.to_euclidean_division_equations; lia.

Ltac split_N :=
  repeat match goal with
         | |- context [(?a <? ?b)%N] => destruct (N.ltb_spec a b); try lia
         | |- context [(?a <=? ?b)%N] => destruct (N.leb_spec a b); try lia
         | |- context [(?a =? ?b)%N] => destruct (N.eqb_spec a b); try lia
         end.

(** * Properties *)

Lemma try_except_total {A} (body : result A) (handler : string -> result A) :
  (forall e, exists a, handler e = Ok a) -> exists a, try_except body handler = Ok a.
Proof. intros H. destruct body as [a|e]; simpl; eauto. Qed.

(** ** Text and its code points *)

Lemma is_cont_bounds (b : ascii) :
  is_cont b = true -> (128 <= N_of_ascii b < 192)%N.
Proof.
  unfold is_cont. intros H. apply andb_prop in H as [H1 H2].
  apply N.leb_le in H1. apply N.ltb_lt in H2. lia.
Qed.

Lemma utf8_decode_eq (b1 : ascii) (s1 : list ascii) :
  utf8_decode (b1 :: s1)
  = match s1 with
    | [] => [utf8_one b1]
    | b2 :: s2 =>
        match utf8_two b1 b2 with
        | Some cp => cp :: utf8_decode s2
        | None =>
            match s2 with
            | [] => utf8_one b1 :: utf8_decode s1
            | b3 :: s3 =>
                match utf8_three b1 b2 b3 with
                | Some cp => cp :: utf8_decode s3
                | None =>
                    match s3 with
                    | [] => utf8_one b1 :: utf8_decode s1
                    | b4 :: s4 =>
                        match utf8_four b1 b2 b3 b4 with
                        | Some cp => cp :: utf8_decode s4
                        | None => utf8_one b1 :: utf8_decode s1
                        end
                    end
                end
            end
        end
    end.
Proof. destruct s1; reflexivity. Qed.

Lemma utf8_encode_one (b : ascii) : utf8_encode (utf8_one b) = [b].
Proof.
  pose proof (N_ascii_bounded b) as Hb.
  unfold utf8_one, utf8_encode. destruct (N.ltb_spec (N_of_ascii b) 128).
  - split_N. by rewrite ascii_N_embedding.
  - split_N. simpl. replace (56320 + N_of_ascii b - 56320)%N with (N_of_ascii b) by lia.
    by rewrite ascii_N_embedding.
Qed.

Lemma utf8_encode_two (b1 b2 : ascii) (cp : N) :
  utf8_two b1 b2 = Some cp -> utf8_encode cp = [b1; b2].
Proof.
  unfold utf8_two. destruct (_ && _) eqn:E; [|discriminate]. intros [= <-].
  apply andb_prop in E as [E Hc2]. apply andb_prop in E as [H1 H1'].
  apply N.leb_le in H1. apply N.ltb_lt in H1'. apply is_cont_bounds in Hc2.
  set (n1 := N_of_ascii b1) in *. set (n2 := N_of_ascii b2) in *.
  unfold utf8_encode. split_N.
  rewrite <- (ascii_N_embedding b1), <- (ascii_N_embedding b2). fold n1 n2.
  repeat f_equal; lia_div.
Qed.

Lemma utf8_encode_three (b1 b2 b3 : ascii) (cp : N) :
  utf8_three b1 b2 b3 = Some cp -> utf8_encode cp = [b1; b2; b3].
Proof.
  unfold utf8_three. destruct (_ && _) eqn:E; [|discriminate]. intros [= <-].
  apply andb_prop in E as [E Hs]. apply andb_prop in E as [E Hlow].
  apply andb_prop in E as [E Hc3]. apply andb_prop in E as [E Hc2].
  apply andb_prop in E as [H1 H1'].
  apply N.leb_le in H1, Hlow. apply N.ltb_lt in H1'.
  apply is_cont_bounds in Hc2, Hc3. apply negb_true_iff in Hs.
  set (n1 := N_of_ascii b1) in *. set (n2 := N_of_ascii b2) in *.
  set (n3 := N_of_ascii b3) in *.
  set (cp := ((n1 - 224) * 4096 + (n2 - 128) * 64 + (n3 - 128))%N) in *.
  assert (Hcp : (cp < 55296 \/ 57344 <= cp)%N).
  { apply andb_false_iff in Hs as [Hs|Hs];
      [apply N.leb_gt in Hs|apply N.ltb_ge in Hs]; lia. }
  unfold utf8_encode. split_N; simpl.
  all: rewrite <- (ascii_N_embedding b1), <- (ascii_N_embedding b2),
         <- (ascii_N_embedding b3); fold n1 n2 n3; subst cp; repeat f_equal; lia_div.
Qed.

Lemma utf8_encode_four (b1 b2 b3 b4 : ascii) (cp : N) :
  utf8_four b1 b2 b3 b4 = Some cp -> utf8_encode cp = [b1; b2; b3; b4].
Proof.
  unfold utf8_four. destruct (_ && _) eqn:E; [|discriminate]. intros [= <-].
  apply andb_prop in E as [E Hhigh]. apply andb_prop in E as [E Hlow].
  apply andb_prop in E as [E Hc4]. apply andb_prop in E as [E Hc3].
  apply andb_prop in E as [E Hc2]. apply andb_prop in E as [H1 H1'].
  apply N.leb_le in H1, Hlow. apply N.ltb_lt in H1', Hhigh.
  apply is_cont_bounds in Hc2, Hc3, Hc4.
  set (n1 := N_of_ascii b1) in *. set (n2 := N_of_ascii b2) in *.
  set (n3 := N_of_ascii b3) in *. set (n4 := N_of_ascii b4) in *.
  unfold utf8_encode. split_N.
  rewrite <- (ascii_N_embedding b1), <- (ascii_N_embedding b2),
    <- (ascii_N_embedding b3), <- (ascii_N_embedding b4). fold n1 n2 n3 n4.
  repeat f_equal; lia_div.
Qed.

Lemma utf8_one_textual (b : ascii) :
  Json.is_high_surrogate (utf8_one b) = false /\ (utf8_one b < 1114112)%N.
Proof.
  pose proof (N_ascii_bounded b). unfold utf8_one, Json.is_high_surrogate.
  split_N; split; try reflexivity; try lia; rewrite ?andb_false_r; reflexivity.
Qed.

Lemma utf8_two_textual (b1 b2 : ascii) (cp : N) :
  utf8_two b1 b2 = Some cp ->
  Json.is_high_surrogate cp = false /\ (cp < 1114112)%N.
Proof.
  unfold utf8_two. destruct (_ && _) eqn:E; [|discriminate]. intros [= <-].
  apply andb_prop in E as [E Hc2]. apply andb_prop in E as [H1 H1'].
  apply N.leb_le in H1. apply N.ltb_lt in H1'. apply is_cont_bounds in Hc2.
  set (n1 := N_of_ascii b1) in *. set (n2 := N_of_ascii b2) in *.
  unfold Json.is_high_surrogate. split; [|lia].
  apply andb_false_iff. left. apply N.leb_gt. lia.
Qed.

Lemma utf8_three_textual (b1 b2 b3 : ascii) (cp : N) :
  utf8_three b1 b2 b3 = Some cp ->
  Json.is_high_surrogate cp = false /\ (cp < 1114112)%N.
Proof.
  unfold utf8_three. destruct (_ && _) eqn:E; [|discriminate]. intros [= <-].
  apply andb_prop in E as [E Hs]. apply andb_prop in E as [E Hlow].
  apply andb_prop in E as [E Hc3]. apply andb_prop in E as [E Hc2].
  apply andb_prop in E as [H1 H1'].
  apply N.leb_le in H1, Hlow. apply N.ltb_lt in H1'.
  apply is_cont_bounds in Hc2, Hc3. apply negb_true_iff in Hs.
  set (n1 := N_of_ascii b1) in *. set (n2 := N_of_ascii b2) in *.
  set (n3 := N_of_ascii b3) in *.
  set (cp := ((n1 - 224) * 4096 + (n2 - 128) * 64 + (n3 - 128))%N) in *.
  assert (Hcp : (cp < 55296 \/ 57344 <= cp)%N).
  { apply andb_false_iff in Hs as [Hs|Hs];
      [apply N.leb_gt in Hs|apply N.ltb_ge in Hs]; lia. }
  unfold Json.is_high_surrogate. split; [|subst cp; lia].
  apply andb_false_iff. destruct Hcp; [left; apply N.leb_gt|right; apply N.ltb_ge]; lia.
Qed.

Lemma utf8_four_textual (b1 b2 b3 b4 : ascii) (cp : N) :
  utf8_four b1 b2 b3 b4 = Some cp ->
  Json.is_high_surrogate cp = false /\ (cp < 1114112)%N.
Proof.
  unfold utf8_four. destruct (_ && _) eqn:E; [|discriminate]. intros [= <-].
  apply andb_prop in E as [E Hhigh]. apply andb_prop in E as [E Hlow].
  apply N.leb_le in Hlow. apply N.ltb_lt in Hhigh.
  unfold Json.is_high_surrogate. split; [|exact Hhigh].
  apply andb_false_iff. right. apply N.ltb_ge. lia.
Qed.

(** The first character of a text: its code point takes the first bytes of
    the text, is no high surrogate and lies within Unicode. *)
Lemma utf8_decode_head (b1 : ascii) (s1 : list ascii) :
  exists cp k,
    utf8_decode (b1 :: s1) = cp :: utf8_decode (skipn k s1)
    /\ utf8_encode cp = b1 :: firstn k s1
    /\ Json.is_high_surrogate cp = false /\ (cp < 1114112)%N.
Proof.
  assert (Hone : forall s1',
             exists cp k,
               utf8_one b1 :: utf8_decode s1' = cp :: utf8_decode (skipn k s1')
               /\ utf8_encode cp = b1 :: firstn k s1'
               /\ Json.is_high_surrogate cp = false /\ (cp < 1114112)%N).
  { intros s1'. exists (utf8_one b1), 0%nat.
    split; [reflexivity|]. split; [apply utf8_encode_one|apply utf8_one_textual]. }
  rewrite utf8_decode_eq.
  destruct s1 as [|b2 s2]; [apply (Hone [])|].
  destruct (utf8_two b1 b2) as [cp|] eqn:E2.
  { exists cp, 1%nat. split; [reflexivity|].
    split; [by apply utf8_encode_two|by apply (utf8_two_textual b1 b2)]. }
  destruct s2 as [|b3 s3]; [apply Hone|].
  destruct (utf8_three b1 b2 b3) as [cp|] eqn:E3.
  { exists cp, 2%nat. split; [reflexivity|].
    split; [by apply utf8_encode_three|by apply (utf8_three_textual b1 b2 b3)]. }
  destruct s3 as [|b4 s4]; [apply Hone|].
  destruct (utf8_four b1 b2 b3 b4) as [cp|] eqn:E4; [|apply Hone].
  exists cp, 3%nat. split; [reflexivity|].
  split; [by apply utf8_encode_four|by apply (utf8_four_textual b1 b2 b3 b4)].
Qed.

(** Every text is the UTF-8 form of its code points. *)
Lemma utf8_encode_decode (s : list ascii) : flat_map utf8_encode (utf8_decode s) = s.
Proof.
  remember (length s) as n eqn:Hn. revert s Hn.
  induction n as [n IH] using lt_wf_ind. intros s ->.
  destruct s as [|b1 s1]; [reflexivity|].
  destruct (utf8_decode_head b1 s1) as (cp & k & -> & Hcp & _).
  cbn [flat_map]. rewrite Hcp.
  rewrite (IH (length (skipn k s1))) by (rewrite ?length_skipn; simpl; lia || reflexivity).
  cbn [app]. by rewrite firstn_skipn.
Qed.

Lemma utf8_decode_textual (s : list ascii) :
  Forall (fun cp => Json.is_high_surrogate cp = false /\ (cp < 1114112)%N) (utf8_decode s).
Proof.
  remember (length s) as n eqn:Hn. revert s Hn.
  induction n as [n IH] using lt_wf_ind. intros s ->.
  destruct s as [|b1 s1]; [constructor|].
  destruct (utf8_decode_head b1 s1) as (cp & k & -> & _ & Hcp).
  constructor; [exact Hcp|].
  apply (IH (length (skipn k s1))); [|reflexivity].
  rewrite length_skipn. simpl. lia.
Qed.

Lemma utf8_two_ascii_r (b1 c : ascii) : is_cont c = false -> utf8_two b1 c = None.
Proof. unfold utf8_two. intros ->. by rewrite andb_false_r. Qed.

Lemma utf8_three_ascii_2 (b1 c b3 : ascii) : is_cont c = false -> utf8_three b1 c b3 = None.
Proof. unfold utf8_three. intros ->. by rewrite andb_false_r. Qed.

Lemma utf8_three_ascii_3 (b1 b2 c : ascii) : is_cont c = false -> utf8_three b1 b2 c = None.
Proof. unfold utf8_three. intros ->. by rewrite andb_false_r. Qed.

Lemma utf8_four_ascii_2 (b1 c b3 b4 : ascii) :
  is_cont c = false -> utf8_four b1 c b3 b4 = None.
Proof. unfold utf8_four. intros ->. by rewrite andb_false_r. Qed.

Lemma utf8_four_ascii_3 (b1 b2 c b4 : ascii) :
  is_cont c = false -> utf8_four b1 b2 c b4 = None.
Proof. unfold utf8_four. intros ->. by rewrite andb_false_r. Qed.

Lemma utf8_four_ascii_4 (b1 b2 b3 c : ascii) :
  is_cont c = false -> utf8_four b1 b2 b3 c = None.
Proof. unfold utf8_four. intros ->. by rewrite andb_false_r. Qed.

Lemma ascii_not_cont (c : ascii) : (N_of_ascii c < 128)%N -> is_cont c = false.
Proof. intros H. unfold is_cont. apply andb_false_iff. left. apply N.leb_gt. lia. Qed.

(** A byte of ASCII is a character of its own wherever it stands. *)
Lemma utf8_decode_ascii (c : ascii) (s : list ascii) :
  (N_of_ascii c < 128)%N -> utf8_decode (c :: s) = N_of_ascii c :: utf8_decode s.
Proof.
  intros Hc.
  assert (H1 : utf8_one c = N_of_ascii c).
  { unfold utf8_one. by destruct (N.ltb_spec (N_of_ascii c) 128); [|lia]. }
  assert (H2 : forall b2, utf8_two c b2 = None).
  { intros b2. unfold utf8_two. by destruct (N.leb_spec 194 (N_of_ascii c)); [lia|]. }
  assert (H3 : forall b2 b3, utf8_three c b2 b3 = None).
  { intros b2 b3. unfold utf8_three. by destruct (N.leb_spec 224 (N_of_ascii c)); [lia|]. }
  assert (H4 : forall b2 b3 b4, utf8_four c b2 b3 b4 = None).
  { intros b2 b3 b4. unfold utf8_four. by destruct (N.leb_spec 240 (N_of_ascii c)); [lia|]. }
  rewrite utf8_decode_eq.
  destruct s as [|b2 [|b3 [|b4 s4]]]; rewrite ?H2, ?H3, ?H4, H1; reflexivity.
Qed.

Lemma utf8_decode_app_ascii (a : list ascii) (c : ascii) (b : list ascii) :
  (N_of_ascii c < 128)%N ->
  utf8_decode (a ++ c :: b) = utf8_decode a ++ N_of_ascii c :: utf8_decode b.
Proof.
  intros Hc. pose proof (ascii_not_cont c Hc) as Hcont.
  remember (length a) as n eqn:Hn. revert a Hn.
  induction n as [n IH] using lt_wf_ind. intros a ->.
  assert (IH' : forall a', (length a' < length a)%nat ->
            utf8_decode (a' ++ c :: b) = utf8_decode a' ++ N_of_ascii c :: utf8_decode b).
  { intros a' Hlt. by apply (IH (length a')). }
  clear IH.
  destruct a as [|b1 a1]; [by apply utf8_decode_ascii|].
  rewrite <- app_comm_cons, (utf8_decode_eq b1 (a1 ++ c :: b)), (utf8_decode_eq b1 a1).
  destruct a1 as [|b2 a2].
  { cbn [app]. rewrite (utf8_two_ascii_r b1 c Hcont).
    rewrite (utf8_decode_ascii c b Hc).
    destruct b as [|b3 [|b4 s4]];
      rewrite ?(utf8_three_ascii_2 b1 c _ Hcont), ?(utf8_four_ascii_2 b1 c _ _ Hcont);
      reflexivity. }
  rewrite <- app_comm_cons.
  destruct (utf8_two b1 b2) as [cp|].
  { rewrite IH' by (simpl; lia). reflexivity. }
  destruct a2 as [|b3 a3].
  { cbn [app]. rewrite (utf8_three_ascii_3 b1 b2 c Hcont).
    pose proof (IH' [b2] ltac:(simpl; lia)) as E. cbn [app] in E. rewrite E.
    destruct b as [|b4 s4]; rewrite ?(utf8_four_ascii_3 b1 b2 c _ Hcont); reflexivity. }
  rewrite <- app_comm_cons.
  destruct (utf8_three b1 b2 b3) as [cp|].
  { rewrite IH' by (simpl; lia). reflexivity. }
  destruct a3 as [|b4 a4].
  { cbn [app]. rewrite (utf8_four_ascii_4 b1 b2 b3 c Hcont).
    pose proof (IH' [b2; b3] ltac:(simpl; lia)) as E. cbn [app] in E. rewrite E.
    reflexivity. }
  rewrite <- app_comm_cons.
  destruct (utf8_four b1 b2 b3 b4) as [cp|].
  { rewrite IH' by (simpl; lia). reflexivity. }
  pose proof (IH' (b2 :: b3 :: b4 :: a4) ltac:(simpl; lia)) as E.
  rewrite <- !app_comm_cons in E. rewrite E. reflexivity.
Qed.

(** ** JSON text round trip *)

Section JsonRoundTrip.

Import Json.

Lemma read_uint_chars (u : Decimal.uint) (rest : list ascii) :
  no_digit_ahead rest = true ->
  read_uint (chars_of_uint u ++ rest) = (u, rest).
Proof.
  intros Hrest. induction u; simpl; try (rewrite IHu; reflexivity).
  destruct rest as [|c rest]; [reflexivity|].
  simpl in *. unfold is_digit in Hrest.
  destruct (digit_of_char c); [discriminate|reflexivity].
Qed.

Lemma plain_uint_to_uint (n : N) : plain_uint (N.to_uint n) = true.
Proof.
  rewrite <- (DecimalN.Unsigned.of_to n) at 1.
  rewrite DecimalN.Unsigned.to_of.
  unfold Decimal.unorm.
  destruct (Decimal.nzhead (N.to_uint n)) eqn:H; try reflexivity.
  exfalso. eapply DecimalFacts.nzhead_nonzero; eauto.
Qed.

Lemma to_uint_not_nil (n : N) : N.to_uint n <> Decimal.Nil.
Proof.
  pose proof (plain_uint_to_uint n). destruct (N.to_uint n); simpl in *; congruence.
Qed.

Lemma read_sign_digits (u : Decimal.uint) (rest : list ascii) :
  u <> Decimal.Nil ->
  read_sign (chars_of_uint u ++ rest) = (false, chars_of_uint u ++ rest).
Proof. destruct u; simpl; congruence. Qed.

Lemma ends_number_no_digit rest : ends_number rest = true -> no_digit_ahead rest = true.
Proof.
  destruct rest as [|c rest]; simpl; [reflexivity|].
  destruct (is_digit c); simpl; congruence.
Qed.

Lemma read_fraction_none rest :
  ends_number rest = true -> read_fraction rest = (None, rest).
Proof.
  destruct rest as [|c rest]; simpl; [reflexivity|].
  destruct (Ascii.eqb c "."); [|reflexivity].
  rewrite orb_true_r. simpl. discriminate.
Qed.

Lemma read_exponent_none rest :
  ends_number rest = true -> read_exponent rest = (None, rest).
Proof.
  destruct rest as [|c rest]; simpl; [reflexivity|].
  destruct (Ascii.eqb c "e"), (Ascii.eqb c "E"); simpl; try reflexivity;
    rewrite ?orb_true_r; simpl; discriminate.
Qed.

Lemma number_body_int (neg : bool) (n : N) (rest : list ascii) :
  ends_number rest = true ->
  number_body neg (chars_of_uint (N.to_uint n) ++ rest)
  = Ok (PInt (if neg then - Z.of_N n else Z.of_N n), rest).
Proof.
  intros Hrest. unfold number_body.
  rewrite read_uint_chars by (by apply ends_number_no_digit).
  rewrite plain_uint_to_uint, read_fraction_none, read_exponent_none by assumption.
  rewrite DecimalN.Unsigned.of_to. reflexivity.
Qed.

Lemma parse_number_int (n : Z) (rest : list ascii) :
  ends_number rest = true ->
  parse_number (encode_int n ++ rest) = Ok (PInt n, rest).
Proof.
  intros Hrest. unfold parse_number, encode_int.
  destruct (n <? 0) eqn:Hneg; simpl.
  - rewrite number_body_int by assumption. apply Z.ltb_lt in Hneg.
    do 3 f_equal. lia.
  - rewrite read_sign_digits by apply to_uint_not_nil.
    rewrite number_body_int by assumption. apply Z.ltb_ge in Hneg.
    do 3 f_equal. lia.
Qed.

Lemma frac_value_digit_cons (k : N) (u : Decimal.uint) :
  (k < 10)%N ->
  frac_value (digit_cons k u) = ((inject_Z (Z.of_N k) + frac_value u) / 10)%Q.
Proof.
  intros Hk.
  assert (k = 0 \/ k = 1 \/ k = 2 \/ k = 3 \/ k = 4 \/ k = 5 \/ k = 6 \/ k = 7
          \/ k = 8 \/ k = 9)%N as H by lia.
  repeat (destruct H as [->|H]; [reflexivity|]). subst. reflexivity.
Qed.

Lemma frac_digits_value (fuel : nat) :
  forall r d : N,
    (r < d)%N ->
    frac_exact fuel r d = true ->
    (frac_value (frac_digits fuel r d) == inject_Z (Z.of_N r) / inject_Z (Z.of_N d))%Q.
Proof.
  induction fuel as [|fuel IH]; intros r d Hlt Hexact; simpl in *.
  - apply N.eqb_eq in Hexact. subst. unfold Qdiv. rewrite Qmult_0_l. reflexivity.
  - destruct (r =? 0)%N eqn:Hr.
    + apply N.eqb_eq in Hr. subst. unfold Qdiv. rewrite Qmult_0_l. reflexivity.
    + simpl in Hexact.
      assert (Hd : (d <> 0)%N) by lia.
      assert (Hdigit : (10 * r / d < 10)%N) by (apply N.Div0.div_lt_upper_bound; lia).
      assert (Hrem : (10 * r mod d < d)%N) by (apply N.mod_lt; exact Hd).
      rewrite frac_value_digit_cons by exact Hdigit.
      rewrite (IH _ _ Hrem Hexact).
      pose proof (N.div_mod (10 * r) d Hd) as Hdm.
      apply (f_equal Z.of_N) in Hdm.
      rewrite N2Z.inj_add, !N2Z.inj_mul in Hdm.
      apply (f_equal inject_Z) in Hdm.
      assert (HdQ : ~ (inject_Z (Z.of_N d) == 0)%Q).
      { intros H0. unfold Qeq in H0. simpl in H0. lia. }
      assert (Hq : (inject_Z (Z.of_N 10) * inject_Z (Z.of_N r)
                    == inject_Z (Z.of_N d) * inject_Z (Z.of_N (10 * r / d))
                       + inject_Z (Z.of_N (10 * r mod d)))%Q).
      { rewrite <- !inject_Z_mult, <- inject_Z_plus. rewrite Hdm. reflexivity. }
      change (inject_Z (Z.of_N 10)) with 10%Q in Hq.
      set (R := inject_Z (Z.of_N r)) in *.
      set (D := inject_Z (Z.of_N d)) in *.
      set (DG := inject_Z (Z.of_N (10 * r / d))) in *.
      set (R' := inject_Z (Z.of_N (10 * r mod d))) in *.
      assert (HR : (R == (D * DG + R') / 10)%Q).
      { rewrite <- Hq. field. }
      rewrite HR. field. exact HdQ.
Qed.

Lemma printable_float_reduced (q : Q) : printable_float q = true -> Qred q = q.
Proof.
  unfold printable_float. intros H.
  apply andb_prop in H as [H _]. apply andb_prop in H as [Hn Hd].
  apply Z.eqb_eq in Hn. apply Pos.eqb_eq in Hd.
  destruct (Qred q) as [n d], q as [n' d']. simpl in *. congruence.
Qed.

Lemma number_body_float (neg : bool) (ip : N) (frac : Decimal.uint) (rest : list ascii) :
  uint_is_nil frac = false ->
  ends_number rest = true ->
  number_body neg
    (chars_of_uint (N.to_uint ip) ++ "."%char :: chars_of_uint frac ++ rest)
  = Ok (PFloat (Qred ((if neg then - (inject_Z (Z.of_N ip) + frac_value frac)
                       else inject_Z (Z.of_N ip) + frac_value frac) * 1)), rest).
Proof.
  intros Hnil Hrest. unfold number_body.
  rewrite read_uint_chars by reflexivity.
  rewrite plain_uint_to_uint. unfold read_fraction.
  change (Ascii.eqb "." ".") with true. cbv iota.
  rewrite read_uint_chars by (by apply ends_number_no_digit).
  rewrite Hnil, read_exponent_none by assumption.
  rewrite DecimalN.Unsigned.of_to. reflexivity.
Qed.

Lemma shown_fraction_not_nil frac : uint_is_nil (shown_fraction frac) = false.
Proof. destruct frac; reflexivity. Qed.

Lemma shown_fraction_value frac : (frac_value (shown_fraction frac) == frac_value frac)%Q.
Proof. destruct frac; reflexivity. Qed.

Lemma float_value (a : N) (d : positive) :
  frac_exact float_digits (a mod Npos d) (Npos d) = true ->
  (inject_Z (Z.of_N (a / Npos d))
   + frac_value (shown_fraction (frac_digits float_digits (a mod Npos d) (Npos d)))
   == Z.of_N a # d)%Q.
Proof.
  intros Hexact. rewrite shown_fraction_value.
  assert (Hlt : (a mod Npos d < Npos d)%N) by (apply N.mod_lt; discriminate).
  rewrite (frac_digits_value float_digits _ _ Hlt Hexact).
  pose proof (N.div_mod a (Npos d) ltac:(discriminate)) as Hdm.
  apply (f_equal Z.of_N) in Hdm. rewrite N2Z.inj_add, N2Z.inj_mul in Hdm.
  rewrite (Qmake_Qdiv (Z.of_N a) d).
  set (ip := Z.of_N (a / Npos d)) in *. set (r := Z.of_N (a mod Npos d)) in *.
  rewrite Hdm. rewrite inject_Z_plus, inject_Z_mult.
  change (Z.of_N (N.pos d)) with (Z.pos d).
  field. intros H0. unfold Qeq in H0. simpl in H0. lia.
Qed.

(** The text of a float is read as the float it denotes. *)
Lemma parse_number_float_reloaded (q : Q) (rest : list ascii) :
  ends_number rest = true ->
  parse_number (encode_float q ++ rest) = Ok (PFloat (float_reloaded q), rest).
Proof.
  intros Hrest. unfold parse_number, encode_float, float_reloaded.
  pose proof (shown_fraction_not_nil
    (frac_digits float_digits (Z.abs_N (Qnum q) mod N.pos (Qden q)) (N.pos (Qden q))))
    as Hnil.
  set (frac := shown_fraction _) in *. clearbody frac.
  rewrite <- !app_assoc, <- app_comm_cons.
  destruct (Qnum q <? 0) eqn:Hneg.
  - change (["-"%char] ++ ?l) with ("-"%char :: l).
    unfold read_sign. change (Ascii.eqb "-" "-") with true. cbv iota.
    by rewrite number_body_float.
  - change ([] ++ ?l) with l.
    rewrite read_sign_digits by apply to_uint_not_nil.
    by rewrite number_body_float.
Qed.

(** A float whose expansion ends within the digits printed is denoted by
    its text. *)
Lemma float_reloaded_printable (q : Q) :
  printable_float q = true -> float_reloaded q = q.
Proof.
  intros Hq.
  pose proof (printable_float_reduced q Hq) as Hred.
  unfold printable_float in Hq. apply andb_prop in Hq as [_ Hexact].
  apply float_value in Hexact. unfold float_reloaded.
  set (frac := shown_fraction _) in *. clearbody frac.
  refine (eq_trans (Qred_complete _ q _) Hred).
  rewrite Qmult_1_r.
  destruct (Qnum q <? 0) eqn:Hneg; rewrite Hexact.
  - apply Z.ltb_lt in Hneg.
    destruct q as [n d]. simpl in *. unfold Qeq, Qopp. simpl.
    rewrite N2Z.inj_abs_N. lia.
  - apply Z.ltb_ge in Hneg.
    destruct q as [n d]. simpl in *. unfold Qeq. simpl.
    rewrite N2Z.inj_abs_N. lia.
Qed.

Lemma parse_number_float (q : Q) (rest : list ascii) :
  printable_float q = true ->
  ends_number rest = true ->
  parse_number (encode_float q ++ rest) = Ok (PFloat q, rest).
Proof.
  intros Hq Hrest.
  by rewrite parse_number_float_reloaded, float_reloaded_printable.
Qed.

Lemma hex_value_hex_char (k : N) : (k < 16)%N -> hex_value (hex_char k) = Some k.
Proof.
  intros Hk.
  assert (k = 0 \/ k = 1 \/ k = 2 \/ k = 3 \/ k = 4 \/ k = 5 \/ k = 6 \/ k = 7
          \/ k = 8 \/ k = 9 \/ k = 10 \/ k = 11 \/ k = 12 \/ k = 13 \/ k = 14
          \/ k = 15)%N as H by lia.
  repeat (destruct H as [->|H]; [reflexivity|]). subst. reflexivity.
Qed.

Lemma hex4_hex_chars (n : N) :
  (n < 65536)%N ->
  hex4 (hex_char (n / 4096)) (hex_char (n / 256 mod 16)) (hex_char (n / 16 mod 16))
    (hex_char (n mod 16)) = Some n.
Proof.
  intros Hn. unfold hex4.
  rewrite !hex_value_hex_char by lia_div. f_equal. lia_div.
Qed.

Lemma parse_string_u (h1 h2 h3 h4 : ascii) (s3 : list ascii) (n : N) :
  hex4 h1 h2 h3 h4 = Some n ->
  is_high_surrogate n = false ->
  parse_string (backslash :: "u"%char :: h1 :: h2 :: h3 :: h4 :: s3)
  = let* (cs, r) := parse_string s3 in Ok (utf8_encode n ++ cs, r).
Proof. intros H1 H2. simpl. rewrite H1, H2. reflexivity. Qed.

Lemma parse_string_pair (h1 h2 h3 h4 l1 l2 l3 l4 : ascii) (s4 : list ascii) (n m : N) :
  hex4 h1 h2 h3 h4 = Some n ->
  is_high_surrogate n = true ->
  hex4 l1 l2 l3 l4 = Some m ->
  is_low_surrogate m = true ->
  parse_string (backslash :: "u"%char :: h1 :: h2 :: h3 :: h4
                  :: backslash :: "u"%char :: l1 :: l2 :: l3 :: l4 :: s4)
  = let* (cs, r) := parse_string s4 in Ok (utf8_encode (of_surrogates n m) ++ cs, r).
Proof. intros H1 H2 H3 H4. simpl. rewrite H1, H2, H3, H4. reflexivity. Qed.

Lemma parse_string_plain (c : ascii) (tail : list ascii) :
  (32 <= N_of_ascii c)%N -> c <> dquote -> c <> backslash ->
  parse_string (c :: tail) = let* (cs, r) := parse_string tail in Ok (c :: cs, r).
Proof.
  intros Hc Hq Hb. simpl.
  apply Ascii.eqb_neq in Hq, Hb. rewrite Hq, Hb.
  by destruct (N.ltb_spec (N_of_ascii c) 32); [lia|].
Qed.

(** One escaped character is read back as its bytes. *)
Lemma parse_string_escape (cp : N) (tail : list ascii) :
  is_high_surrogate cp = false -> (cp < 1114112)%N ->
  parse_string (escape_cp cp ++ tail)
  = let* (cs, r) := parse_string tail in Ok (utf8_encode cp ++ cs, r).
Proof.
  intros Hhigh Hmax. unfold escape_cp.
  destruct (N.eqb_spec cp 34) as [->|H34]; [reflexivity|].
  destruct (N.eqb_spec cp 92) as [->|H92]; [reflexivity|].
  destruct (N.eqb_spec cp 10) as [->|H10]; [reflexivity|].
  destruct (N.eqb_spec cp 13) as [->|H13]; [reflexivity|].
  destruct (N.eqb_spec cp 9) as [->|H9]; [reflexivity|].
  destruct (N.eqb_spec cp 8) as [->|H8]; [reflexivity|].
  destruct (N.eqb_spec cp 12) as [->|H12]; [reflexivity|].
  destruct ((32 <=? cp)%N && (cp <=? 126)%N) eqn:Hplain.
  { apply andb_prop in Hplain as [Hlo Hhi]. apply N.leb_le in Hlo, Hhi.
    assert (Hn : N_of_ascii (ascii_of_N cp) = cp) by (apply N_ascii_embedding; lia).
    assert (Henc : utf8_encode cp = [ascii_of_N cp]).
    { unfold utf8_encode. by destruct (N.ltb_spec cp 128); [|lia]. }
    rewrite Henc. cbn [app].
    apply parse_string_plain.
    - rewrite Hn. exact Hlo.
    - intros E. apply (f_equal N_of_ascii) in E. rewrite Hn in E. by apply H34.
    - intros E. apply (f_equal N_of_ascii) in E. rewrite Hn in E. by apply H92. }
  destruct (N.ltb_spec cp 65536) as [Hbmp|Hastral].
  { unfold hex4_chars. cbn [app].
    apply parse_string_u; [by apply hex4_hex_chars|exact Hhigh]. }
  set (v := (cp - 65536)%N).
  unfold hex4_chars. cbn [app].
  assert (Hv : (v < 1048576)%N) by (subst v; lia).
  rewrite (parse_string_pair _ _ _ _ _ _ _ _ tail
             (55296 + v / 1024) (56320 + v mod 1024)).
  - replace (of_surrogates (55296 + v / 1024) (56320 + v mod 1024)) with cp; [reflexivity|].
    unfold of_surrogates. subst v. lia_div.
  - apply hex4_hex_chars. lia_div.
  - unfold is_high_surrogate. apply andb_true_intro.
    split; [apply N.leb_le|apply N.ltb_lt]; lia_div.
  - apply hex4_hex_chars. lia_div.
  - unfold is_low_surrogate. apply andb_true_intro.
    split; [apply N.leb_le|apply N.ltb_lt]; lia_div.
Qed.

Lemma parse_string_escaped (cps : list N) (rest : list ascii) :
  Forall (fun cp => is_high_surrogate cp = false /\ (cp < 1114112)%N) cps ->
  parse_string (flat_map escape_cp cps ++ dquote :: rest)
  = Ok (flat_map utf8_encode cps, rest).
Proof.
  induction 1 as [|cp cps [Hhigh Hmax] _ IH]; [reflexivity|].
  cbn [flat_map]. rewrite <- app_assoc, parse_string_escape, IH by assumption.
  reflexivity.
Qed.

(** A string literal is read back as the string it was written from,
    whatever its bytes. *)
Lemma parse_string_encoded (s : string) (rest : list ascii) :
  exists tail,
    encode_string s ++ rest = dquote :: tail
    /\ parse_string tail = Ok (chars s, rest).
Proof.
  exists (flat_map escape_cp (utf8_decode (chars s)) ++ dquote :: rest). split.
  - unfold encode_string. simpl. rewrite <- app_assoc. reflexivity.
  - rewrite parse_string_escaped by apply utf8_decode_textual.
    by rewrite utf8_encode_decode.
Qed.

Lemma skip_ws_app (w s : list ascii) :
  forallb is_ws w = true -> skip_ws (w ++ s) = skip_ws s.
Proof.
  induction w as [|c w IH]; simpl; [reflexivity|].
  intros H. apply andb_prop in H as [-> H]. auto.
Qed.

Lemma newline_indent_ws indent level : forallb is_ws (newline_indent indent level) = true.
Proof.
  destruct indent as [n|]; simpl; [|reflexivity].
  induction (n * level)%nat; simpl; auto.
Qed.

Lemma chars_of_uint_starts (u : Decimal.uint) (rest : list ascii) :
  u <> Decimal.Nil -> starts_value (chars_of_uint u ++ rest) = true.
Proof. destruct u; simpl; congruence. Qed.

Lemma bracket_starts opening closing indent level parts rest :
  starts_value [opening] = true ->
  starts_value (bracket opening closing indent level parts ++ rest) = true.
Proof. unfold bracket. destruct parts; simpl; intros ->; reflexivity. Qed.

Lemma encode_starts indent level (v : pyval) (rest : list ascii) :
  starts_value (encode indent level v ++ rest) = true.
Proof.
  destruct v as [|[]|n|q|s|l|d|[]]; simpl encode; try reflexivity.
  - unfold encode_int. destruct (n <? 0); [reflexivity|].
    apply chars_of_uint_starts, to_uint_not_nil.
  - unfold encode_float. destruct (Qnum q <? 0).
    + rewrite <- app_assoc. reflexivity.
    + rewrite <- app_assoc. change ([] ++ ?l) with l. rewrite <- app_assoc.
      apply chars_of_uint_starts, to_uint_not_nil.
  - by apply bracket_starts.
  - by apply bracket_starts.
Qed.

Lemma skip_ws_starts (s : list ascii) : starts_value s = true -> skip_ws s = s.
Proof.
  destruct s as [|c s]; simpl; [discriminate|].
  destruct (is_ws c); simpl; [discriminate|reflexivity].
Qed.

Lemma starts_value_cons (s : list ascii) :
  starts_value s = true ->
  exists c t, s = c :: t /\ is_ws c = false /\ Ascii.eqb c "]" = false.
Proof.
  destruct s as [|c s]; simpl; [discriminate|].
  intros H. apply andb_prop in H as [H1 H2].
  exists c, s. repeat split; [by destruct (is_ws c)|by destruct (Ascii.eqb c "]")].
Qed.

Lemma parse_items_S fuel s :
  parse_items (S fuel) s
  = let* (v, s1) := parse_value fuel s in
    match skip_ws s1 with
    | [] => Raise "Expecting ',' delimiter"
    | c :: s2 =>
        if Ascii.eqb c "," then
          let* (vs, r) := parse_items fuel (skip_ws s2) in
          Ok (v :: vs, r)
        else if Ascii.eqb c "]" then Ok ([v], s2)
        else Raise "Expecting ',' delimiter"
    end.
Proof. reflexivity. Qed.

Lemma parse_members_S fuel s1 :
  parse_members (S fuel) (dquote :: s1)
  = let* (ks, s2) := parse_string s1 in
    match skip_ws s2 with
    | [] => Raise "Expecting ':' delimiter"
    | c2 :: s3 =>
        if Ascii.eqb c2 ":" then
          let* (v, s4) := parse_value fuel (skip_ws s3) in
          match skip_ws s4 with
          | [] => Raise "Expecting ',' delimiter"
          | c3 :: s5 =>
              if Ascii.eqb c3 "," then
                let* (kvs, r) := parse_members fuel (skip_ws s5) in
                Ok ((string_of_list_ascii ks, v) :: kvs, r)
              else if Ascii.eqb c3 "}" then
                Ok ([(string_of_list_ascii ks, v)], s5)
              else Raise "Expecting ',' delimiter"
          end
        else Raise "Expecting ':' delimiter"
    end.
Proof. reflexivity. Qed.

Lemma parse_value_list fuel s1 :
  parse_value (S fuel) ("["%char :: s1)
  = match skip_ws s1 with
    | [] => Raise "Expecting value"
    | c' :: s2 =>
        if Ascii.eqb c' "]" then Ok (PList [], s2)
        else
          let* (items, r) := parse_items fuel (c' :: s2) in
          Ok (PList items, r)
    end.
Proof. reflexivity. Qed.

Lemma parse_value_dict fuel s1 :
  parse_value (S fuel) ("{"%char :: s1)
  = match skip_ws s1 with
    | [] => Raise "Expecting property name enclosed in double quotes"
    | c' :: s2 =>
        if Ascii.eqb c' "}" then Ok (PDict [], s2)
        else
          let* (pairs, r) := parse_members fuel (c' :: s2) in
          Ok (PDict (dict_of_pairs pairs), r)
    end.
Proof. reflexivity. Qed.

Lemma parse_value_string fuel s1 :
  parse_value (S fuel) (dquote :: s1)
  = let* (cs, r) := parse_string s1 in Ok (PStr (string_of_list_ascii cs), r).
Proof. reflexivity. Qed.

Lemma is_digit_cases (c : ascii) :
  is_digit c = true ->
  In c ["0"; "1"; "2"; "3"; "4"; "5"; "6"; "7"; "8"; "9"]%char.
Proof.
  unfold is_digit, digit_of_char.
  repeat match goal with
         | |- context [Ascii.eqb c ?d] =>
             destruct (Ascii.eqb c d) eqn:?H;
             [apply Ascii.eqb_eq in H; subst; simpl; tauto|clear H]
         end.
  discriminate.
Qed.

(** A text that begins as a number does: with a digit, or with a sign and
    a digit. *)
Lemma parse_value_number fuel (c : ascii) (t : list ascii) :
  (c = "-"%char /\ exists d t', t = d :: t' /\ is_digit d = true) \/ is_digit c = true ->
  parse_value (S fuel) (c :: t) = parse_number (c :: t).
Proof.
  intros [[-> (d & t' & -> & H)]|H];
    apply is_digit_cases in H; simpl in H;
    repeat (destruct H as [<-|H]; [reflexivity|]); destruct H.
Qed.

Lemma chars_of_uint_head (u : Decimal.uint) (rest : list ascii) :
  u <> Decimal.Nil ->
  exists c t, chars_of_uint u ++ rest = c :: t /\ is_digit c = true.
Proof. destruct u; simpl; try congruence; eexists _, _; split; reflexivity. Qed.

Lemma item_separator_shape indent level :
  exists w, item_separator indent level = ","%char :: w /\ forallb is_ws w = true.
Proof.
  destruct indent as [n|]; simpl.
  - eexists. split; [reflexivity|]. apply (newline_indent_ws (Some n) level).
  - eexists. split; reflexivity.
Qed.

Lemma ends_number_closing indent level (closing : ascii) rest :
  closing = "]"%char \/ closing = "}"%char ->
  ends_number (newline_indent indent level ++ closing :: rest) = true.
Proof. intros [-> | ->]; destruct indent; reflexivity. Qed.

Lemma skip_ws_closing indent level (closing : ascii) rest :
  closing = "]"%char \/ closing = "}"%char ->
  skip_ws (newline_indent indent level ++ closing :: rest) = closing :: rest.
Proof.
  intros H. rewrite skip_ws_app by apply newline_indent_ws.
  destruct H as [-> | ->]; reflexivity.
Qed.

Lemma join_one sep p : join sep [p] = p.
Proof. reflexivity. Qed.

Lemma join_more sep p q ps : join sep (p :: q :: ps) = p ++ sep ++ join sep (q :: ps).
Proof. reflexivity. Qed.

Lemma parse_items_join indent level level' (xs : list pyval) :
  forall x fuel rest,
    Forall reads_back (x :: xs) ->
    (list_sum (map (fun y => S (size y)) (x :: xs)) <= fuel)%nat ->
    parse_items fuel
      (join (item_separator indent level') (map (encode indent level') (x :: xs))
         ++ newline_indent indent level ++ "]"%char :: rest)
    = Ok (map reloaded (x :: xs), rest).
Proof.
  induction xs as [|y ys IH]; intros x fuel rest Hall Hfuel;
    inversion Hall as [|? ? Hx Hxs]; subst;
    (destruct fuel as [|fuel]; [simpl in Hfuel; lia|]);
    rewrite parse_items_S.
  - simpl map. rewrite join_one.
    rewrite Hx; [|simpl in Hfuel; lia|apply ends_number_closing; auto].
    unfold bind at 1. cbv beta iota. rewrite skip_ws_closing by auto. reflexivity.
  - change (map (encode indent level') (x :: y :: ys))
      with (encode indent level' x :: map (encode indent level') (y :: ys)).
    change (map (encode indent level') (y :: ys))
      with (encode indent level' y :: map (encode indent level') ys) at 1.
    rewrite join_more.
    destruct (item_separator_shape indent level') as (w & Hsep & Hw).
    rewrite Hsep at 1. rewrite <- !app_assoc.
    rewrite Hx; [|simpl in Hfuel; lia|reflexivity].
    unfold bind at 1. cbv beta iota. rewrite <- app_comm_cons.
    change (skip_ws (","%char :: ?l)) with (","%char :: l).
    change (Ascii.eqb "," ",") with true. cbv iota.
    rewrite skip_ws_app by exact Hw.
    change (encode indent level' y :: map (encode indent level') ys)
      with (map (encode indent level') (y :: ys)).
    rewrite skip_ws_starts.
    2:{ destruct ys; [simpl map; rewrite join_one|simpl map; rewrite join_more];
          rewrite <- ?app_assoc; apply encode_starts. }
    rewrite (IH y fuel rest Hxs) by (simpl in *; lia).
    reflexivity.
Qed.

Lemma member_starts indent level kv rest :
  exists tail, member indent level kv ++ rest = dquote :: tail.
Proof.
  unfold member, encode_string. eexists. rewrite <- app_comm_cons. reflexivity.
Qed.

Lemma join_members_starts indent level sep kv kvs rest :
  exists tail,
    join sep (map (member indent level) (kv :: kvs)) ++ rest = dquote :: tail.
Proof.
  destruct kvs as [|kv' kvs]; simpl map.
  - rewrite join_one. apply member_starts.
  - rewrite join_more, <- app_assoc. apply member_starts.
Qed.

Lemma parse_members_join indent level level' (kvs : dict) :
  forall kv fuel rest,
    Forall (fun kv => reads_back (snd kv)) (kv :: kvs) ->
    (list_sum (map (fun kv => S (size (snd kv))) (kv :: kvs)) <= fuel)%nat ->
    parse_members fuel
      (join (item_separator indent level') (map (member indent level') (kv :: kvs))
         ++ newline_indent indent level ++ "}"%char :: rest)
    = Ok (map (fun kv => (fst kv, reloaded (snd kv))) (kv :: kvs), rest).
Proof.
  induction kvs as [|kv' kvs IH]; intros [k v] fuel rest Hall Hfuel;
    inversion Hall as [|? ? Hv Hkvs]; subst; simpl in Hv;
    (destruct fuel as [|fuel]; [simpl in Hfuel; lia|]).
  - simpl map. rewrite join_one. unfold member. simpl fst. simpl snd.
    rewrite <- !app_assoc.
    destruct (parse_string_encoded k
                (key_separator ++ encode indent level' v
                   ++ newline_indent indent level ++ "}"%char :: rest))
      as (tail & -> & Htail).
    rewrite parse_members_S, Htail.
    unfold bind at 1. cbv beta iota.
    change (skip_ws (key_separator ++ ?l)) with (":"%char :: " "%char :: l).
    change (Ascii.eqb ":" ":") with true. cbv iota.
    change (skip_ws (" "%char :: ?l)) with (skip_ws l).
    rewrite !skip_ws_starts by apply encode_starts.
    rewrite Hv; [|simpl in Hfuel; lia|apply ends_number_closing; auto].
    unfold bind at 1. cbv beta iota.
    rewrite skip_ws_closing by auto.
    change (Ascii.eqb "}" ",") with false. change (Ascii.eqb "}" "}") with true.
    cbv iota. unfold chars. rewrite string_of_list_ascii_of_string. reflexivity.
  - change (map (member indent level') ((k, v) :: kv' :: kvs))
      with (member indent level' (k, v) :: map (member indent level') (kv' :: kvs)).
    change (map (member indent level') (kv' :: kvs))
      with (member indent level' kv' :: map (member indent level') kvs) at 1.
    rewrite join_more.
    change (member indent level' kv' :: map (member indent level') kvs)
      with (map (member indent level') (kv' :: kvs)).
    destruct (item_separator_shape indent level') as (w & Hsep & Hw).
    rewrite Hsep at 1. unfold member at 1. simpl fst. simpl snd.
    rewrite <- !app_assoc.
    match goal with
    | |- parse_members _ (encode_string k ++ ?r) = _ =>
        destruct (parse_string_encoded k r) as (tail & -> & Htail)
    end.
    rewrite parse_members_S, Htail.
    unfold bind at 1. cbv beta iota.
    change (skip_ws (key_separator ++ ?l)) with (":"%char :: " "%char :: l).
    change (Ascii.eqb ":" ":") with true. cbv iota.
    change (skip_ws (" "%char :: ?l)) with (skip_ws l).
    rewrite !skip_ws_starts by apply encode_starts.
    rewrite Hv; [|simpl in Hfuel; lia|reflexivity].
    unfold bind at 1. cbv beta iota. rewrite <- app_comm_cons.
    change (skip_ws (","%char :: ?l)) with (","%char :: l).
    change (Ascii.eqb "," ",") with true. cbv iota.
    rewrite skip_ws_app by exact Hw.
    destruct (join_members_starts indent level' (item_separator indent level') kv' kvs
                (newline_indent indent level ++ "}"%char :: rest))
      as (tail' & Htail').
    rewrite skip_ws_starts by (rewrite Htail'; reflexivity).
    rewrite (IH kv' fuel rest Hkvs) by (simpl in *; lia).
    unfold bind at 1. cbv beta iota.
    unfold chars. rewrite string_of_list_ascii_of_string. reflexivity.
Qed.

Lemma dict_set_fresh (k : string) (v : pyval) (d : dict) :
  existsb (String.eqb k) (dict_keys d) = false ->
  dict_set k v d = d ++ [(k, v)].
Proof.
  induction d as [|[k' v'] d IH]; simpl; [reflexivity|].
  intros H. apply orb_false_elim in H as [-> H]. by rewrite IH.
Qed.

Lemma dict_of_pairs_distinct (d : dict) :
  distinct (dict_keys d) = true -> dict_of_pairs d = d.
Proof.
  unfold dict_of_pairs.
  enough (H : forall acc,
             distinct (dict_keys (acc ++ d)) = true ->
             fold_left (fun d kv => dict_set (fst kv) (snd kv) d) d acc = acc ++ d)
    by (intros Hd; exact (H [] Hd)).
  induction d as [|[k v] d IH]; intros acc Hd; simpl.
  - by rewrite app_nil_r.
  - rewrite dict_set_fresh.
    + rewrite IH; rewrite <- app_assoc; [reflexivity|exact Hd].
    + clear IH. induction acc as [|[k' v'] acc IHacc]; [reflexivity|].
      simpl in Hd |- *. apply andb_prop in Hd as [Hk' Hd].
      rewrite (IHacc Hd), orb_false_r.
      apply negb_true_iff in Hk'. unfold dict_keys in Hk'.
      rewrite map_app, existsb_app in Hk'.
      apply orb_false_elim in Hk' as [_ Hk']. simpl in Hk'.
      apply orb_false_elim in Hk' as [Hk' _].
      rewrite String.eqb_sym. exact Hk'.
Qed.

Lemma encode_int_head (n : Z) (rest : list ascii) :
  exists c t,
    encode_int n ++ rest = c :: t
    /\ ((c = "-"%char /\ exists d t', t = d :: t' /\ is_digit d = true)
        \/ is_digit c = true).
Proof.
  unfold encode_int.
  destruct (chars_of_uint_head (N.to_uint (Z.abs_N n)) rest (to_uint_not_nil _))
    as (c & t & Heq & Hc).
  destruct (n <? 0).
  - eexists _, _. split; [reflexivity|]. left. split; [reflexivity|]. by exists c, t.
  - exists c, t. split; [exact Heq|by right].
Qed.

Lemma encode_float_head (q : Q) (rest : list ascii) :
  exists c t,
    encode_float q ++ rest = c :: t
    /\ ((c = "-"%char /\ exists d t', t = d :: t' /\ is_digit d = true)
        \/ is_digit c = true).
Proof.
  unfold encode_float. rewrite <- !app_assoc.
  match goal with
  | |- exists c t, _ ++ chars_of_uint ?u ++ ?r = _ /\ _ =>
      destruct (chars_of_uint_head u r (to_uint_not_nil _)) as (c & t & Heq & Hc)
  end.
  destruct (Qnum q <? 0).
  - eexists _, _. split; [reflexivity|]. left. split; [reflexivity|]. by exists c, t.
  - exists c, t. split; [exact Heq|by right].
Qed.

(** Every value is read from its text, compact or indented, whatever
    follows it, as [json.loads] makes it. *)
Theorem parse_value_encode (v : pyval) : reads_back v.
Proof.
  induction v as [|b|n|q|s|l IH|d IH|x] using pyval_nested_ind;
    intros indent level fuel rest Hfuel Hrest;
    (destruct fuel as [|fuel]; [simpl in Hfuel; lia|]).
  - reflexivity.
  - destruct b; reflexivity.
  - simpl encode.
    destruct (encode_int_head n rest) as (c & t & Heq & Hc).
    rewrite Heq, (parse_value_number fuel c t Hc), <- Heq.
    by apply parse_number_int.
  - simpl encode.
    destruct (encode_float_head q rest) as (c & t & Heq & Hc).
    rewrite Heq, (parse_value_number fuel c t Hc), <- Heq.
    by apply parse_number_float_reloaded.
  - simpl encode.
    destruct (parse_string_encoded s rest) as (tail & -> & Htail).
    rewrite parse_value_string, Htail. unfold bind. cbv beta iota.
    unfold chars. rewrite string_of_list_ascii_of_string. reflexivity.
  - rename IH into Hall.
    destruct l as [|x xs]; [reflexivity|].
    change (encode indent level (PList (x :: xs)))
      with ("["%char :: newline_indent indent (S level)
              ++ join (item_separator indent (S level))
                   (map (encode indent (S level)) (x :: xs))
              ++ newline_indent indent level ++ ["]"%char]).
    rewrite <- app_comm_cons, <- !app_assoc.
    change (["]"%char] ++ rest) with ("]"%char :: rest).
    rewrite parse_value_list, skip_ws_app by apply newline_indent_ws.
    assert (Hstart : starts_value
                       (join (item_separator indent (S level))
                          (map (encode indent (S level)) (x :: xs))
                        ++ newline_indent indent level ++ "]"%char :: rest) = true).
    { destruct xs; [simpl map; rewrite join_one|simpl map; rewrite join_more];
        rewrite <- ?app_assoc; apply encode_starts. }
    rewrite (skip_ws_starts _ Hstart).
    pose proof (parse_items_join indent level (S level) xs x fuel rest Hall) as Hitems.
    destruct (starts_value_cons _ Hstart) as (c & t & Heq & _ & Hc).
    rewrite Heq in Hitems |- *. rewrite Hc, Hitems by (simpl in Hfuel |- *; lia).
    reflexivity.
  - rename IH into Hall.
    destruct d as [|kv kvs]; [reflexivity|].
    change (encode indent level (PDict (kv :: kvs)))
      with ("{"%char :: newline_indent indent (S level)
              ++ join (item_separator indent (S level))
                   (map (member indent (S level)) (kv :: kvs))
              ++ newline_indent indent level ++ ["}"%char]).
    rewrite <- app_comm_cons, <- !app_assoc.
    change (["}"%char] ++ rest) with ("}"%char :: rest).
    rewrite parse_value_dict, skip_ws_app by apply newline_indent_ws.
    destruct (join_members_starts indent (S level) (item_separator indent (S level))
                kv kvs (newline_indent indent level ++ "}"%char :: rest))
      as (tail & Htail).
    pose proof (parse_members_join indent level (S level) kvs kv fuel rest Hall)
      as Hmembers.
    rewrite Htail in Hmembers |- *.
    change (skip_ws (dquote :: tail)) with (dquote :: tail).
    change (Ascii.eqb dquote "}") with false. cbv iota.
    rewrite Hmembers by (simpl in Hfuel |- *; lia).
    reflexivity.
  - destruct x; reflexivity.
Qed.

(** Nothing is lost on a dictionary with pairwise distinct keys whose
    floats have expansions that end within the digits printed. *)
Lemma reloaded_json_ok (v : pyval) : json_ok v = true -> reloaded v = v.
Proof.
  induction v as [|b|n|q|s|l IH|d IH|x] using pyval_nested_ind;
    intros Hok; try reflexivity.
  - simpl. by rewrite float_reloaded_printable.
  - simpl in Hok |- *. f_equal.
    induction IH as [|y l Hy _ IHl]; [reflexivity|].
    simpl in Hok |- *. apply andb_prop in Hok as [Hoky Hokl].
    by rewrite Hy, IHl.
  - simpl in Hok. apply andb_prop in Hok as [Hkeys Hok].
    cbn [reloaded]. f_equal.
    assert (Hmap : map (fun kv => (fst kv, reloaded (snd kv))) d = d).
    { clear Hkeys. induction IH as [|[k y] l Hy _ IHl]; [reflexivity|].
      simpl in Hok, Hy |- *. apply andb_prop in Hok as [Hoky Hokl].
      by rewrite Hy, IHl. }
    rewrite Hmap. by apply dict_of_pairs_distinct.
Qed.

Lemma join_length_sum {A} (sz : A -> nat) (part : A -> list ascii)
    (sep : list ascii) (xs : list A) :
  (1 <= length sep)%nat ->
  forall x,
    Forall (fun y => (sz y <= length (part y))%nat) (x :: xs) ->
    (list_sum (map (fun y => S (sz y)) (x :: xs))
     <= length (join sep (map part (x :: xs))) + 1)%nat.
Proof.
  intros Hsep. induction xs as [|y ys IH]; intros x Hall;
    inversion Hall as [|? ? Hx Hxs]; subst.
  - simpl map. rewrite join_one. simpl. lia.
  - change (map part (x :: y :: ys)) with (part x :: part y :: map part ys).
    rewrite join_more, !length_app.
    change (part y :: map part ys) with (map part (y :: ys)).
    specialize (IH y Hxs).
    change (list_sum (map (fun y => S (sz y)) (x :: y :: ys)))
      with (S (sz x) + list_sum (map (fun y => S (sz y)) (y :: ys)))%nat.
    lia.
Qed.

Lemma item_separator_length indent level : (1 <= length (item_separator indent level))%nat.
Proof.
  destruct (item_separator_shape indent level) as (w & -> & _). simpl. lia.
Qed.

(** The text of a value is at least as long as the fuel its reading takes. *)
Lemma size_le_length indent (v : pyval) :
  forall level, (size v <= length (encode indent level v))%nat.
Proof.
  induction v as [|b|n|q|s|l IH|d IH|x] using pyval_nested_ind; intros level.
  8: destruct x; simpl; lia.
  - simpl. lia.
  - destruct b; simpl; lia.
  - destruct (encode_int_head n []) as (c & t & Heq & _).
    rewrite app_nil_r in Heq. simpl encode. rewrite Heq. simpl. lia.
  - destruct (encode_float_head q []) as (c & t & Heq & _).
    rewrite app_nil_r in Heq. simpl encode. rewrite Heq. simpl. lia.
  - simpl. lia.
  - destruct l as [|x xs]; [simpl; lia|].
    change (encode indent level (PList (x :: xs)))
      with ("["%char :: newline_indent indent (S level)
              ++ join (item_separator indent (S level))
                   (map (encode indent (S level)) (x :: xs))
              ++ newline_indent indent level ++ ["]"%char]).
    pose proof (join_length_sum size (encode indent (S level))
                  (item_separator indent (S level)) xs
                  (item_separator_length indent (S level)) x) as Hsum.
    change (size (PList (x :: xs)))
      with (S (list_sum (map (fun y => S (size y)) (x :: xs)))).
    cbn [length]. rewrite !length_app. cbn [length].
    assert (Hall : Forall (fun y => (size y <= length (encode indent (S level) y))%nat)
                     (x :: xs)).
    { eapply Forall_impl; [exact IH|]. intros y Hy. apply Hy. }
    specialize (Hsum Hall). lia.
  - destruct d as [|kv kvs]; [simpl; lia|].
    change (encode indent level (PDict (kv :: kvs)))
      with ("{"%char :: newline_indent indent (S level)
              ++ join (item_separator indent (S level))
                   (map (member indent (S level)) (kv :: kvs))
              ++ newline_indent indent level ++ ["}"%char]).
    pose proof (join_length_sum (fun kv => size (snd kv)) (member indent (S level))
                  (item_separator indent (S level)) kvs
                  (item_separator_length indent (S level)) kv) as Hsum.
    change (size (PDict (kv :: kvs)))
      with (S (list_sum (map (fun kv => S (size (snd kv))) (kv :: kvs)))).
    cbn [length]. rewrite !length_app. cbn [length].
    assert (Hall : Forall (fun kv => (size (snd kv)
                                      <= length (member indent (S level) kv))%nat)
                     (kv :: kvs)).
    { eapply Forall_impl; [exact IH|]. intros y Hy. simpl in Hy.
      unfold member. rewrite !length_app. specialize (Hy (S level)). lia. }
    specialize (Hsum Hall). lia.
Qed.

(** [json.loads(json.dumps(v))] and [json.loads(json.dumps(v, indent=n))]
    return, with the same value. *)
Theorem loads_dumps_reloaded (v : pyval) (indent : option nat) :
  loads (dumps v indent) = Ok (reloaded v).
Proof.
  unfold loads, dumps, chars.
  rewrite list_ascii_of_string_of_list_ascii.
  pose proof (encode_starts indent 0 v []) as Hstart. rewrite app_nil_r in Hstart.
  rewrite (skip_ws_starts _ Hstart).
  pose proof (parse_value_encode v indent 0%nat
                (S (2 * length (encode indent 0 v))) []) as Hparse.
  rewrite app_nil_r in Hparse. rewrite Hparse; [reflexivity| |reflexivity].
  pose proof (size_le_length indent v 0%nat). lia.
Qed.

(** [json.loads(json.dumps(v))] and [json.loads(json.dumps(v, indent=n))]
    give [v] back. *)
Theorem loads_dumps (v : pyval) (indent : option nat) :
  json_ok v = true -> loads (dumps v indent) = Ok v.
Proof.
  intros Hok. by rewrite loads_dumps_reloaded, reloaded_json_ok.
Qed.

End JsonRoundTrip.

(** ** The analysis tasks *)

Section AnalysisTasks.

Variable PdfReader : list Byte.byte -> result Pypdf.reader.
Variable re_findall : pattern -> string -> list string.

Lemma extract_text_total inputData : exists v, extract_text PdfReader inputData = Ok v.
Proof. apply try_except_total; eauto. Qed.

Lemma extract_metadata_total inputData :
  exists v, extract_metadata PdfReader inputData = Ok v.
Proof. apply try_except_total; eauto. Qed.

Lemma analyze_statistics_total inputData :
  exists v, analyze_statistics PdfReader inputData = Ok v.
Proof. apply try_except_total; eauto. Qed.

Lemma detect_sensitive_data_total inputData :
  exists v, detect_sensitive_data PdfReader re_findall inputData = Ok v.
Proof. apply try_except_total; eauto. Qed.

(** The two loops over the pages stop at the first page that cannot be
    read, with its exception. *)
Lemma nonempty_texts_fault (before after : list Pypdf.PageObject)
    (page : Pypdf.PageObject) (msg : string) :
  Forall (fun p => exists t, Pypdf.extract_text p = Ok t) before ->
  Pypdf.extract_text page = Raise msg ->
  nonempty_texts (before ++ page :: after) = Raise msg.
Proof.
  intros Hbefore Hpage.
  induction Hbefore as [|p before [t Ht] _ IH]; simpl.
  - by rewrite Hpage.
  - by rewrite Ht, IH.
Qed.

Lemma page_text_fault (before after : list Pypdf.PageObject)
    (page : Pypdf.PageObject) (msg : string) :
  Forall (fun p => exists t, Pypdf.extract_text p = Ok t) before ->
  Pypdf.extract_text page = Raise msg ->
  forall acc, page_text acc (before ++ page :: after) = Raise msg.
Proof.
  intros Hbefore Hpage.
  induction Hbefore as [|p before [t Ht] _ IH]; intros acc; simpl.
  - by rewrite Hpage.
  - rewrite Ht. simpl. apply IH.
Qed.

(** C3, as amended: no task ever raises, and whatever goes wrong while a
    task reads the document (the bytes do not open as a document, the pages
    cannot be listed, a page cannot be read, the document information cannot
    be read, is missing or has a malformed date) the task returns its
    zero/empty-shaped result with an [error] entry holding the text of the
    exception; that entry is non-empty whenever the text is. *)
Theorem analysis_fault_is_contained (inputData : pyval) :
  (exists t m s d,
      extract_text PdfReader inputData = Ok t
      /\ extract_metadata PdfReader inputData = Ok m
      /\ analyze_statistics PdfReader inputData = Ok s
      /\ detect_sensitive_data PdfReader re_findall inputData = Ok d)
  /\ forall msg,
      let text_failure :=
        PDict [("hasText", PBool false); ("extractedText", PStr "");
               ("confidence", PFloat 0); ("error", PStr msg)] in
      let metadata_failure :=
        PDict [("title", PStr ""); ("author", PStr ""); ("error", PStr msg)] in
      let statistics_failure :=
        PDict [("page_count", PInt 0); ("word_count", PInt 0);
               ("avg_words_per_page", PInt 0);
               ("estimated_reading_time_min", PInt 0); ("error", PStr msg)] in
      let sensitive_failure :=
        PDict [("emails", PList []); ("phones", PList []); ("urls", PList []);
               ("dates", PList []); ("error", PStr msg)] in
      (open_reader PdfReader inputData = Raise msg ->
       extract_text PdfReader inputData = Ok text_failure
       /\ extract_metadata PdfReader inputData = Ok metadata_failure
       /\ analyze_statistics PdfReader inputData = Ok statistics_failure
       /\ detect_sensitive_data PdfReader re_findall inputData = Ok sensitive_failure)
      /\ (forall reader,
            open_reader PdfReader inputData = Ok reader ->
            (Pypdf.pages reader = Raise msg ->
             extract_text PdfReader inputData = Ok text_failure
             /\ analyze_statistics PdfReader inputData = Ok statistics_failure
             /\ detect_sensitive_data PdfReader re_findall inputData
                = Ok sensitive_failure)
            /\ (forall before page after,
                  Pypdf.pages reader = Ok (before ++ page :: after) ->
                  Forall (fun p => exists t, Pypdf.extract_text p = Ok t) before ->
                  Pypdf.extract_text page = Raise msg ->
                  extract_text PdfReader inputData = Ok text_failure
                  /\ analyze_statistics PdfReader inputData = Ok statistics_failure
                  /\ detect_sensitive_data PdfReader re_findall inputData
                     = Ok sensitive_failure)
            /\ (Pypdf.metadata reader = Raise msg ->
                extract_metadata PdfReader inputData = Ok metadata_failure)
            /\ (Pypdf.metadata reader = Ok None ->
                msg = "'NoneType' object has no attribute 'title'" ->
                extract_metadata PdfReader inputData = Ok metadata_failure)
            /\ (forall info,
                  Pypdf.metadata reader = Ok (Some info) ->
                  Pypdf.creation_date info = Raise msg
                  \/ (exists created, Pypdf.creation_date info = Ok (Some created))
                     /\ Pypdf.modification_date info = Raise msg ->
                  extract_metadata PdfReader inputData = Ok metadata_failure))
      /\ (msg <> "" ->
          Forall has_nonempty_error
            [text_failure; metadata_failure; statistics_failure; sensitive_failure]).
Proof.
  split.
  - destruct (extract_text_total inputData) as [t Ht].
    destruct (extract_metadata_total inputData) as [m Hm].
    destruct (analyze_statistics_total inputData) as [s Hs].
    destruct (detect_sensitive_data_total inputData) as [d Hd].
    exists t, m, s, d. auto.
  - intros msg text_failure metadata_failure statistics_failure sensitive_failure.
    split; [|split].
    + intros Hfault.
      unfold extract_text, extract_metadata, analyze_statistics, detect_sensitive_data.
      rewrite Hfault. repeat split.
    + intros reader Hopen.
      unfold extract_text, extract_metadata, analyze_statistics, detect_sensitive_data.
      rewrite Hopen. cbn [bind].
      split; [|split; [|split; [|split]]].
      * intros ->. repeat split.
      * intros before page after -> Hbefore Hpage. cbn [bind].
        rewrite (nonempty_texts_fault before after page msg Hbefore Hpage).
        rewrite (page_text_fault before after page msg Hbefore Hpage "").
        repeat split.
      * by intros ->.
      * by intros -> ->.
      * intros info -> [Hc|[[created Hc] Hm]]; cbn [bind attr]; rewrite Hc;
          [reflexivity|].
        cbn [bind attr]. by rewrite Hm.
    + intros Hne. repeat constructor; exists msg; split; auto.
Qed.

(** C10: a document that parses and has readable title, author, creator
    and producer, but lacks its creation date or its modification date,
    still gets the failure-shaped metadata payload; the error is the one of
    the missing date unless the creation date is there and malformed. *)
Theorem extract_metadata_needs_both_dates
    (inputData : pyval) (reader : Pypdf.reader) (info : Pypdf.DocumentInformation) :
  open_reader PdfReader inputData = Ok reader ->
  Pypdf.metadata reader = Ok (Some info) ->
  Pypdf.creation_date info = Ok None \/ Pypdf.modification_date info = Ok None ->
  exists e,
    extract_metadata PdfReader inputData
      = Ok (PDict [("title", PStr ""); ("author", PStr ""); ("error", PStr e)])
    /\ ((forall e', Pypdf.creation_date info <> Raise e') ->
        e = "'NoneType' object has no attribute 'isoformat'").
Proof.
  intros Hopen Hmeta Hdate.
  unfold extract_metadata. rewrite Hopen. cbn [bind]. rewrite Hmeta. cbn [bind attr].
  destruct (Pypdf.creation_date info) as [[c|]|e] eqn:Hc; cbn [bind attr].
  - destruct Hdate as [Hd|Hm]; [discriminate|]. rewrite Hm. cbn [bind attr].
    eexists. split; reflexivity.
  - eexists. split; reflexivity.
  - exists e. split; [reflexivity|]. intros H. by destruct (H e).
Qed.

(** C7: on a document that parses, the statistics task returns the
    success-shaped payload (so the division did not fault): the average is
    the integer 0 when there is no page and the quotient of word count by
    page count otherwise, the reading time is the word count over 200. *)
Theorem statistics_division_is_guarded
    (inputData : pyval) (reader : Pypdf.reader) (pages : list Pypdf.PageObject)
    (all_text : string) :
  open_reader PdfReader inputData = Ok reader ->
  Pypdf.pages reader = Ok pages ->
  page_text "" pages = Ok all_text ->
  let page_count := Z.of_nat (length pages) in
  let word_count := Z.of_nat (length (py_split all_text)) in
  exists avg reading,
    analyze_statistics PdfReader inputData
      = Ok (PDict [("page_count", PInt page_count);
                   ("word_count", PInt word_count);
                   ("avg_words_per_page", avg);
                   ("estimated_reading_time_min", PFloat reading)])
    /\ (page_count = 0 -> avg = PInt 0)
    /\ (page_count <> 0 ->
        exists q, avg = PFloat q
                  /\ (q == inject_Z word_count / inject_Z page_count)%Q)
    /\ (reading == inject_Z word_count / 200)%Q.
Proof.
  intros Hopen Hpages Htext page_count word_count.
  unfold analyze_statistics. rewrite Hopen. simpl. rewrite Hpages. simpl.
  rewrite Htext. simpl. fold page_count word_count.
  unfold truediv.
  destruct (page_count =? 0) eqn:Hpc; simpl.
  - apply Z.eqb_eq in Hpc.
    eexists _, _. split; [reflexivity|].
    split; [reflexivity|]. split; [congruence|]. apply Qred_correct.
  - apply Z.eqb_neq in Hpc.
    eexists _, _. split; [reflexivity|].
    split; [congruence|]. split; [|apply Qred_correct].
    intros _. eexists. split; [reflexivity|]. apply Qred_correct.
Qed.

(** No output of the metadata task has a [format] entry. *)
Lemma extract_metadata_has_no_format (inputData m : pyval) :
  extract_metadata PdfReader inputData = Ok m ->
  get_default m "format" (PStr "Unknown") = Ok (PStr "Unknown").
Proof.
  unfold extract_metadata, try_except.
  destruct (open_reader PdfReader inputData) as [reader|e]; simpl;
    [|intros [= <-]; reflexivity].
  destruct (Pypdf.metadata reader) as [[info|]|e]; simpl;
    try (intros [= <-]; reflexivity).
  destruct (Pypdf.creation_date info) as [[c|]|e]; simpl;
    try (intros [= <-]; reflexivity).
  destruct (Pypdf.modification_date info) as [[m'|]|e]; simpl; intros [= <-]; reflexivity.
Qed.

End AnalysisTasks.


(** C3 at a file without bytes, which the sample reader refuses, and at
    the sample document with a malformed date. *)
Lemma analysis_fault_is_contained_witness :
  let reader := Sample.PdfReader in
  open_reader reader (Sample.input_data []) = Raise "Cannot read an empty file"
  /\ extract_text reader (Sample.input_data [])
     = Ok (PDict [("hasText", PBool false); ("extractedText", PStr "");
                  ("confidence", PFloat 0);
                  ("error", PStr "Cannot read an empty file")])
  /\ extract_metadata reader (Sample.input_data [2])
     = Ok (PDict [("title", PStr ""); ("author", PStr "");
                  ("error", PStr "Can not convert date: D:2024-01-16")]).
Proof.
  split; [reflexivity|]. split.
  - apply (proj1 (proj2 (analysis_fault_is_contained
                           Sample.PdfReader Sample.re_findall
                           (Sample.input_data [])) "Cannot read an empty file")).
    reflexivity.
  - destruct (proj2 (analysis_fault_is_contained
                       Sample.PdfReader Sample.re_findall
                       (Sample.input_data [2])) "Can not convert date: D:2024-01-16")
      as (_ & H & _).
    destruct (H {| Pypdf.pages := Ok Sample.two_pages;
                   Pypdf.metadata := Ok (Some Sample.misdated) |} eq_refl)
      as (_ & _ & _ & _ & Hinfo).
    apply (Hinfo Sample.misdated eq_refl).
    right. split; [by eexists|reflexivity].
Defined.

(** C3 as stated fails: an exception without a text leaves an empty
    [error] entry behind.  Here the document opens and its second page
    cannot be read. *)
Lemma empty_fault_text_counterexample :
  let reader := Sample.PdfReader in
  let inputData := Sample.input_data [1] in
  (exists r, open_reader reader inputData = Ok r
             /\ Pypdf.pages r = Ok Sample.torn_pages)
  /\ forall task,
       In task [extract_text reader inputData; analyze_statistics reader inputData;
                detect_sensitive_data reader Sample.re_findall inputData] ->
       exists v, task = Ok v
                 /\ getitem v "error" = Ok (PStr "")
                 /\ ~ has_nonempty_error v.
Proof.
  split; [by eexists|].
  intros task [<-|[<-|[<-|[]]]]; (eexists; split; [reflexivity|]);
    (split; [reflexivity|]); intros (e & He & Hne); simpl in He; congruence.
Qed.

(** C10 at the sample document without a modification date. *)
Lemma extract_metadata_needs_both_dates_witness :
  Pypdf.title Sample.undated = Some "Report"
  /\ exists e,
       extract_metadata Sample.PdfReader (Sample.input_data [0])
         = Ok (PDict [("title", PStr ""); ("author", PStr ""); ("error", PStr e)])
       /\ ((forall e', Pypdf.creation_date Sample.undated <> Raise e') ->
           e = "'NoneType' object has no attribute 'isoformat'").
Proof.
  split; [reflexivity|].
  apply (extract_metadata_needs_both_dates Sample.PdfReader (Sample.input_data [0])
           {| Pypdf.pages := Ok Sample.two_pages;
              Pypdf.metadata := Ok (Some Sample.undated) |}
           Sample.undated).
  - reflexivity.
  - reflexivity.
  - right. reflexivity.
Defined.

(** C7 at the sample document: 7 words on 2 pages. *)
Lemma statistics_division_is_guarded_witness :
  exists avg reading,
    analyze_statistics Sample.PdfReader (Sample.input_data [37; 80])
      = Ok (PDict [("page_count", PInt 2); ("word_count", PInt 7);
                   ("avg_words_per_page", avg);
                   ("estimated_reading_time_min", PFloat reading)])
    /\ (2 = 0 -> avg = PInt 0)
    /\ (2 <> 0 -> exists q, avg = PFloat q /\ (q == inject_Z 7 / inject_Z 2)%Q)
    /\ (reading == inject_Z 7 / 200)%Q.
Proof.
  exact (statistics_division_is_guarded Sample.PdfReader
           (Sample.input_data [37; 80])
           {| Pypdf.pages := Ok Sample.two_pages;
              Pypdf.metadata := Ok (Some Sample.info) |}
           Sample.two_pages
           (String.append "write to a@b.com today"
              (String.append newline (String.append "or see https://x.com" newline)))
           eq_refl eq_refl eq_refl).
Defined.

(** The scenario of the specification: 500 words on 2 pages give an average
    of 250 and a reading time of 2.5 minutes; no page gives the integer 0. *)
Example statistics_of_500_words :
  truediv 500 2 = Ok 250%Q /\ truediv 500 200 = Ok (5 # 2)
  /\ truthy (PInt 0) = false.
Proof. repeat split. Qed.

(** ** The report reducer, properties *)

(** What a successful call of the reducer has read and built. *)
Lemma generate_report_Ok (reportData report : pyval) (h h' : host) :
  generate_report reportData h = (Ok report, h') ->
  exists blob_name filename text metadata statistics sensitive_data format hasText,
    getitem reportData "blob_name" = Ok blob_name
    /\ file_name_of blob_name = Ok filename
    /\ getitem reportData "text" = Ok text
    /\ getitem reportData "metadata" = Ok metadata
    /\ getitem reportData "statistics" = Ok statistics
    /\ getitem reportData "sensitive_data" = Ok sensitive_data
    /\ get_default metadata "format" (PStr "Unknown") = Ok format
    /\ get_default text "hasText" (PBool false) = Ok hasText
    /\ report = PDict [("id", PStr (uuid_stream h (uuid_calls h)));
                       ("fileName", filename);
                       ("blobPath", blob_name);
                       ("analyzedAt", PStr (clock h (clock_calls h)));
                       ("analyses", PDict [("text", text);
                                           ("metadata", metadata);
                                           ("statistics", statistics);
                                           ("sensitive_data", sensitive_data)]);
                       ("summary", PDict [("format", format); ("hasText", hasText)])]
    /\ h' = snd (utcnow (snd (uuid4 h))).
Proof.
  unfold generate_report.
  destruct (getitem reportData "blob_name") as [blob_name|e] eqn:E1; simpl; [|discriminate].
  destruct (file_name_of blob_name) as [filename|e] eqn:E2; simpl; [|discriminate].
  destruct (getitem reportData "text") as [text|e] eqn:E3; simpl; [|discriminate].
  destruct (getitem reportData "metadata") as [metadata|e] eqn:E4; simpl; [|discriminate].
  destruct (getitem reportData "statistics") as [statistics|e] eqn:E5; simpl; [|discriminate].
  destruct (getitem reportData "sensitive_data") as [sensitive|e] eqn:E6; simpl; [|discriminate].
  destruct (get_default metadata "format" (PStr "Unknown")) as [format|e] eqn:Hf;
    simpl; [|discriminate].
  destruct (get_default text "hasText" (PBool false)) as [hasText|e] eqn:Hh;
    simpl; [|discriminate].
  intros [= <- <-].
  exists blob_name, filename, text, metadata, statistics, sensitive, format, hasText.
  repeat split; auto.
Qed.

(** The answer of the reducer, the two generated entries set aside: it is
    the same whatever the host hands out. *)
Lemma generate_report_host_irrelevant (reportData : pyval) (h1 h2 : host) :
  match fst (generate_report reportData h1), fst (generate_report reportData h2) with
  | Ok r1, Ok r2 =>
      forall k, k <> "id" -> k <> "analyzedAt" -> getitem r1 k = getitem r2 k
  | Raise e1, Raise e2 => e1 = e2
  | _, _ => False
  end.
Proof.
  unfold generate_report.
  destruct (getitem reportData "blob_name") as [blob_name|e]; simpl; [|reflexivity].
  destruct (file_name_of blob_name) as [filename|e]; simpl; [|reflexivity].
  destruct (getitem reportData "text") as [text|e]; simpl; [|reflexivity].
  destruct (getitem reportData "metadata") as [metadata|e]; simpl; [|reflexivity].
  destruct (getitem reportData "statistics") as [statistics|e]; simpl; [|reflexivity].
  destruct (getitem reportData "sensitive_data") as [sensitive|e]; simpl; [|reflexivity].
  destruct (get_default metadata "format" (PStr "Unknown")) as [format|e];
    simpl; [|reflexivity].
  destruct (get_default text "hasText" (PBool false)) as [hasText|e];
    simpl; [|reflexivity].
  intros k Hid Hat.
  apply String.eqb_neq in Hid, Hat. rewrite Hid. simpl. rewrite Hat. reflexivity.
Qed.

(** C4, as amended: the reducer is deterministic up to the identifier and the
    time stamp.  Two invocations on the same four results and path fail
    alike or yield reports that agree on every entry but [id] and
    [analyzedAt]; those two are drawn inside the reducer from the host
    ([uuid4], [utcnow]) at each invocation, not taken from the caller. *)
Theorem generate_report_deterministic_up_to_id_and_time
    (reportData : pyval) (h1 h2 : host) :
  match fst (generate_report reportData h1), fst (generate_report reportData h2) with
  | Ok r1, Ok r2 =>
      (forall k, k <> "id" -> k <> "analyzedAt" -> getitem r1 k = getitem r2 k)
      /\ getitem r1 "id" = Ok (PStr (uuid_stream h1 (uuid_calls h1)))
      /\ getitem r2 "id" = Ok (PStr (uuid_stream h2 (uuid_calls h2)))
      /\ getitem r1 "analyzedAt" = Ok (PStr (clock h1 (clock_calls h1)))
      /\ getitem r2 "analyzedAt" = Ok (PStr (clock h2 (clock_calls h2)))
  | Raise e1, Raise e2 => e1 = e2
  | _, _ => False
  end.
Proof.
  pose proof (generate_report_host_irrelevant reportData h1 h2) as H.
  destruct (generate_report reportData h1) as [[r1|e1] h1'] eqn:E1;
    destruct (generate_report reportData h2) as [[r2|e2] h2'] eqn:E2;
    simpl in *; auto.
  apply generate_report_Ok in E1 as (?&?&?&?&?&?&?&?&_&_&_&_&_&_&_&_&->&_).
  apply generate_report_Ok in E2 as (?&?&?&?&?&?&?&?&_&_&_&_&_&_&_&_&->&_).
  repeat split; auto.
Qed.

(** C4 as stated fails: the same input reduced twice in a row gives two
    reports that differ, in their identifier already. *)
Lemma generate_report_twice_counterexample :
  let reportData :=
    PDict [("blob_name", PStr "pdf/report.pdf");
           ("text", PDict [("hasText", PBool true)]);
           ("metadata", PDict []);
           ("statistics", PDict []);
           ("sensitive_data", PDict [])] in
  let first := generate_report reportData Sample.the_host in
  let second := generate_report reportData (snd first) in
  exists r1 r2,
    fst first = Ok r1 /\ fst second = Ok r2
    /\ py_eq r1 r2 = false
    /\ getitem r1 "id" = Ok (PStr "0000-0")
    /\ getitem r2 "id" = Ok (PStr "0000-1").
Proof. eexists _, _. repeat split. Qed.

(** ** The result store *)

Lemma get_table_client_unfold (st : storage) :
  get_table_client st =
    match environ st !! "PDFStorageConnection" with
    | None => (Raise "'PDFStorageConnection'", st)
    | Some connection_string =>
        match outage st (Connect connection_string) with
        | Some e => (Raise e, st)
        | None =>
            match outage st CreateTable with
            | Some e => (Raise e, st)
            | None =>
                (Ok TABLE_NAME,
                 match tables st !! TABLE_NAME with
                 | Some _ => st
                 | None => with_tables st (<[TABLE_NAME := ∅]> (tables st))
                 end)
            end
        end
    end.
Proof.
  unfold get_table_client, io_bind, io_ret, from_connection_string,
    create_table_if_not_exists.
  repeat case_match; simplify_eq; reflexivity.
Qed.

Lemma store_results_unfold (report : pyval) (st : storage) :
  store_results report st =
    match getitem report "fileName" with
    | Raise e => (Raise e, st)
    | Ok _ =>
        match get_table_client st with
        | (Raise e, st1) => (error_record report e, st1)
        | (Ok client, st1) =>
            match entity_of report with
            | Raise e => (error_record report e, st1)
            | Ok entity =>
                match upsert_entity client entity st1 with
                | (Raise e, st2) => (error_record report e, st2)
                | (Ok _, st2) =>
                    match stored_record report with
                    | Ok r => (Ok r, st2)
                    | Raise e => (error_record report e, st2)
                    end
                end
            end
        end
    end.
Proof.
  unfold store_results, io_bind, io_try, io_lift.
  repeat case_match; simplify_eq; reflexivity.
Qed.

Lemma get_table_client_Raise (st st1 : storage) (e : string) :
  get_table_client st = (Raise e, st1) -> st1 = st.
Proof.
  rewrite get_table_client_unfold.
  repeat case_match; intros; simplify_eq; reflexivity.
Qed.

Lemma get_table_client_Ok (st st1 : storage) (client : string) :
  get_table_client st = (Ok client, st1) ->
  client = TABLE_NAME
  /\ is_Some (tables st1 !! TABLE_NAME)
  /\ get_table_client st1 = (Ok client, st1).
Proof.
  rewrite !get_table_client_unfold.
  destruct (environ st !! "PDFStorageConnection") as [conn|] eqn:Henv; [|discriminate].
  destruct (outage st (Connect conn)) eqn:Hconn; [discriminate|].
  destruct (outage st CreateTable) eqn:Hout; [discriminate|].
  destruct (tables st !! TABLE_NAME) eqn:Ht; intros [= <- <-]; simpl.
  - rewrite Henv, Hconn, Hout, Ht. eauto.
  - rewrite Henv, Hconn, Hout, lookup_insert_eq. eauto.
Qed.

Lemma upsert_entity_Raise (client : string) (entity : dict) (st st2 : storage) (e : string) :
  upsert_entity client entity st = (Raise e, st2) -> st2 = st.
Proof.
  unfold upsert_entity. repeat case_match; intros; simplify_eq; reflexivity.
Qed.

Lemma upsert_entity_Ok (client : string) (entity : dict) (st st2 : storage) (u : unit) :
  upsert_entity client entity st = (Ok u, st2) ->
  exists key rows,
    entity_key entity = Ok key
    /\ tables st !! client = Some rows
    /\ st2 = with_tables st (<[client := <[key := entity]> rows]> (tables st))
    /\ upsert_entity client entity st2 = (Ok u, st2).
Proof.
  unfold upsert_entity.
  destruct (outage st UpsertEntity) eqn:Hout; [discriminate|].
  destruct (entity_key entity) as [key|] eqn:Hkey; [|discriminate].
  destruct (tables st !! client) as [rows|] eqn:Hrows; [|discriminate].
  intros [= <- <-]. exists key, rows. repeat split; auto.
  simpl. rewrite Hout, lookup_insert_eq.
  unfold with_tables. simpl. by rewrite !insert_insert_eq.
Qed.

(** Storing a report a second time changes nothing and answers alike. *)
Lemma store_results_twice (report : pyval) (st : storage) :
  store_results report (snd (store_results report st)) = store_results report st.
Proof.
  rewrite (store_results_unfold report st).
  destruct (getitem report "fileName") as [f|e] eqn:Hf; simpl.
  2:{ rewrite store_results_unfold, Hf. reflexivity. }
  destruct (get_table_client st) as [[client|e] st1] eqn:Hc.
  2:{ apply get_table_client_Raise in Hc as Hst. subst st1.
      simpl;
        rewrite store_results_unfold, Hf, Hc; reflexivity. }
  apply get_table_client_Ok in Hc as (-> & Htable & Hc1).
  destruct (entity_of report) as [entity|e] eqn:He.
  2:{ simpl;
        rewrite store_results_unfold, Hf, Hc1, He; reflexivity. }
  destruct (upsert_entity TABLE_NAME entity st1) as [[u|e] st2] eqn:Hu.
  2:{ apply upsert_entity_Raise in Hu as Hst. subst st2.
      simpl;
        rewrite store_results_unfold, Hf, Hc1, He, Hu; reflexivity. }
  assert (get_table_client st2 = (Ok TABLE_NAME, st2)) as Hc2.
  { apply upsert_entity_Ok in Hu as (key & rows & _ & Hrows & -> & _).
    revert Hc1. rewrite !get_table_client_unfold.
    simpl. destruct (environ st1 !! "PDFStorageConnection") as [conn|]; [|discriminate].
    destruct (outage st1 (Connect conn)); [discriminate|].
    destruct (outage st1 CreateTable); [discriminate|].
    rewrite lookup_insert_eq. reflexivity. }
  apply upsert_entity_Ok in Hu as (_ & _ & _ & _ & _ & Hu2).
  destruct (stored_record report) eqn:Hr; simpl;
    rewrite store_results_unfold, Hf, Hc2, He, Hu2, ?Hr; reflexivity.
Qed.

Lemma entity_of_Ok (report : pyval) (entity : dict) :
  entity_of report = Ok entity ->
  exists id fileName blobPath analyzedAt summary analyses text metadata,
    getitem report "id" = Ok id
    /\ getitem report "fileName" = Ok fileName
    /\ getitem report "blobPath" = Ok blobPath
    /\ getitem report "analyzedAt" = Ok analyzedAt
    /\ getitem report "summary" = Ok summary
    /\ getitem report "analyses" = Ok analyses
    /\ getitem analyses "text" = Ok text
    /\ getitem analyses "metadata" = Ok metadata
    /\ entity = [("PartitionKey", PStr "PDFAnalysis");
                 ("RowKey", id);
                 ("FileName", fileName);
                 ("BlobPath", blobPath);
                 ("AnalyzedAt", analyzedAt);
                 ("Summary", dumps_str summary);
                 ("TextAnalysis", dumps_str text);
                 ("MetadataAnalysis", dumps_str metadata)].
Proof.
  unfold entity_of.
  destruct (getitem report "id") as [id|] eqn:E1; simpl; [|discriminate].
  destruct (getitem report "fileName") as [f|] eqn:E2; simpl; [|discriminate].
  destruct (getitem report "blobPath") as [b|] eqn:E3; simpl; [|discriminate].
  destruct (getitem report "analyzedAt") as [a|] eqn:E4; simpl; [|discriminate].
  destruct (getitem report "summary") as [su|] eqn:E5; simpl; [|discriminate].
  destruct (getitem report "analyses") as [an|] eqn:E6; simpl; [|discriminate].
  destruct (getitem an "text") as [t|] eqn:E7; simpl; [|discriminate].
  destruct (getitem an "metadata") as [m|] eqn:E8; simpl; [|discriminate].
  intros [= <-]. exists id, f, b, a, su, an, t, m. repeat split; auto.
Qed.

(** A [stored] answer means the entity of the report sits in the table,
    under the fixed partition and the identifier of the report. *)
Lemma store_results_stored (report record : pyval) (st st' : storage) :
  store_results report st = (Ok record, st') ->
  getitem record "status" = Ok (PStr "stored") ->
  exists id entity rows,
    getitem report "id" = Ok (PStr id)
    /\ entity_of report = Ok entity
    /\ stored_record report = Ok record
    /\ tables st' !! TABLE_NAME = Some rows
    /\ rows !! ("PDFAnalysis", id) = Some entity.
Proof.
  assert (Herr : forall e r, error_record report e = Ok r ->
                            getitem r "status" <> Ok (PStr "stored")).
  { intros e r. unfold error_record.
    destruct (get_default report "id" (PStr "unknown")); simpl; [|discriminate].
    intros [= <-]. simpl. discriminate. }
  rewrite store_results_unfold.
  destruct (getitem report "fileName") as [f|e] eqn:Hf; [|discriminate].
  destruct (get_table_client st) as [[client|e] st1] eqn:Hc.
  2:{ intros [= H <-] Hs. exfalso. eapply Herr; eauto. }
  apply get_table_client_Ok in Hc as (-> & _ & _).
  destruct (entity_of report) as [entity|e] eqn:He.
  2:{ intros [= H <-] Hs. exfalso. eapply Herr; eauto. }
  destruct (upsert_entity TABLE_NAME entity st1) as [[u|e] st2] eqn:Hu.
  2:{ intros [= H <-] Hs. exfalso. eapply Herr; eauto. }
  destruct (stored_record report) as [r|e] eqn:Hr.
  2:{ intros [= H <-] Hs. exfalso. eapply Herr; eauto. }
  intros [= <- <-] _.
  apply upsert_entity_Ok in Hu as (key & rows & Hkey & Hrows & -> & _).
  apply entity_of_Ok in He as Hent.
  destruct Hent as (id & ? & ? & ? & ? & ? & ? & ? & Hid & _ & _ & _ & _ & _ & _ & _ & ->).
  unfold entity_key in Hkey. simpl in Hkey.
  destruct id as [| | | |id| | |]; simpl in Hkey; try discriminate.
  injection Hkey as <-.
  eexists id, _, _.
  split; [exact Hid|]. split; [reflexivity|]. split; [reflexivity|].
  split; [simpl; apply lookup_insert_eq|]. apply lookup_insert_eq.
Qed.

(** C5: storing the same report twice leaves the store exactly as storing it
    once does, and gives the same answer; when the answer is [stored], the
    table holds the entity of the report under the fixed partition key and
    the report identifier, after one call as after two. *)
Theorem put_is_idempotent (report : pyval) (st : storage) :
  let once := store_results report st in
  let twice := store_results report (snd once) in
  snd twice = snd once
  /\ fst twice = fst once
  /\ forall record,
      fst once = Ok record ->
      getitem record "status" = Ok (PStr "stored") ->
      exists id entity rows,
        getitem report "id" = Ok (PStr id)
        /\ entity_of report = Ok entity
        /\ tables (snd once) !! TABLE_NAME = Some rows
        /\ tables (snd twice) !! TABLE_NAME = Some rows
        /\ rows !! ("PDFAnalysis", id) = Some entity.
Proof.
  intros once twice.
  assert (Htwice : twice = once) by apply store_results_twice.
  rewrite Htwice. repeat split.
  intros record Hrec Hstatus.
  destruct once as [r st1] eqn:Honce. simpl in Hrec. subst r.
  destruct (store_results_stored _ _ _ _ Honce Hstatus)
    as (id & entity & rows & Hid & He & _ & Hrows & Hrow).
  exists id, entity, rows. auto.
Qed.

(** C5 at the sample report and the empty sample account. *)
Lemma put_is_idempotent_witness :
  fst (store_results Sample.report Sample.the_storage) = Ok Sample.record
  /\ exists id entity rows,
      getitem Sample.report "id" = Ok (PStr id)
      /\ entity_of Sample.report = Ok entity
      /\ tables (snd (store_results Sample.report Sample.the_storage)) !! TABLE_NAME
         = Some rows
      /\ tables (snd (store_results Sample.report
                        (snd (store_results Sample.report Sample.the_storage))))
           !! TABLE_NAME = Some rows
      /\ rows !! ("PDFAnalysis", id) = Some entity.
Proof.
  split; [vm_compute; reflexivity|].
  apply (proj2 (proj2 (put_is_idempotent Sample.report Sample.the_storage))
           Sample.record).
  - vm_compute. reflexivity.
  - reflexivity.
Defined.

(** ** The summary of a report *)

Section Summary.

Variable PdfReader : list Byte.byte -> result Pypdf.reader.

(** C9: whatever the metadata task returned, success shape or failure
    shape, the report built from it has [format] equal to ["Unknown"] in its
    summary, since no output of that task has a [format] entry; the summary
    that [store_results] then writes and returns is that very one. *)
Theorem summary_format_is_unknown
    (inputData reportData metadata report : pyval) (h h' : host) :
  extract_metadata PdfReader inputData = Ok metadata ->
  getitem reportData "metadata" = Ok metadata ->
  generate_report reportData h = (Ok report, h') ->
  exists hasText,
    let summary := PDict [("format", PStr "Unknown"); ("hasText", hasText)] in
    getitem report "summary" = Ok summary
    /\ forall st record st',
        store_results report st = (Ok record, st') ->
        getitem record "status" = Ok (PStr "stored") ->
        exists id rows entity,
          getitem record "summary" = Ok summary
          /\ tables st' !! TABLE_NAME = Some rows
          /\ rows !! ("PDFAnalysis", id) = Some entity
          /\ getitem (PDict entity) "Summary" = Ok (PStr (Json.dumps summary None)).
Proof.
  intros Hmeta Hget Hgen.
  apply generate_report_Ok in Hgen
    as (blob & file & text & meta' & stats & sens & format & hasText
        & _ & _ & _ & Hm & _ & _ & Hformat & _ & -> & _).
  assert (meta' = metadata) as -> by congruence.
  rewrite (extract_metadata_has_no_format PdfReader _ _ Hmeta) in Hformat.
  injection Hformat as <-.
  exists hasText. split; [reflexivity|].
  intros st record st' Hstore Hstatus.
  destruct (store_results_stored _ _ _ _ Hstore Hstatus)
    as (id & entity & rows & _ & He & Hr & Hrows & Hrow).
  injection He as <-. injection Hr as <-.
  eexists id, rows, _. repeat split; eauto.
Qed.

End Summary.


(** C9 at the sample document, whose metadata task succeeds. *)
Lemma summary_format_is_unknown_witness :
  extract_metadata Sample.PdfReader (Sample.input_data [37; 80])
  = Ok Sample.metadata_out
  /\ exists hasText,
      let summary := PDict [("format", PStr "Unknown"); ("hasText", hasText)] in
      getitem Sample.report "summary" = Ok summary
      /\ forall st record st',
          store_results Sample.report st = (Ok record, st') ->
          getitem record "status" = Ok (PStr "stored") ->
          exists id rows entity,
            getitem record "summary" = Ok summary
            /\ tables st' !! TABLE_NAME = Some rows
            /\ rows !! ("PDFAnalysis", id) = Some entity
            /\ getitem (PDict entity) "Summary" = Ok (PStr (Json.dumps summary None)).
Proof.
  split; [reflexivity|].
  exact (summary_format_is_unknown Sample.PdfReader (Sample.input_data [37; 80])
           Sample.report_data Sample.metadata_out Sample.report Sample.the_host
           (snd (generate_report Sample.report_data Sample.the_host))
           eq_refl eq_refl eq_refl).
Defined.

(** ** Fan-out and fan-in *)

Section FanIn.

Variable PdfReader : list Byte.byte -> result Pypdf.reader.
Variable re_findall : pattern -> string -> list string.

Local Abbreviation analysis_results := (analysis_results PdfReader re_findall).
Local Abbreviation file_result := (file_result PdfReader re_findall).

Lemma complete_analysis_tasks input_data order :
  forall slots w,
    complete PdfReader re_findall (analysis_tasks input_data) order slots w
    = (foldl (file_result input_data) slots order, w).
Proof.
  induction order as [|i order IH]; intros slots w; simpl; [reflexivity|].
  destruct i as [|[|[|[|i]]]]; simpl; rewrite ?IH; reflexivity.
Qed.

Lemma file_result_length input_data slots i :
  length (file_result input_data slots i) = length slots.
Proof.
  unfold file_result. destruct (analysis_results input_data !! i); [|reflexivity].
  apply length_insert.
Qed.

Lemma filed_result_stays input_data order :
  forall slots j r,
    analysis_results input_data !! j = Some r ->
    slots !! j = Some (Some r) ->
    foldl (file_result input_data) slots order !! j = Some (Some r).
Proof.
  induction order as [|i order IH]; intros slots j r Hr Hj; simpl; [exact Hj|].
  apply IH; [exact Hr|].
  unfold file_result.
  destruct (analysis_results input_data !! i) as [r'|] eqn:Hi; [|exact Hj].
  destruct (decide (i = j)) as [->|Hne].
  - rewrite list_lookup_insert_eq by (eapply lookup_lt_Some; eauto). congruence.
  - rewrite list_lookup_insert_ne by exact Hne. exact Hj.
Qed.

Lemma completed_task_is_filed input_data order :
  forall slots j r,
    analysis_results input_data !! j = Some r ->
    (j < length slots)%nat ->
    j ∈ order ->
    foldl (file_result input_data) slots order !! j = Some (Some r).
Proof.
  induction order as [|i order IH]; intros slots j r Hr Hlen Hin.
  - inversion Hin.
  - simpl. destruct (decide (i = j)) as [->|Hne].
    + apply filed_result_stays; [exact Hr|].
      unfold file_result. rewrite Hr. by apply list_lookup_insert_eq.
    + apply IH; [exact Hr| by rewrite file_result_length |].
      apply elem_of_cons in Hin as [->|Hin]; [congruence|exact Hin].
Qed.

End FanIn.


(** ** The query function: one result *)

Lemma get_results_by_id (req : HttpRequest) (st : storage) (id : string) :
  route_params req !! "id" = Some id ->
  id <> "" ->
  get_results req st =
    match get_table_client st with
    | (Raise e, st1) => (Ok (json_response (PDict [("error", PStr e)]) None 500), st1)
    | (Ok table_client, st1) =>
        match get_entity table_client "PDFAnalysis" id st1 with
        | (Raise _, st2) =>
            (Ok (json_response (PDict [("error", PStr ("Result not found: " ++ id))])
                   None 404), st2)
        | (Ok entity, st2) =>
            match result_of_entity entity with
            | Raise _ =>
                (Ok (json_response (PDict [("error", PStr ("Result not found: " ++ id))])
                       None 404), st2)
            | Ok result => (Ok (json_response result (Some 2%nat) 200), st2)
            end
        end
    end.
Proof.
  intros Hid Hne. unfold get_results, io_try, io_bind, io_lift, io_ret.
  destruct (get_table_client st) as [[client|e] st1]; [|reflexivity].
  rewrite Hid.
  change (truthy (opt_str (Some id))) with (negb (String.eqb id "")).
  change (default "" (Some id)) with id.
  apply String.eqb_neq in Hne. rewrite Hne.
  change (negb false) with true. cbv beta iota.
  destruct (get_entity client "PDFAnalysis" id st1) as [[entity|e] st2]; [|reflexivity].
  destruct (result_of_entity entity) as [result|e]; reflexivity.
Qed.

Lemma loads_field_dumps (entity : dict) (k : string) (v : pyval) :
  dict_lookup k entity = Some (dumps_str v) ->
  json_ok v = true ->
  loads_field entity k = Ok v.
Proof.
  intros Hk Hok. unfold loads_field. simpl. rewrite Hk. simpl.
  by apply loads_dumps.
Qed.

Lemma loads_field_dumps_reloaded (entity : dict) (k : string) (v : pyval) :
  dict_lookup k entity = Some (dumps_str v) ->
  loads_field entity k = Ok (Json.reloaded v).
Proof.
  intros Hk. unfold loads_field. simpl. rewrite Hk. simpl.
  apply loads_dumps_reloaded.
Qed.

(** C1, as amended: on a working store, putting a report and getting it back
    by its identifier answers 200 with the identifier, file name, source
    path and time stamp of the original and with its summary and its text
    and metadata analyses as [json.loads] reads them from the JSON text
    that [json.dumps] wrote; the statistics and sensitive-data analyses are
    not stored and do not come back.  The three nested values come back as
    they were, whatever their strings, when their dictionaries have distinct
    keys and their floats print exactly.  The body decodes to the dictionary
    answered. *)
Theorem stored_report_is_read_back_without_statistics
    (report : pyval) (st : storage) (req : HttpRequest) (id : string)
    (fileName blobPath analyzedAt summary analyses text metadata : pyval) :
  getitem report "id" = Ok (PStr id) ->
  id <> "" ->
  getitem report "fileName" = Ok fileName ->
  getitem report "blobPath" = Ok blobPath ->
  getitem report "analyzedAt" = Ok analyzedAt ->
  getitem report "summary" = Ok summary ->
  getitem report "analyses" = Ok analyses ->
  getitem analyses "text" = Ok text ->
  getitem analyses "metadata" = Ok metadata ->
  is_Some (environ st !! "PDFStorageConnection") ->
  (forall r, outage st r = None) ->
  route_params req !! "id" = Some id ->
  let rebuilt (summary text metadata : pyval) :=
    PDict [("id", PStr id);
           ("fileName", fileName);
           ("blobPath", blobPath);
           ("analyzedAt", analyzedAt);
           ("summary", summary);
           ("analyses", PDict [("text", text); ("metadata", metadata)])] in
  let result :=
    rebuilt (Json.reloaded summary) (Json.reloaded text) (Json.reloaded metadata) in
  exists record st1,
    store_results report st = (Ok record, st1)
    /\ getitem record "id" = Ok (PStr id)
    /\ getitem record "status" = Ok (PStr "stored")
    /\ get_results req st1 = (Ok (json_response result (Some 2%nat) 200), st1)
    /\ Json.loads (body (json_response result (Some 2%nat) 200))
       = Ok (Json.reloaded result)
    /\ (json_ok summary = true -> json_ok text = true -> json_ok metadata = true ->
        result = rebuilt summary text metadata
        /\ (json_ok fileName = true -> json_ok blobPath = true ->
            json_ok analyzedAt = true ->
            Json.reloaded result = result)).
Proof.
  intros Hid Hne Hfile Hblob Hat Hsum Han Htext Hmeta [conn Henv] Hout Hreq
    rebuilt result.
  assert (Hentity : entity_of report
                    = Ok [("PartitionKey", PStr "PDFAnalysis");
                          ("RowKey", PStr id);
                          ("FileName", fileName);
                          ("BlobPath", blobPath);
                          ("AnalyzedAt", analyzedAt);
                          ("Summary", dumps_str summary);
                          ("TextAnalysis", dumps_str text);
                          ("MetadataAnalysis", dumps_str metadata)]).
  { unfold entity_of. rewrite Hid, Hfile, Hblob, Hat, Hsum, Han. simpl.
    rewrite Htext. simpl. rewrite Hmeta. reflexivity. }
  assert (Hrecord : stored_record report
                    = Ok (PDict [("id", PStr id); ("fileName", fileName);
                                 ("status", PStr "stored");
                                 ("analyzedAt", analyzedAt); ("summary", summary)])).
  { unfold stored_record. rewrite Hid, Hfile, Hat, Hsum. reflexivity. }
  destruct (get_table_client st) as [[client|e] st0] eqn:Hclient.
  2:{ exfalso. revert Hclient. rewrite get_table_client_unfold.
      rewrite Henv, (Hout (Connect conn)), (Hout CreateTable). discriminate. }
  pose proof (get_table_client_Ok _ _ _ Hclient) as (-> & [rows Hrows] & Hclient0).
  assert (Hout0 : outage st0 = outage st).
  { revert Hclient.
    rewrite get_table_client_unfold, Henv, (Hout (Connect conn)), (Hout CreateTable).
    destruct (tables st !! TABLE_NAME); intros [= <-]; reflexivity. }
  set (entity := [("PartitionKey", PStr "PDFAnalysis"); ("RowKey", PStr id);
                  ("FileName", fileName); ("BlobPath", blobPath);
                  ("AnalyzedAt", analyzedAt); ("Summary", dumps_str summary);
                  ("TextAnalysis", dumps_str text);
                  ("MetadataAnalysis", dumps_str metadata)]) in *.
  set (st1 := with_tables st0
                (<[TABLE_NAME := <[("PDFAnalysis", id) := entity]> rows]> (tables st0))).
  assert (Hupsert : upsert_entity TABLE_NAME entity st0 = (Ok tt, st1)).
  { unfold upsert_entity. rewrite Hout0, (Hout UpsertEntity).
    change (entity_key entity) with (@Ok (string * string) ("PDFAnalysis", id)).
    cbv iota. rewrite Hrows. reflexivity. }
  exists (PDict [("id", PStr id); ("fileName", fileName); ("status", PStr "stored");
                 ("analyzedAt", analyzedAt); ("summary", summary)]), st1.
  split.
  { rewrite store_results_unfold, Hfile, Hclient, Hentity, Hupsert, Hrecord.
    reflexivity. }
  split; [reflexivity|]. split; [reflexivity|].
  assert (Hclient1 : get_table_client st1 = (Ok TABLE_NAME, st1)).
  { revert Hclient0. rewrite !get_table_client_unfold. unfold st1. simpl.
    destruct (environ st0 !! "PDFStorageConnection") as [conn0|]; [|discriminate].
    destruct (outage st0 (Connect conn0)); [discriminate|].
    destruct (outage st0 CreateTable); [discriminate|].
    rewrite lookup_insert_eq. reflexivity. }
  assert (Hget : get_entity TABLE_NAME "PDFAnalysis" id st1 = (Ok entity, st1)).
  { unfold get_entity. unfold st1 at 1 2. simpl.
    rewrite Hout0, (Hout GetEntity), !lookup_insert_eq. reflexivity. }
  assert (Hresult : result_of_entity entity = Ok result).
  { unfold result_of_entity.
    rewrite (loads_field_dumps_reloaded entity "Summary" summary eq_refl).
    rewrite (loads_field_dumps_reloaded entity "TextAnalysis" text eq_refl).
    rewrite (loads_field_dumps_reloaded entity "MetadataAnalysis" metadata eq_refl).
    reflexivity. }
  split.
  { rewrite (get_results_by_id req st1 id Hreq Hne), Hclient1, Hget, Hresult.
    reflexivity. }
  split; [apply loads_dumps_reloaded|].
  intros Hoks Hokt Hokm. unfold result.
  rewrite !reloaded_json_ok by assumption.
  split; [reflexivity|].
  intros Hokf Hokb Hoka. apply reloaded_json_ok.
  simpl. rewrite Hokf, Hokb, Hoka, Hoks, Hokt, Hokm. reflexivity.
Qed.

(** C1 at the sample report, whose title is not within ASCII, and the empty
    sample account. *)
Lemma stored_report_is_read_back_without_statistics_witness :
  exists record st1,
    store_results Sample.report Sample.the_storage = (Ok record, st1)
    /\ getitem record "id" = Ok (PStr "0000-0")
    /\ getitem record "status" = Ok (PStr "stored")
    /\ get_results (Sample.request_for "0000-0") st1
       = (Ok (json_response Sample.rebuilt (Some 2%nat) 200), st1)
    /\ Json.loads (body (json_response Sample.rebuilt (Some 2%nat) 200))
       = Ok Sample.rebuilt.
Proof.
  destruct (stored_report_is_read_back_without_statistics
              Sample.report Sample.the_storage (Sample.request_for "0000-0") "0000-0"
              (PStr "report.pdf") (PStr "pdf/report.pdf") (PStr "2024-05-01T00:00:00")
              Sample.summary
              (PDict [("text", Sample.text_out); ("metadata", Sample.metadata_out);
                      ("statistics", Sample.statistics_out);
                      ("sensitive_data", Sample.sensitive_out)])
              Sample.text_out Sample.metadata_out
              eq_refl ltac:(discriminate) eq_refl eq_refl eq_refl eq_refl eq_refl
              eq_refl eq_refl
              (ex_intro _ "UseDevelopmentStorage=true" eq_refl)
              (fun r => eq_refl) eq_refl)
    as (record & st1 & Hstore & Hid & Hstatus & Hget & Hbody & Hsame).
  destruct (Hsame eq_refl eq_refl eq_refl) as [Hresult Hloaded].
  rewrite Hresult in Hget, Hbody, Hloaded.
  rewrite (Hloaded eq_refl eq_refl eq_refl) in Hbody.
  exists record, st1. repeat split; assumption.
Defined.

(** C1 as stated fails: what comes back for the sample report is not equal
    to it, the statistics and sensitive-data analyses are gone; every other
    entry is equal to the original one. *)
Lemma round_trip_drops_analyses_counterexample :
  fst (store_results Sample.report Sample.the_storage) = Ok Sample.record
  /\ fst (get_results (Sample.request_for "0000-0") Sample.stored)
     = Ok (json_response Sample.rebuilt (Some 2%nat) 200)
  /\ Json.loads (body (json_response Sample.rebuilt (Some 2%nat) 200)) = Ok Sample.rebuilt
  /\ py_eq Sample.rebuilt Sample.report = false
  /\ (let* analyses := getitem Sample.report "analyses" in getitem analyses "statistics")
     = Ok Sample.statistics_out
  /\ (let* analyses := getitem Sample.rebuilt "analyses" in getitem analyses "statistics")
     = Raise "'statistics'"
  /\ (let* analyses := getitem Sample.rebuilt "analyses" in
      getitem analyses "sensitive_data")
     = Raise "'sensitive_data'"
  /\ forallb (fun k =>
                match getitem Sample.rebuilt k, getitem Sample.report k with
                | Ok a, Ok b => py_eq a b
                | _, _ => false
                end)
       ["id"; "fileName"; "blobPath"; "analyzedAt"; "summary"] = true.
Proof.
  repeat split; vm_compute; reflexivity.
Qed.

(** C8 fails on the code: with the identifier in the table and the read
    failing for another reason than absence, the answer still is the 404
    [Result not found]; the inner handler catches every exception. *)
Theorem read_fault_is_answered_404 :
  match tables (Sample.unreadable Sample.stored) !! TABLE_NAME with
  | Some rows => rows !! ("PDFAnalysis", "0000-0")
  | None => None
  end = Some Sample.entity
  /\ get_entity TABLE_NAME "PDFAnalysis" "0000-0" (Sample.unreadable Sample.stored)
     = (Raise "The request timed out", Sample.unreadable Sample.stored)
  /\ fst (get_results (Sample.request_for "0000-0") (Sample.unreadable Sample.stored))
     = Ok (json_response (PDict [("error", PStr "Result not found: 0000-0")]) None 404).
Proof.
  split; [|split]; vm_compute; reflexivity.
Qed.

(** ** The query function: the listing *)

Lemma string_leb_spec (a b : string) :
  String.leb a b = true <-> a = b \/ String_as_OT.lt a b.
Proof.
  unfold String.leb.
  destruct (String.compare a b) eqn:Hc.
  - apply String_as_OT.cmp_eq in Hc. tauto.
  - apply String_as_OT.cmp_lt in Hc. tauto.
  - split; [discriminate|]. intros [->|Hlt].
    + assert (String.compare b b = Eq) by (apply String_as_OT.cmp_eq; reflexivity).
      congruence.
    + apply String_as_OT.cmp_lt in Hlt. unfold String_as_OT.cmp in Hlt. congruence.
Qed.

Lemma string_leb_trans (a b c : string) :
  String.leb a b = true -> String.leb b c = true -> String.leb a c = true.
Proof.
  rewrite !string_leb_spec. intros [->|Hab] [->|Hbc]; auto.
  right. eapply String_as_OT.lt_trans; eauto.
Qed.

Lemma string_ltb_leb (a b : string) : String.ltb a b = true -> String.leb a b = true.
Proof. unfold String.ltb, String.leb. destruct (String.compare a b); auto. Qed.

Lemma string_ltb_false (a b : string) : String.ltb a b = false -> String.leb b a = true.
Proof.
  unfold String.ltb, String.leb. rewrite (String.compare_antisym b a).
  destruct (String.compare a b); simpl; intros; congruence.
Qed.

Lemma insert_desc_Forall (P : string * pyval -> Prop) x l :
  P x -> Forall P l -> Forall P (insert_desc x l).
Proof.
  intros Hx Hl. induction Hl as [|y l Hy Hl IH]; simpl.
  - constructor; [exact Hx|constructor].
  - destruct (String.ltb (fst x) (fst y)); repeat constructor; auto.
Qed.

Lemma insert_desc_sorted x l :
  StronglySorted key_ge l -> StronglySorted key_ge (insert_desc x l).
Proof.
  induction 1 as [|y l Hs IH Hy]; simpl.
  - repeat constructor.
  - destruct (String.ltb (fst x) (fst y)) eqn:Hlt.
    + constructor; [exact IH|].
      apply insert_desc_Forall; [|exact Hy].
      apply string_ltb_leb, Hlt.
    + apply string_ltb_false in Hlt.
      constructor; [constructor; assumption|].
      constructor; [exact Hlt|].
      eapply Forall_impl; [exact Hy|].
      intros z Hz. unfold key_ge in *. eapply string_leb_trans; eauto.
Qed.

Lemma insertion_sort_sorted ks : StronglySorted key_ge (fold_right insert_desc [] ks).
Proof.
  induction ks as [|k ks IH]; simpl; [constructor|]. by apply insert_desc_sorted.
Qed.

Lemma insertion_sort_Forall (P : string * pyval -> Prop) ks :
  Forall P ks -> Forall P (fold_right insert_desc [] ks).
Proof.
  induction 1; simpl; [constructor|]. by apply insert_desc_Forall.
Qed.

Lemma keyed_Ok results ks :
  keyed results = Ok ks -> Forall (fun kx => sort_key (snd kx) = Ok (fst kx)) ks.
Proof.
  revert ks. induction results as [|x results IH]; simpl; intros ks.
  - intros [= <-]. constructor.
  - destruct (sort_key x) as [k|] eqn:Hk; simpl; [|discriminate].
    destruct (keyed results) as [ks'|]; simpl; [|discriminate].
    intros [= <-]. constructor; auto.
Qed.

Lemma sorted_pairs_newest_first ks :
  Forall (fun kx => sort_key (snd kx) = Ok (fst kx)) ks ->
  StronglySorted key_ge ks ->
  newest_first (map snd ks).
Proof.
  intros Hk Hs. induction Hs as [|x l Hs IH Hx]; simpl; [constructor|].
  inversion Hk as [|? ? Hkx Hkl]; subst.
  constructor; [apply IH; exact Hkl|].
  rewrite Forall_forall in Hx, Hkl. apply Forall_forall. intros y Hy.
  apply list_elem_of_fmap in Hy as (ky & -> & Hin).
  exists (fst x), (fst ky). repeat split; auto. exact (Hx ky Hin).
Qed.

Lemma sort_desc_newest_first results sorted :
  sort_desc results = Ok sorted -> newest_first sorted.
Proof.
  unfold sort_desc. destruct (keyed results) as [ks|] eqn:Hk; simpl; [|discriminate].
  intros [= <-]. apply keyed_Ok in Hk.
  apply sorted_pairs_newest_first.
  - by apply insertion_sort_Forall.
  - apply insertion_sort_sorted.
Qed.

Lemma firstn_newest_first n results :
  newest_first results -> newest_first (firstn n results).
Proof.
  intros Hs. revert n. induction Hs as [|x l Hs IH Hx]; intros [|n]; simpl;
    try constructor.
  - apply IH.
  - apply Forall_forall. intros y Hy. rewrite Forall_forall in Hx. apply Hx.
    by apply (subseteq_take n l).
Qed.

Lemma slice_to_bounded {A} (limit : Z) (l : list A) :
  0 <= limit -> Z.of_nat (length (slice_to limit l)) <= limit.
Proof.
  intros Hl. unfold slice_to. destruct (0 <=? limit) eqn:H; [|lia].
  rewrite length_take. lia.
Qed.

Lemma slice_to_newest_first (limit : Z) results :
  newest_first results -> newest_first (slice_to limit results).
Proof. unfold slice_to. destruct (0 <=? limit); apply firstn_newest_first. Qed.

Lemma get_results_listing (req : HttpRequest) (st : storage) :
  truthy (opt_str (route_params req !! "id")) = false ->
  get_results req st =
    match get_table_client st with
    | (Raise e, st1) => (Ok (json_response (PDict [("error", PStr e)]) None 500), st1)
    | (Ok table_client, st1) =>
        match py_int (default "10" (params req !! "limit")) with
        | Raise e => (Ok (json_response (PDict [("error", PStr e)]) None 500), st1)
        | Ok limit =>
            match query_entities table_client "PDFAnalysis" st1 with
            | (Raise e, st2) =>
                (Ok (json_response (PDict [("error", PStr e)]) None 500), st2)
            | (Ok entities, st2) =>
                match (let* results := summaries entities in sort_desc results) with
                | Raise e =>
                    (Ok (json_response (PDict [("error", PStr e)]) None 500), st2)
                | Ok sorted =>
                    let results := slice_to limit sorted in
                    (Ok (json_response
                           (PDict [("count", PInt (Z.of_nat (length results)));
                                   ("results", PList results)])
                           (Some 2%nat) 200), st2)
                end
            end
        end
    end.
Proof.
  intros Hid. unfold get_results, io_try, io_bind, io_lift, io_ret.
  destruct (get_table_client st) as [[client|e] st1]; [|reflexivity].
  rewrite Hid.
  destruct (py_int _) as [limit|e]; [|reflexivity].
  destruct (query_entities client "PDFAnalysis" st1) as [[entities|e] st2]; [|reflexivity].
  destruct (summaries entities) as [results|e]; simpl; [|reflexivity].
  destruct (sort_desc results) as [sorted|e]; reflexivity.
Qed.

(** C6, as amended: for every store and every limit that is not negative,
    the listing either fails with a 500 or returns at most [limit] entries,
    each at least as recent as all that follow it; without a [limit]
    parameter the limit is 10. *)
Theorem listing_is_bounded_and_newest_first
    (req : HttpRequest) (st st' : storage) (limit : Z) (response : HttpResponse) :
  truthy (opt_str (route_params req !! "id")) = false ->
  py_int (default "10" (params req !! "limit")) = Ok limit ->
  0 <= limit ->
  get_results req st = (Ok response, st') ->
  (params req !! "limit" = None -> limit = 10)
  /\ ((exists e, response = json_response (PDict [("error", PStr e)]) None 500)
      \/ exists results,
           response = json_response
                        (PDict [("count", PInt (Z.of_nat (length results)));
                                ("results", PList results)])
                        (Some 2%nat) 200
           /\ Z.of_nat (length results) <= limit
           /\ newest_first results).
Proof.
  intros Hid Hlimit Hpos Hget. split.
  { intros Hnone. rewrite Hnone in Hlimit. vm_compute in Hlimit. congruence. }
  rewrite (get_results_listing req st Hid), Hlimit in Hget.
  destruct (get_table_client st) as [[client|e] st1];
    [|injection Hget as <- <-; left; eexists; reflexivity].
  destruct (query_entities client "PDFAnalysis" st1) as [[entities|e] st2];
    [|injection Hget as <- <-; left; eexists; reflexivity].
  destruct (summaries entities) as [results|e]; simpl in Hget;
    [|injection Hget as <- <-; left; eexists; reflexivity].
  destruct (sort_desc results) as [sorted|e] eqn:Hsort;
    [|injection Hget as <- <-; left; eexists; reflexivity].
  injection Hget as <- <-. right.
  exists (slice_to limit sorted). split; [reflexivity|]. split.
  - by apply slice_to_bounded.
  - apply slice_to_newest_first. eapply sort_desc_newest_first; eauto.
Qed.

(** C6 with [limit=2] on the store of three reports. *)
Lemma listing_is_bounded_and_newest_first_witness :
  get_results (Sample.request_list (Some "2")) Sample.three_stored
  = (Ok (Sample.listing [Sample.line "b" "2024-05-03T08:00:00";
                         Sample.line "c" "2024-05-02T08:00:00"]),
     Sample.three_stored)
  /\ ((exists e, Sample.listing [Sample.line "b" "2024-05-03T08:00:00";
                                 Sample.line "c" "2024-05-02T08:00:00"]
                 = json_response (PDict [("error", PStr e)]) None 500)
      \/ exists results,
           Sample.listing [Sample.line "b" "2024-05-03T08:00:00";
                           Sample.line "c" "2024-05-02T08:00:00"]
           = json_response
               (PDict [("count", PInt (Z.of_nat (length results)));
                       ("results", PList results)])
               (Some 2%nat) 200
           /\ Z.of_nat (length results) <= 2
           /\ newest_first results).
Proof.
  assert (H : get_results (Sample.request_list (Some "2")) Sample.three_stored
              = (Ok (Sample.listing [Sample.line "b" "2024-05-03T08:00:00";
                                     Sample.line "c" "2024-05-02T08:00:00"]),
                 Sample.three_stored)).
  { vm_compute. reflexivity. }
  split; [exact H|].
  apply (proj2 (listing_is_bounded_and_newest_first
                  (Sample.request_list (Some "2")) Sample.three_stored
                  Sample.three_stored 2 _ eq_refl eq_refl ltac:(lia) H)).
Defined.

(** C6 as stated fails for a negative limit: [limit=-1] on the store of
    three reports returns two entries, all but the oldest. *)
Lemma negative_limit_counterexample :
  py_int "-1" = Ok (-1)
  /\ fst (get_results (Sample.request_list (Some "-1")) Sample.three_stored)
     = Ok (Sample.listing [Sample.line "b" "2024-05-03T08:00:00";
                           Sample.line "c" "2024-05-02T08:00:00"])
  /\ ~ (Z.of_nat (length [Sample.line "b" "2024-05-03T08:00:00";
                          Sample.line "c" "2024-05-02T08:00:00"]) <= -1).
Proof.
  split; [reflexivity|]. split; [vm_compute; reflexivity|]. simpl. lia.
Qed.

(** ** The text of a document *)

Lemma string_app_cons (x : ascii) (a b : string) :
  String.append (String x a) b = String x (String.append a b).
Proof. reflexivity. Qed.

Lemma string_app_assoc (a b c : string) :
  String.append (String.append a b) c = String.append a (String.append b c).
Proof.
  induction a as [|x a IH]; [reflexivity|]. rewrite !string_app_cons. f_equal. exact IH.
Qed.

Lemma string_app_nil_r (a : string) : String.append a "" = a.
Proof.
  induction a as [|x a IH]; [reflexivity|]. rewrite string_app_cons. f_equal. exact IH.
Qed.

Lemma list_ascii_of_string_app (a b : string) :
  list_ascii_of_string (String.append a b)
  = list_ascii_of_string a ++ list_ascii_of_string b.
Proof.
  induction a as [|x a IH]; [reflexivity|].
  rewrite string_app_cons. simpl. by rewrite IH.
Qed.

(** A white-space character ends the word being read: what precedes it and
    what follows it are split apart. *)
Lemma split_ws_app_space (a b : list N) (sp : N) :
  is_space sp = true ->
  forall cur, split_ws cur (a ++ sp :: b) = split_ws cur a ++ split_ws [] b.
Proof.
  intros Hsp. induction a as [|c a IH]; intros cur; simpl.
  - rewrite Hsp. destruct cur; reflexivity.
  - destruct (is_space c).
    + destruct cur; rewrite IH; reflexivity.
    + apply IH.
Qed.

Lemma py_split_line (a b : string) :
  py_split (String.append (String.append a newline) b) = py_split a ++ py_split b.
Proof.
  unfold py_split. rewrite string_app_assoc, list_ascii_of_string_app.
  change (list_ascii_of_string (String.append newline b))
    with (ascii_of_nat 10 :: list_ascii_of_string b).
  rewrite utf8_decode_app_ascii by (simpl; lia).
  by apply split_ws_app_space.
Qed.

Lemma lines_of_cons (t : string) (texts : list string) :
  lines_of (t :: texts) = String.append (String.append t newline) (lines_of texts).
Proof.
  unfold lines_of. simpl. destruct (map _ texts) eqn:E.
  - simpl. by rewrite string_app_nil_r.
  - reflexivity.
Qed.

Lemma page_text_texts (pages : list Pypdf.PageObject) :
  forall acc texts,
    Forall2 (fun page t => Pypdf.extract_text page = Ok t) pages texts ->
    page_text acc pages = Ok (String.append acc (lines_of texts)).
Proof.
  induction pages as [|page pages IH]; intros acc texts Hall;
    inversion Hall as [|? t ? texts' Ht Hrest]; subst.
  - simpl. by rewrite string_app_nil_r.
  - simpl. rewrite Ht. simpl. rewrite (IH _ texts' Hrest), lines_of_cons.
    by rewrite !string_app_assoc.
Qed.

Lemma py_split_lines_of (texts : list string) :
  length (py_split (lines_of texts))
  = list_sum (map (fun t => length (py_split t)) texts).
Proof.
  induction texts as [|t texts IH]; [reflexivity|].
  rewrite lines_of_cons, py_split_line, length_app, IH. reflexivity.
Qed.

(** The first page that cannot be read stops both loops over the pages, with
    the same exception. *)
Lemma page_loops_fail_alike (pages : list Pypdf.PageObject) :
  forall acc,
    match nonempty_texts pages, page_text acc pages with
    | Ok _, Ok _ => True
    | Raise e1, Raise e2 => e1 = e2
    | _, _ => False
    end.
Proof.
  induction pages as [|page pages IH]; intros acc; simpl; [exact I|].
  destruct (Pypdf.extract_text page) as [text|e]; simpl; [|reflexivity].
  specialize (IH (acc ++ text ++ newline)%string).
  destruct (nonempty_texts pages); destruct (page_text _ pages); simpl; auto.
Qed.

Lemma nonempty_texts_nonempty (pages : list Pypdf.PageObject) :
  forall all_text, nonempty_texts pages = Ok all_text -> Forall (fun t => t <> "") all_text.
Proof.
  induction pages as [|page pages IH]; simpl; intros all_text.
  - intros [= <-]. constructor.
  - destruct (Pypdf.extract_text page) as [text|e]; simpl; [|discriminate].
    destruct (nonempty_texts pages) as [rest|e]; simpl; [|discriminate].
    intros [= <-]. destruct (String.eqb text "") eqn:Ht; [by apply IH|].
    constructor; [by apply String.eqb_neq|by apply IH].
Qed.

Lemma concat_nonempty (sep : string) (l : list string) :
  Forall (fun t => t <> "") l -> l <> [] -> String.concat sep l <> "".
Proof.
  intros Hall Hl. destruct Hall as [|t l Ht Hrest]; [congruence|].
  simpl. destruct l; [exact Ht|].
  destruct t; [congruence|discriminate].
Qed.

Section TextTasks.

Variable PdfReader : list Byte.byte -> result Pypdf.reader.
Variable re_findall : pattern -> string -> list string.

(** Every output of the text task is a dictionary whose flag tells whether
    its text is empty. *)
Lemma extract_text_flag (inputData text : pyval) :
  extract_text PdfReader inputData = Ok text ->
  exists d b s,
    text = PDict d
    /\ dict_lookup "hasText" d = Some (PBool b)
    /\ dict_lookup "extractedText" d = Some (PStr s)
    /\ (b = true <-> s <> "").
Proof.
  assert (Hfail : forall e,
             exists d b s,
               PDict [("hasText", PBool false); ("extractedText", PStr "");
                      ("confidence", PFloat 0); ("error", PStr e)] = PDict d
               /\ dict_lookup "hasText" d = Some (PBool b)
               /\ dict_lookup "extractedText" d = Some (PStr s)
               /\ (b = true <-> s <> "")).
  { intros e. eexists _, false, "". repeat split; congruence. }
  unfold extract_text, try_except.
  destruct (open_reader PdfReader inputData) as [reader|e]; simpl;
    [|intros [= <-]; apply Hfail].
  destruct (Pypdf.pages reader) as [pages|e]; simpl; [|intros [= <-]; apply Hfail].
  destruct (nonempty_texts pages) as [all_text|e] eqn:Htexts; simpl;
    [|intros [= <-]; apply Hfail].
  intros [= <-]. eexists _, _, _. split; [reflexivity|].
  split; [reflexivity|]. split; [reflexivity|].
  apply nonempty_texts_nonempty in Htexts.
  destruct all_text as [|t rest]; simpl Nat.eqb; cbv iota.
  - split; [discriminate|]. simpl. congruence.
  - split; [|reflexivity]. intros _. by apply concat_nonempty.
Qed.

(** X1: the flag and the text of the text task agree: [hasText] is true
    exactly when [extractedText] is not empty, on the success shape as on
    the failure shape. *)
Theorem has_text_iff_text_extracted (inputData v : pyval) :
  extract_text PdfReader inputData = Ok v ->
  exists b s,
    getitem v "hasText" = Ok (PBool b)
    /\ getitem v "extractedText" = Ok (PStr s)
    /\ (b = true <-> s <> "").
Proof.
  intros Hv. destruct (extract_text_flag _ _ Hv) as (d & b & s & -> & Hb & Hs & Hiff).
  exists b, s. simpl. rewrite Hb, Hs. auto.
Qed.

(** X2: the three tasks that read the pages fail on the same documents and
    with the same text: they either all carry the same [error] entry or
    none of them has one. *)
Theorem text_tasks_fail_alike (inputData t s d : pyval) :
  extract_text PdfReader inputData = Ok t ->
  analyze_statistics PdfReader inputData = Ok s ->
  detect_sensitive_data PdfReader re_findall inputData = Ok d ->
  getitem s "error" = getitem t "error"
  /\ getitem d "error" = getitem t "error"
  /\ ((exists e, getitem t "error" = Ok (PStr e))
      \/ getitem t "error" = Raise "'error'").
Proof.
  unfold extract_text, analyze_statistics, detect_sensitive_data, try_except.
  destruct (open_reader PdfReader inputData) as [reader|e]; simpl.
  2:{ intros [= <-] [= <-] [= <-]. simpl. eauto. }
  destruct (Pypdf.pages reader) as [pages|e]; simpl.
  2:{ intros [= <-] [= <-] [= <-]. simpl. eauto. }
  pose proof (page_loops_fail_alike pages "") as Hloops.
  destruct (nonempty_texts pages) as [all_text|e1];
    destruct (page_text "" pages) as [text|e2]; simpl in Hloops |- *;
    try contradiction.
  2:{ subst e2. intros [= <-] [= <-] [= <-]. simpl. eauto. }
  unfold truediv. change (200 =? 0) with false. cbv iota.
  destruct (Z.of_nat (length pages) =? 0); simpl;
    intros [= <-] [= <-] [= <-]; simpl; auto.
Qed.

(** X3: the word count of a document is the sum of the word counts of its
    pages; the line feed appended to every page keeps the last word of a
    page and the first word of the next one apart. *)
Theorem word_count_adds_up_over_pages
    (inputData : pyval) (reader : Pypdf.reader) (pages : list Pypdf.PageObject)
    (texts : list string) :
  open_reader PdfReader inputData = Ok reader ->
  Pypdf.pages reader = Ok pages ->
  Forall2 (fun page t => Pypdf.extract_text page = Ok t) pages texts ->
  exists s,
    analyze_statistics PdfReader inputData = Ok s
    /\ getitem s "page_count" = Ok (PInt (Z.of_nat (length texts)))
    /\ getitem s "word_count"
       = Ok (PInt (Z.of_nat (list_sum (map (fun t => length (py_split t)) texts)))).
Proof.
  intros Hopen Hpages Htexts.
  unfold analyze_statistics, try_except. rewrite Hopen. simpl. rewrite Hpages. simpl.
  rewrite (page_text_texts pages "" texts Htexts).
  change (String.append "" (lines_of texts)) with (lines_of texts).
  unfold bind at 1. cbv beta iota zeta.
  rewrite py_split_lines_of, (Forall2_length _ _ _ Htexts).
  unfold truediv. change (200 =? 0) with false. cbv iota.
  unfold truthy.
  destruct (Z.of_nat (length texts) =? 0); simpl;
    (eexists; split; [reflexivity|]; split; reflexivity).
Qed.

(** X4: the [hasText] entry of the summary of a report mirrors the text
    task: it is true exactly when that task extracted a text that is not
    empty. *)
Theorem summary_has_text_mirrors_extraction
    (inputData reportData text report : pyval) (h h' : host) :
  extract_text PdfReader inputData = Ok text ->
  getitem reportData "text" = Ok text ->
  generate_report reportData h = (Ok report, h') ->
  exists b s,
    getitem text "extractedText" = Ok (PStr s)
    /\ (let* summary := getitem report "summary" in getitem summary "hasText")
       = Ok (PBool b)
    /\ (b = true <-> s <> "").
Proof.
  intros Htext Hget Hgen.
  destruct (extract_text_flag _ _ Htext) as (d & b & s & -> & Hb & Hs & Hiff).
  apply generate_report_Ok in Hgen
    as (? & ? & text' & ? & ? & ? & ? & hasText & _ & _ & Ht & _ & _ & _ & _ & Hflag
        & -> & _).
  assert (text' = PDict d) as -> by congruence.
  simpl in Hflag. rewrite Hb in Hflag. injection Hflag as <-.
  exists b, s. simpl. rewrite Hs. auto.
Qed.

End TextTasks.

(** X1 at the sample document, whose two pages have text. *)
Lemma has_text_iff_text_extracted_witness :
  extract_text Sample.PdfReader (Sample.input_data [37; 80]) = Ok Sample.text_out
  /\ exists b s,
      getitem Sample.text_out "hasText" = Ok (PBool b)
      /\ getitem Sample.text_out "extractedText" = Ok (PStr s)
      /\ (b = true <-> s <> "").
Proof.
  split; [reflexivity|].
  exact (has_text_iff_text_extracted Sample.PdfReader (Sample.input_data [37; 80])
           Sample.text_out eq_refl).
Defined.

(** X2 at a file without bytes: the three tasks carry the same error. *)
Lemma text_tasks_fail_alike_witness :
  let reader := Sample.PdfReader in
  exists t s d,
    extract_text reader (Sample.input_data []) = Ok t
    /\ analyze_statistics reader (Sample.input_data []) = Ok s
    /\ detect_sensitive_data reader Sample.re_findall (Sample.input_data []) = Ok d
    /\ getitem t "error" = Ok (PStr "Cannot read an empty file")
    /\ getitem s "error" = getitem t "error"
    /\ getitem d "error" = getitem t "error".
Proof.
  intros reader. eexists _, _, _.
  split; [reflexivity|]. split; [reflexivity|]. split; [reflexivity|].
  split; [reflexivity|].
  destruct (text_tasks_fail_alike reader Sample.re_findall (Sample.input_data [])
              _ _ _ eq_refl eq_refl eq_refl) as (Hs & Hd & _).
  split; [exact Hs|exact Hd].
Defined.

(** X3 at the sample document: 4 words on the first page, 3 on the second. *)
Lemma word_count_adds_up_over_pages_witness :
  exists s,
    analyze_statistics Sample.PdfReader (Sample.input_data [37; 80]) = Ok s
    /\ getitem s "page_count" = Ok (PInt 2)
    /\ getitem s "word_count" = Ok (PInt (Z.of_nat (4 + (3 + 0)))).
Proof.
  apply (word_count_adds_up_over_pages Sample.PdfReader
           (Sample.input_data [37; 80])
           {| Pypdf.pages := Ok Sample.two_pages;
              Pypdf.metadata := Ok (Some Sample.info) |}
           Sample.two_pages
           ["write to a@b.com today"; "or see https://x.com"]).
  - reflexivity.
  - reflexivity.
  - repeat constructor.
Defined.

(** X4 at the sample report. *)
Lemma summary_has_text_mirrors_extraction_witness :
  getitem Sample.report_data "text" = Ok Sample.text_out
  /\ exists b s,
      getitem Sample.text_out "extractedText" = Ok (PStr s)
      /\ (let* summary := getitem Sample.report "summary" in getitem summary "hasText")
         = Ok (PBool b)
      /\ (b = true <-> s <> "").
Proof.
  split; [reflexivity|].
  exact (summary_has_text_mirrors_extraction Sample.PdfReader
           (Sample.input_data [37; 80]) Sample.report_data Sample.text_out
           Sample.report Sample.the_host
           (snd (generate_report Sample.report_data Sample.the_host))
           eq_refl eq_refl eq_refl).
Defined.

(** ** File names *)

Lemma last_segment_spec (c : ascii) (s : string) :
  contains_char c s = true ->
  exists dir,
    s = String.append dir (String c (last_segment c s))
    /\ contains_char c (last_segment c s) = false.
Proof.
  induction s as [|c' s IH]; simpl; [discriminate|].
  destruct (contains_char c s) eqn:Hs.
  - intros _. destruct (IH eq_refl) as (dir & Hdir & Hlast).
    exists (String c' dir). split; [|exact Hlast].
    change (String.append (String c' dir) ?x) with (String c' (String.append dir x)).
    by rewrite <- Hdir.
  - rewrite orb_false_r. intros Hc. rewrite Hc.
    apply Ascii.eqb_eq in Hc. subst c'.
    exists "". split; [reflexivity|exact Hs].
Qed.

(** X5: the file name of a report is the last segment of the blob path: it
    holds no slash, and the path is the file name itself or a directory part,
    a slash and the file name. *)
Theorem file_name_is_last_path_segment
    (reportData report : pyval) (h h' : host) (blob_name : string) :
  getitem reportData "blob_name" = Ok (PStr blob_name) ->
  generate_report reportData h = (Ok report, h') ->
  exists fileName,
    getitem report "fileName" = Ok (PStr fileName)
    /\ getitem report "blobPath" = Ok (PStr blob_name)
    /\ contains_char "/" fileName = false
    /\ ((contains_char "/" blob_name = false /\ fileName = blob_name)
        \/ exists dir, blob_name = String.append dir (String "/" fileName)).
Proof.
  intros Hname Hgen.
  apply generate_report_Ok in Hgen
    as (b & f & ? & ? & ? & ? & ? & ? & Hb & Hf & _ & _ & _ & _ & _ & _ & -> & _).
  rewrite Hname in Hb. injection Hb as <-. simpl in Hf. injection Hf as <-.
  eexists. split; [reflexivity|]. split; [reflexivity|].
  destruct (contains_char "/" blob_name) eqn:Hslash.
  - destruct (last_segment_spec "/" blob_name Hslash) as (dir & Hdir & Hlast).
    split; [exact Hlast|]. right. exists dir. exact Hdir.
  - split; [exact Hslash|]. left. auto.
Qed.

(** X5 at the sample report, whose blob lies in the container [pdf]. *)
Lemma file_name_is_last_path_segment_witness :
  getitem Sample.report_data "blob_name" = Ok (PStr "pdf/report.pdf")
  /\ exists fileName,
      getitem Sample.report "fileName" = Ok (PStr fileName)
      /\ getitem Sample.report "blobPath" = Ok (PStr "pdf/report.pdf")
      /\ contains_char "/" fileName = false
      /\ ((contains_char "/" "pdf/report.pdf" = false /\ fileName = "pdf/report.pdf")
          \/ exists dir, "pdf/report.pdf" = String.append dir (String "/" fileName)).
Proof.
  split; [reflexivity|].
  exact (file_name_is_last_path_segment Sample.report_data Sample.report Sample.the_host
           (snd (generate_report Sample.report_data Sample.the_host))
           "pdf/report.pdf" eq_refl eq_refl).
Defined.

(** ** What the store touches *)

Lemma get_table_client_rows (st st' : storage) (r : result string) :
  get_table_client st = (r, st') ->
  environ st' = environ st /\ outage st' = outage st
  /\ forall name key, row st' name key = row st name key.
Proof.
  rewrite get_table_client_unfold.
  destruct (environ st !! "PDFStorageConnection") as [conn|];
    [|intros [= <- <-]; auto].
  destruct (outage st (Connect conn)); [intros [= <- <-]; auto|].
  destruct (outage st CreateTable); [intros [= <- <-]; auto|].
  destruct (tables st !! TABLE_NAME) eqn:Ht; intros [= <- <-]; auto.
  repeat split. intros name key. unfold row. simpl.
  destruct (decide (name = TABLE_NAME)) as [->|Hne].
  - by rewrite lookup_insert_eq, Ht.
  - by rewrite lookup_insert_ne.
Qed.

(** X6: obtaining the table client never alters a stored row: it creates
    the table when it is missing and does nothing else, so that a second call
    changes nothing.  It raises, and leaves the account as it is, in three
    cases and in no other: the connection setting is missing (a [KeyError]
    with the name of the setting), the library refuses the connection
    string, or the service refuses to create the table. *)
Theorem get_table_client_keeps_the_rows (st : storage) :
  let (r, st') := get_table_client st in
  environ st' = environ st /\ outage st' = outage st
  /\ (forall name key, row st' name key = row st name key)
  /\ match r with
     | Ok client =>
         client = TABLE_NAME
         /\ is_Some (tables st' !! TABLE_NAME)
         /\ get_table_client st' = (Ok client, st')
         /\ exists conn,
              environ st !! "PDFStorageConnection" = Some conn
              /\ outage st (Connect conn) = None
              /\ outage st CreateTable = None
     | Raise e =>
         st' = st
         /\ (environ st !! "PDFStorageConnection" = None /\ e = "'PDFStorageConnection'"
             \/ exists conn,
                  environ st !! "PDFStorageConnection" = Some conn
                  /\ (outage st (Connect conn) = Some e
                      \/ outage st (Connect conn) = None
                         /\ outage st CreateTable = Some e))
     end.
Proof.
  destruct (get_table_client st) as [r st'] eqn:Hc.
  destruct (get_table_client_rows _ _ _ Hc) as (Henv & Hout & Hrows).
  repeat split; auto.
  destruct r as [client|e].
  - destruct (get_table_client_Ok _ _ _ Hc) as (Hclient & Htable & Hagain).
    repeat split; auto.
    revert Hc. rewrite get_table_client_unfold.
    destruct (environ st !! "PDFStorageConnection") as [conn|]; [|discriminate].
    destruct (outage st (Connect conn)) eqn:Hconn; [discriminate|].
    destruct (outage st CreateTable) eqn:Hcreate; [discriminate|].
    intros _. by exists conn.
  - split; [by eapply get_table_client_Raise|].
    revert Hc. rewrite get_table_client_unfold.
    destruct (environ st !! "PDFStorageConnection") as [conn|];
      [|intros [= <- _]; auto].
    destruct (outage st (Connect conn)) eqn:Hconn;
      [intros [= <- _]; right; exists conn; auto|].
    destruct (outage st CreateTable) eqn:Hcreate;
      [intros [= <- _]; right; exists conn; auto|discriminate].
Qed.

Lemma upsert_entity_rows (client : string) (entity : dict) (st st' : storage) (u : unit) :
  upsert_entity client entity st = (Ok u, st') ->
  exists key,
    entity_key entity = Ok key
    /\ environ st' = environ st /\ outage st' = outage st
    /\ row st' client key = Some entity
    /\ forall name key', (name, key') <> (client, key) ->
         row st' name key' = row st name key'.
Proof.
  intros Hu. apply upsert_entity_Ok in Hu as (key & rows & Hkey & Hrows & -> & _).
  exists key. repeat split; auto.
  - unfold row. simpl. by rewrite !lookup_insert_eq.
  - intros name key' Hne. unfold row. simpl.
    destruct (decide (name = client)) as [->|Hn].
    + rewrite lookup_insert_eq, Hrows.
      rewrite lookup_insert_ne; [reflexivity|congruence].
    + by rewrite lookup_insert_ne.
Qed.

Lemma entity_of_stored_record (report : pyval) (entity : dict) :
  entity_of report = Ok entity ->
  exists id fileName analyzedAt summary,
    getitem report "id" = Ok id
    /\ dict_lookup "RowKey" entity = Some id
    /\ stored_record report
       = Ok (PDict [("id", id); ("fileName", fileName); ("status", PStr "stored");
                    ("analyzedAt", analyzedAt); ("summary", summary)]).
Proof.
  intros He. apply entity_of_Ok in He
    as (id & f & b & a & su & an & t & m & Hid & Hf & _ & Ha & Hs & _ & _ & _ & ->).
  exists id, f, a, su. split; [exact Hid|]. split; [reflexivity|].
  unfold stored_record. rewrite Hid, Hf, Ha, Hs. reflexivity.
Qed.

Lemma error_record_of_dict (d : dict) (e : string) :
  exists id, error_record (PDict d) e
             = Ok (PDict [("id", id); ("status", PStr "error"); ("error", PStr e)]).
Proof.
  unfold error_record. simpl. destruct (dict_lookup "id" d); simpl; eauto.
Qed.

Lemma getitem_Ok_dict (obj v : pyval) (k : string) :
  getitem obj k = Ok v -> exists d, obj = PDict d.
Proof. destruct obj; simpl; try discriminate. eauto. Qed.

(** X7: the store activity writes at most one row: the one under the fixed
    partition and the identifier of the report, and only when it answers
    [stored]; an [error] answer means that no row was written.  Every other
    row, the environment and the state of the service are as before. *)
Theorem store_results_writes_one_row (report : pyval) (st : storage) :
  let (r, st') := store_results report st in
  environ st' = environ st /\ outage st' = outage st
  /\ forall name key,
      row st' name key = row st name key
      \/ exists id entity record,
           name = TABLE_NAME /\ key = ("PDFAnalysis", id)
           /\ getitem report "id" = Ok (PStr id)
           /\ entity_of report = Ok entity
           /\ row st' name key = Some entity
           /\ r = Ok record
           /\ getitem record "status" = Ok (PStr "stored").
Proof.
  rewrite store_results_unfold.
  destruct (getitem report "fileName") as [f|e]; [|auto].
  destruct (get_table_client st) as [[client|e] st1] eqn:Hc.
  2:{ destruct (get_table_client_rows _ _ _ Hc) as (? & ? & ?). auto. }
  destruct (get_table_client_rows _ _ _ Hc) as (Henv & Hout & Hrows).
  apply get_table_client_Ok in Hc as (-> & _ & _).
  destruct (entity_of report) as [entity|e] eqn:He; [|auto].
  destruct (upsert_entity TABLE_NAME entity st1) as [[u|e] st2] eqn:Hu.
  2:{ apply upsert_entity_Raise in Hu. subst st2. auto. }
  apply upsert_entity_rows in Hu as (key & Hkey & Henv2 & Hout2 & Hrow & Hother).
  destruct (entity_of_stored_record _ _ He) as (id & fn & at' & su & Hid & Hrk & Hrec).
  rewrite Hrec.
  split; [congruence|]. split; [congruence|].
  intros name key'.
  destruct (decide ((name, key') = (TABLE_NAME, key))) as [Heq|Hne].
  - injection Heq as -> ->. right.
    assert (Hent := He). apply entity_of_Ok in Hent
      as (id' & ? & ? & ? & ? & ? & ? & ? & Hid' & _ & _ & _ & _ & _ & _ & _ & ->).
    unfold entity_key in Hkey. simpl in Hkey.
    destruct id' as [| | | |id'| | |]; simpl in Hkey; try discriminate.
    injection Hkey as <-.
    eexists id', _, _. repeat split; eauto.
  - left. rewrite (Hother _ _ Hne). apply Hrows.
Qed.

(** X8: the store activity raises in one case only, when [report['fileName']]
    cannot be read for the first log line, and then nothing has been touched;
    in every other case it returns a record whose status is [stored] or
    [error], the latter with the text of the fault. *)
Theorem store_results_raises_only_without_file_name (report : pyval) (st : storage) :
  match getitem report "fileName" with
  | Raise e => store_results report st = (Raise e, st)
  | Ok _ =>
      exists record id,
        fst (store_results report st) = Ok record
        /\ getitem record "id" = Ok id
        /\ (getitem record "status" = Ok (PStr "stored")
            \/ getitem record "status" = Ok (PStr "error")
               /\ exists e, getitem record "error" = Ok (PStr e))
  end.
Proof.
  rewrite store_results_unfold.
  destruct (getitem report "fileName") as [f|e] eqn:Hf; [|reflexivity].
  destruct (getitem_Ok_dict _ _ _ Hf) as [d ->].
  assert (Herr : forall e (st1 : storage),
             exists record id,
               fst (error_record (PDict d) e, st1) = Ok record
               /\ getitem record "id" = Ok id
               /\ (getitem record "status" = Ok (PStr "stored")
                   \/ getitem record "status" = Ok (PStr "error")
                      /\ exists e, getitem record "error" = Ok (PStr e))).
  { intros e st1. destruct (error_record_of_dict d e) as [id ->].
    eexists _, id. split; [reflexivity|]. split; [reflexivity|]. right. simpl. eauto. }
  destruct (get_table_client st) as [[client|e] st1]; [|apply Herr].
  destruct (entity_of (PDict d)) as [entity|e] eqn:He; [|apply Herr].
  destruct (upsert_entity client entity st1) as [[u|e] st2]; [|apply Herr].
  destruct (entity_of_stored_record _ _ He) as (id & fn & at' & su & _ & _ & ->).
  eexists _, id. split; [reflexivity|]. split; [reflexivity|]. left. reflexivity.
Qed.

(** ** The query function: what it answers *)






(** X10: asking for an identifier under which nothing is stored is answered
    404 with [Result not found: <id>], whenever the table client can be
    obtained: the connection setting is there, the library accepts it and
    the service does not refuse to create the table. *)
Theorem absent_result_is_answered_404
    (req : HttpRequest) (st : storage) (id conn : string) :
  route_params req !! "id" = Some id ->
  id <> "" ->
  environ st !! "PDFStorageConnection" = Some conn ->
  outage st (Connect conn) = None ->
  outage st CreateTable = None ->
  row st TABLE_NAME ("PDFAnalysis", id) = None ->
  let response :=
    json_response (PDict [("error", PStr ("Result not found: " ++ id))]) None 404 in
  fst (get_results req st) = Ok response
  /\ Json.loads (body response)
     = Ok (PDict [("error", PStr ("Result not found: " ++ id))]).
Proof.
  intros Hid Hne Henv Hconn Hout Hrow response. split.
  2:{ apply loads_dumps. reflexivity. }
  rewrite (get_results_by_id req st id Hid Hne).
  destruct (get_table_client st) as [[client|e] st1] eqn:Hc.
  2:{ exfalso. revert Hc. rewrite get_table_client_unfold, Henv, Hconn, Hout.
      discriminate. }
  destruct (get_table_client_rows _ _ _ Hc) as (_ & _ & Hrows).
  apply get_table_client_Ok in Hc as (-> & _ & _).
  specialize (Hrows TABLE_NAME ("PDFAnalysis", id)). rewrite Hrow in Hrows.
  unfold get_entity. unfold row in Hrows.
  destruct (outage st1 GetEntity); [reflexivity|].
  destruct (tables st1 !! TABLE_NAME) as [rows|]; [|reflexivity].
  rewrite Hrows. reflexivity.
Qed.

(** X11: once the table client is obtained, a request for an identifier is
    answered 200 or 404 and nothing else.  It is answered 200, with the
    result rebuilt from the entity, when the entity is stored, the service
    reads it and its three JSON texts decode; it is answered 404 [Result not
    found] when no entity is stored under the identifier, when the service
    fails the read, whatever the reason, and when the entity does not
    decode.  These cases are all there are. *)
Theorem read_by_id_answers_200_or_404
    (req : HttpRequest) (st st1 : storage) (id client : string) :
  route_params req !! "id" = Some id ->
  id <> "" ->
  get_table_client st = (Ok client, st1) ->
  let not_found :=
    json_response (PDict [("error", PStr ("Result not found: " ++ id))]) None 404 in
  (forall entity result,
      row st TABLE_NAME ("PDFAnalysis", id) = Some entity ->
      outage st GetEntity = None ->
      result_of_entity entity = Ok result ->
      get_results req st = (Ok (json_response result (Some 2%nat) 200), st1))
  /\ (row st TABLE_NAME ("PDFAnalysis", id) = None
      \/ is_Some (outage st GetEntity)
      \/ (exists entity e,
            row st TABLE_NAME ("PDFAnalysis", id) = Some entity
            /\ result_of_entity entity = Raise e) ->
      get_results req st = (Ok not_found, st1))
  /\ ((exists entity result,
          row st TABLE_NAME ("PDFAnalysis", id) = Some entity
          /\ outage st GetEntity = None
          /\ result_of_entity entity = Ok result)
      \/ row st TABLE_NAME ("PDFAnalysis", id) = None
      \/ is_Some (outage st GetEntity)
      \/ (exists entity e,
            row st TABLE_NAME ("PDFAnalysis", id) = Some entity
            /\ result_of_entity entity = Raise e)).
Proof.
  intros Hid Hne Hc not_found. rewrite (get_results_by_id req st id Hid Hne), Hc.
  destruct (get_table_client_rows _ _ _ Hc) as (_ & Hout & Hrows).
  apply get_table_client_Ok in Hc as (-> & _ & _).
  specialize (Hrows TABLE_NAME ("PDFAnalysis", id)).
  unfold get_entity. rewrite Hout. rewrite <- Hrows. unfold row.
  destruct (outage st GetEntity) as [fault|].
  { split; [discriminate|]. split; [reflexivity|]. right. right. left. by eexists. }
  destruct (tables st1 !! TABLE_NAME) as [rows|].
  2:{ split; [discriminate|]. split; [reflexivity|]. auto. }
  destruct (rows !! ("PDFAnalysis", id)) as [entity|].
  2:{ split; [discriminate|]. split; [reflexivity|]. auto. }
  destruct (result_of_entity entity) as [result|e] eqn:Hresult.
  - split; [|split].
    + intros entity' result' [= <-] _ Hresult'.
      rewrite Hresult in Hresult'. by injection Hresult' as <-.
    + intros [H|[[? H]|(entity' & e & [= <-] & H)]]; try discriminate.
      rewrite Hresult in H. discriminate.
    + left. by exists entity, result.
  - split; [|split].
    + intros entity' result' [= <-] _ Hresult'.
      rewrite Hresult in Hresult'. discriminate.
    + reflexivity.
    + right. right. right. by exists entity, e.
Qed.

(** X12: an empty identifier in the route counts as none: the request is
    answered with the listing. *)
Theorem empty_id_is_a_listing (req : HttpRequest) (st : storage) :
  route_params req !! "id" = Some "" ->
  get_results req st
  = get_results {| route_params := ∅; params := params req |} st.
Proof.
  intros Hid.
  rewrite (get_results_listing req st) by (rewrite Hid; reflexivity).
  rewrite (get_results_listing {| route_params := ∅; params := params req |} st)
    by reflexivity.
  reflexivity.
Qed.

(** ** The listing and the table *)

Lemma insert_row_perm x l : Permutation (insert_row x l) (x :: l).
Proof.
  induction l as [|y l IH]; simpl; [reflexivity|].
  destruct (String.ltb _ _); [reflexivity|].
  rewrite IH. apply perm_swap.
Qed.

Lemma sort_rows_perm l : Permutation (fold_right insert_row [] l) l.
Proof.
  induction l as [|x l IH]; simpl; [reflexivity|].
  rewrite insert_row_perm. by constructor.
Qed.

Lemma insert_desc_perm x l : Permutation (insert_desc x l) (x :: l).
Proof.
  induction l as [|y l IH]; simpl; [reflexivity|].
  destruct (String.ltb _ _); [|reflexivity].
  rewrite IH. apply perm_swap.
Qed.

Lemma sort_pairs_perm l : Permutation (fold_right insert_desc [] l) l.
Proof.
  induction l as [|x l IH]; simpl; [reflexivity|].
  rewrite insert_desc_perm. by constructor.
Qed.

Lemma keyed_values results ks : keyed results = Ok ks -> map snd ks = results.
Proof.
  revert ks. induction results as [|x results IH]; simpl; intros ks.
  - by intros [= <-].
  - destruct (sort_key x) as [k|]; simpl; [|discriminate].
    destruct (keyed results) as [ks'|]; simpl; [|discriminate].
    intros [= <-]. simpl. by rewrite (IH ks').
Qed.

Lemma sort_desc_perm results sorted :
  sort_desc results = Ok sorted -> Permutation sorted results.
Proof.
  unfold sort_desc. destruct (keyed results) as [ks|] eqn:Hk; simpl; [|discriminate].
  intros [= <-]. rewrite <- (keyed_values _ _ Hk).
  apply Permutation_map, sort_pairs_perm.
Qed.

Lemma summaries_Ok entities lines :
  summaries entities = Ok lines ->
  Forall2 (fun entity line => summary_of_entity entity = Ok line) entities lines.
Proof.
  revert lines. induction entities as [|entity entities IH]; simpl; intros lines.
  - intros [= <-]. constructor.
  - destruct (summary_of_entity entity) as [x|] eqn:Hx; simpl; [|discriminate].
    destruct (summaries entities) as [xs|]; simpl; [|discriminate].
    intros [= <-]. constructor; auto.
Qed.

Lemma summaries_Raise entities entity e :
  entity ∈ entities -> summary_of_entity entity = Raise e ->
  exists e', summaries entities = Raise e'.
Proof.
  induction 1 as [entity entities|entity other entities Hin IH]; simpl; intros He.
  - rewrite He. simpl. eauto.
  - destruct (summary_of_entity other); simpl; [|eauto].
    destruct (IH He) as [e' ->]. simpl. eauto.
Qed.

Lemma partition_entities_spec (pk : string) (rows : gmap (string * string) dict)
    (entity : dict) :
  entity ∈ partition_entities pk rows <-> exists rk, rows !! (pk, rk) = Some entity.
Proof.
  unfold partition_entities. rewrite list_elem_of_fmap. split.
  - intros ([[pk' rk] entity'] & -> & Hin). simpl.
    rewrite sort_rows_perm in Hin.
    apply list_elem_of_filter in Hin as [Hpk Hin]. simpl in Hpk. subst pk'.
    apply elem_of_map_to_list in Hin. eauto.
  - intros [rk Hrow]. exists ((pk, rk), entity). split; [reflexivity|].
    rewrite sort_rows_perm. apply list_elem_of_filter. split; [reflexivity|].
    by apply elem_of_map_to_list.
Qed.

Lemma slice_to_all {A} (limit : Z) (l : list A) :
  Z.of_nat (length l) <= limit -> slice_to limit l = l.
Proof.
  intros H. unfold slice_to. destruct (0 <=? limit) eqn:Hl; [|lia].
  apply firstn_all2. lia.
Qed.

(** The listing over an existing table: a 500, or the sorted and cut
    summaries of the entities of the partition. *)
Lemma get_results_listing_cases (req : HttpRequest) (st : storage)
    (rows : gmap (string * string) dict) :
  truthy (opt_str (route_params req !! "id")) = false ->
  tables st !! TABLE_NAME = Some rows ->
  (exists e,
      get_results req st = (Ok (json_response (PDict [("error", PStr e)]) None 500), st))
  \/ exists limit lines sorted,
       py_int (default "10" (params req !! "limit")) = Ok limit
       /\ summaries (partition_entities "PDFAnalysis" rows) = Ok lines
       /\ sort_desc lines = Ok sorted
       /\ get_results req st
          = (Ok (json_response
                   (PDict [("count", PInt (Z.of_nat (length (slice_to limit sorted))));
                           ("results", PList (slice_to limit sorted))])
                   (Some 2%nat) 200), st).
Proof.
  intros Hid Hrows. rewrite (get_results_listing req st Hid).
  rewrite get_table_client_unfold.
  destruct (environ st !! "PDFStorageConnection") as [conn|]; [|eauto].
  destruct (outage st (Connect conn)); [eauto|].
  destruct (outage st CreateTable); [eauto|].
  rewrite Hrows.
  destruct (py_int _) as [limit|e]; [|eauto].
  unfold query_entities. destruct (outage st QueryEntities); [eauto|].
  rewrite Hrows. fold (partition_entities "PDFAnalysis" rows).
  destruct (summaries _) as [lines|e] eqn:Hlines; simpl; [|eauto].
  destruct (sort_desc lines) as [sorted|e] eqn:Hsorted; [|eauto].
  right. exists limit, lines, sorted. auto.
Qed.

(** X13: with a limit at least the number of rows in the table, a listing that
    succeeds shows every report stored under the partition, once: each
    stored entity has its line in the answer, each line comes from a stored
    entity, and the count is the number of entities of the partition. *)
Theorem listing_shows_every_stored_report
    (req : HttpRequest) (st : storage) (rows : gmap (string * string) dict)
    (limit : Z) (response : HttpResponse) :
  truthy (opt_str (route_params req !! "id")) = false ->
  tables st !! TABLE_NAME = Some rows ->
  py_int (default "10" (params req !! "limit")) = Ok limit ->
  Z.of_nat (length (map_to_list rows)) <= limit ->
  fst (get_results req st) = Ok response ->
  status_code response = 200 ->
  exists results,
    response = json_response
                 (PDict [("count", PInt (Z.of_nat (length results)));
                         ("results", PList results)])
                 (Some 2%nat) 200
    /\ (forall id entity,
          rows !! ("PDFAnalysis", id) = Some entity ->
          exists line, summary_of_entity entity = Ok line /\ line ∈ results)
    /\ (forall line,
          line ∈ results ->
          exists id entity,
            rows !! ("PDFAnalysis", id) = Some entity
            /\ summary_of_entity entity = Ok line)
    /\ length results
       = length (filter (fun kv => fst (fst kv) = "PDFAnalysis") (map_to_list rows)).
Proof.
  intros Hid Hrows Hlimit Hbig Hget H200.
  destruct (get_results_listing_cases req st rows Hid Hrows)
    as [[e He]|(limit' & lines & sorted & Hlimit' & Hlines & Hsorted & He)];
    rewrite He in Hget; simpl in Hget; injection Hget as <-; [discriminate|].
  assert (limit' = limit) as -> by congruence.
  pose proof (sort_desc_perm _ _ Hsorted) as Hperm.
  apply summaries_Ok in Hlines.
  assert (Hlen : length sorted
                 = length (filter (fun kv => fst (fst kv) = "PDFAnalysis")
                             (map_to_list rows))).
  { rewrite (Permutation_length Hperm), <- (Forall2_length _ _ _ Hlines).
    unfold partition_entities. rewrite length_map.
    apply Permutation_length, sort_rows_perm. }
  rewrite slice_to_all.
  2:{ rewrite Hlen. pose proof (length_filter (fun kv => fst (fst kv) = "PDFAnalysis")
                                  (map_to_list rows)). lia. }
  exists sorted. split; [reflexivity|]. split; [|split; [|exact Hlen]].
  - intros id entity Hrow.
    assert (Hin : entity ∈ partition_entities "PDFAnalysis" rows)
      by (apply partition_entities_spec; eauto).
    apply list_elem_of_lookup in Hin as [i Hi].
    destruct (Forall2_lookup_l _ _ _ _ _ Hlines Hi) as (line & Hline & Hsum).
    exists line. split; [exact Hsum|]. rewrite Hperm.
    by eapply list_elem_of_lookup_2.
  - intros line Hin. rewrite Hperm in Hin.
    apply list_elem_of_lookup in Hin as [i Hi].
    destruct (Forall2_lookup_r _ _ _ _ _ Hlines Hi) as (entity & Hentity & Hsum).
    apply list_elem_of_lookup_2, partition_entities_spec in Hentity as [rk Hrow].
    eauto.
Qed.

(** X14: one entity of the partition that cannot be summarised (an entry
    missing, a [Summary] that is not JSON text) fails the whole listing: the
    answer is a 500, not the list of the other entities. *)
Theorem undecodable_entity_fails_the_listing
    (req : HttpRequest) (st : storage) (rows : gmap (string * string) dict)
    (id : string) (entity : dict) (e : string) :
  truthy (opt_str (route_params req !! "id")) = false ->
  tables st !! TABLE_NAME = Some rows ->
  rows !! ("PDFAnalysis", id) = Some entity ->
  summary_of_entity entity = Raise e ->
  exists e',
    get_results req st = (Ok (json_response (PDict [("error", PStr e')]) None 500), st).
Proof.
  intros Hid Hrows Hrow Hbad.
  destruct (get_results_listing_cases req st rows Hid Hrows)
    as [[e' He]|(limit' & lines & sorted & _ & Hlines & _)]; [eauto|].
  assert (Hin : entity ∈ partition_entities "PDFAnalysis" rows)
    by (apply partition_entities_spec; eauto).
  destruct (summaries_Raise _ _ _ Hin Hbad) as [e' He']. congruence.
Qed.

(** X10 at the empty sample account. *)
Lemma absent_result_is_answered_404_witness :
  row Sample.the_storage TABLE_NAME ("PDFAnalysis", "none") = None
  /\ fst (get_results (Sample.request_for "none") Sample.the_storage)
     = Ok (json_response (PDict [("error", PStr "Result not found: none")]) None 404).
Proof.
  split; [reflexivity|].
  apply (absent_result_is_answered_404 (Sample.request_for "none") Sample.the_storage
           "none" "UseDevelopmentStorage=true").
  - vm_compute. reflexivity.
  - discriminate.
  - vm_compute. reflexivity.
  - reflexivity.
  - reflexivity.
  - reflexivity.
Defined.

(** X11 at the stored sample report: it is read back, and is not found
    behind a service that fails the read. *)
Lemma read_by_id_answers_200_or_404_witness :
  get_table_client Sample.stored = (Ok TABLE_NAME, Sample.stored)
  /\ get_results (Sample.request_for "0000-0") Sample.stored
     = (Ok (json_response Sample.rebuilt (Some 2%nat) 200), Sample.stored)
  /\ get_results (Sample.request_for "0000-0") (Sample.unreadable Sample.stored)
     = (Ok (json_response (PDict [("error", PStr "Result not found: 0000-0")])
              None 404), Sample.unreadable Sample.stored).
Proof.
  assert (H : get_table_client Sample.stored = (Ok TABLE_NAME, Sample.stored))
    by (vm_compute; reflexivity).
  assert (H' : get_table_client (Sample.unreadable Sample.stored)
               = (Ok TABLE_NAME, Sample.unreadable Sample.stored))
    by (vm_compute; reflexivity).
  split; [exact H|]. split.
  - apply (proj1 (read_by_id_answers_200_or_404
                    (Sample.request_for "0000-0") Sample.stored
                    Sample.stored "0000-0" TABLE_NAME
                    ltac:(vm_compute; reflexivity) ltac:(discriminate) H)
             Sample.entity).
    + vm_compute. reflexivity.
    + reflexivity.
    + vm_compute. reflexivity.
  - apply (proj1 (proj2 (read_by_id_answers_200_or_404
                           (Sample.request_for "0000-0")
                           (Sample.unreadable Sample.stored)
                           (Sample.unreadable Sample.stored) "0000-0" TABLE_NAME
                           ltac:(vm_compute; reflexivity) ltac:(discriminate) H'))).
    right. left. by eexists.
Defined.

(** X12 on the store of three reports. *)
Lemma empty_id_is_a_listing_witness :
  route_params (Sample.request_for "") !! "id" = Some ""
  /\ get_results (Sample.request_for "") Sample.three_stored
     = get_results {| route_params := ∅; params := params (Sample.request_for "") |}
         Sample.three_stored.
Proof.
  assert (H : route_params (Sample.request_for "") !! "id" = Some "")
    by (vm_compute; reflexivity).
  split; [exact H|].
  apply (empty_id_is_a_listing (Sample.request_for "") Sample.three_stored H).
Defined.

(** The rows of the results table, once its presence has been computed. *)
Lemma table_rows (st : storage) :
  match tables st !! TABLE_NAME with Some _ => true | None => false end = true ->
  tables st !! TABLE_NAME = Some (default ∅ (tables st !! TABLE_NAME)).
Proof. destruct (tables st !! TABLE_NAME); [reflexivity|discriminate]. Qed.

(** X13 on the store of three reports, with the default limit. *)
Lemma listing_shows_every_stored_report_witness :
  let rows := default ∅ (tables Sample.three_stored !! TABLE_NAME) in
  let response := Sample.listing [Sample.line "b" "2024-05-03T08:00:00";
                                  Sample.line "c" "2024-05-02T08:00:00";
                                  Sample.line "a" "2024-05-01T08:00:00"] in
  fst (get_results (Sample.request_list None) Sample.three_stored) = Ok response
  /\ exists results,
      response = json_response
                   (PDict [("count", PInt (Z.of_nat (length results)));
                           ("results", PList results)])
                   (Some 2%nat) 200
      /\ (forall id entity,
            rows !! ("PDFAnalysis", id) = Some entity ->
            exists line, summary_of_entity entity = Ok line /\ line ∈ results)
      /\ (forall line,
            line ∈ results ->
            exists id entity,
              rows !! ("PDFAnalysis", id) = Some entity
              /\ summary_of_entity entity = Ok line)
      /\ length results
         = length (filter (fun kv => fst (fst kv) = "PDFAnalysis") (map_to_list rows)).
Proof.
  intros rows response.
  assert (H : fst (get_results (Sample.request_list None) Sample.three_stored)
              = Ok response) by (vm_compute; reflexivity).
  split; [exact H|].
  apply (listing_shows_every_stored_report (Sample.request_list None)
           Sample.three_stored rows 10 response).
  - reflexivity.
  - apply table_rows. vm_compute. reflexivity.
  - reflexivity.
  - apply Z.leb_le. vm_compute. reflexivity.
  - exact H.
  - reflexivity.
Defined.

(** X14 on the store of three reports and a row without a file name. *)
Lemma undecodable_entity_fails_the_listing_witness :
  summary_of_entity Sample.truncated = Raise "'FileName'"
  /\ exists e,
      get_results (Sample.request_list None) Sample.corrupted
      = (Ok (json_response (PDict [("error", PStr e)]) None 500), Sample.corrupted).
Proof.
  split; [reflexivity|].
  apply (undecodable_entity_fails_the_listing (Sample.request_list None)
           Sample.corrupted
           (default ∅ (tables Sample.corrupted !! TABLE_NAME))
           "z" Sample.truncated "'FileName'").
  - reflexivity.
  - apply table_rows. vm_compute. reflexivity.
  - vm_compute. reflexivity.
  - reflexivity.
Defined.

(** ** Storing and reading back, step by step *)

Lemma store_results_working (report : pyval) (st : storage) (id : string) (entity : dict) :
  getitem report "id" = Ok (PStr id) ->
  entity_of report = Ok entity ->
  is_Some (environ st !! "PDFStorageConnection") ->
  (forall r, outage st r = None) ->
  exists record st1,
    store_results report st = (Ok record, st1)
    /\ stored_record report = Ok record
    /\ environ st1 = environ st /\ outage st1 = outage st
    /\ row st1 TABLE_NAME ("PDFAnalysis", id) = Some entity.
Proof.
  intros Hid He [conn Henv] Hout.
  destruct (entity_of_stored_record _ _ He) as (id' & fn & at' & su & _ & _ & Hrec).
  assert (Hent := He). apply entity_of_Ok in Hent
    as (id'' & f & ? & ? & ? & ? & ? & ? & Hid'' & Hf & _ & _ & _ & _ & _ & _ & Hentity).
  assert (id'' = PStr id) as -> by congruence.
  rewrite store_results_unfold, Hf.
  destruct (get_table_client st) as [[client|e] st0] eqn:Hc.
  2:{ exfalso. revert Hc. rewrite get_table_client_unfold, Henv, (Hout (Connect conn)), (Hout CreateTable).
      discriminate. }
  destruct (get_table_client_rows _ _ _ Hc) as (Henv0 & Hout0 & _).
  apply get_table_client_Ok in Hc as (-> & [rows Hrows] & _).
  rewrite He.
  destruct (upsert_entity TABLE_NAME entity st0) as [[u|e] st1] eqn:Hu.
  2:{ exfalso. revert Hu. unfold upsert_entity.
      rewrite Hout0, (Hout UpsertEntity), Hentity.
      change (entity_key _) with (@Ok (string * string) ("PDFAnalysis", id)).
      cbv iota. rewrite Hrows. discriminate. }
  apply upsert_entity_rows in Hu as (key & Hkey & Henv1 & Hout1 & Hrow & _).
  rewrite Hentity in Hkey.
  change (entity_key _) with (@Ok (string * string) ("PDFAnalysis", id)) in Hkey.
  injection Hkey as <-.
  rewrite Hrec. eexists _, st1. repeat split; congruence.
Qed.

Lemma get_results_stored_row (req : HttpRequest) (st : storage) (id : string)
    (entity : dict) (result : pyval) :
  route_params req !! "id" = Some id ->
  id <> "" ->
  is_Some (environ st !! "PDFStorageConnection") ->
  (forall r, outage st r = None) ->
  row st TABLE_NAME ("PDFAnalysis", id) = Some entity ->
  result_of_entity entity = Ok result ->
  get_results req st = (Ok (json_response result (Some 2%nat) 200), st).
Proof.
  intros Hid Hne [conn Henv] Hout Hrow Hresult.
  rewrite (get_results_by_id req st id Hid Hne).
  unfold row in Hrow. destruct (tables st !! TABLE_NAME) as [rows|] eqn:Hrows;
    [|discriminate].
  rewrite get_table_client_unfold, Henv, (Hout (Connect conn)), (Hout CreateTable), Hrows.
  unfold get_entity. rewrite (Hout GetEntity), Hrows, Hrow, Hresult. reflexivity.
Qed.

Lemma result_of_entity_of (report : pyval) (entity : dict)
    (id fileName blobPath analyzedAt summary analyses text metadata : pyval) :
  entity_of report = Ok entity ->
  getitem report "id" = Ok id ->
  getitem report "fileName" = Ok fileName ->
  getitem report "blobPath" = Ok blobPath ->
  getitem report "analyzedAt" = Ok analyzedAt ->
  getitem report "summary" = Ok summary ->
  getitem report "analyses" = Ok analyses ->
  getitem analyses "text" = Ok text ->
  getitem analyses "metadata" = Ok metadata ->
  json_ok summary = true -> json_ok text = true -> json_ok metadata = true ->
  result_of_entity entity
  = Ok (PDict [("id", id); ("fileName", fileName); ("blobPath", blobPath);
               ("analyzedAt", analyzedAt); ("summary", summary);
               ("analyses", PDict [("text", text); ("metadata", metadata)])]).
Proof.
  intros He Hid Hf Hb Ha Hs Han Ht Hm Hoks Hokt Hokm.
  revert He. unfold entity_of. rewrite Hid, Hf, Hb, Ha, Hs, Han. simpl.
  rewrite Ht. simpl. rewrite Hm. simpl. intros [= <-].
  unfold result_of_entity.
  match goal with
  | |- context [loads_field ?entity "Summary"] =>
      rewrite (loads_field_dumps entity "Summary" summary eq_refl Hoks),
        (loads_field_dumps entity "TextAnalysis" text eq_refl Hokt),
        (loads_field_dumps entity "MetadataAnalysis" metadata eq_refl Hokm)
  end.
  reflexivity.
Qed.

(** A report that has a file name and an identifier is answered with a
    record under that identifier. *)
Lemma store_results_returns (report : pyval) (st : storage) (fileName id : pyval) :
  getitem report "fileName" = Ok fileName ->
  getitem report "id" = Ok id ->
  exists record st',
    store_results report st = (Ok record, st')
    /\ getitem record "id" = Ok id
    /\ (getitem record "status" = Ok (PStr "stored")
        \/ getitem record "status" = Ok (PStr "error")).
Proof.
  intros Hf Hid. rewrite store_results_unfold, Hf.
  assert (Herr : forall e, error_record report e
                           = Ok (PDict [("id", id); ("status", PStr "error");
                                        ("error", PStr e)])).
  { intros e. unfold error_record. destruct report; try discriminate.
    simpl in Hid |- *. destruct (dict_lookup "id" d); [|discriminate].
    injection Hid as ->. reflexivity. }
  destruct (get_table_client st) as [[client|e] st1].
  2:{ rewrite Herr. eexists _, _. split; [reflexivity|]. simpl. auto. }
  destruct (entity_of report) as [entity|e] eqn:He.
  2:{ rewrite Herr. eexists _, _. split; [reflexivity|]. simpl. auto. }
  destruct (upsert_entity client entity st1) as [[u|e] st2].
  2:{ rewrite Herr. eexists _, _. split; [reflexivity|]. simpl. auto. }
  destruct (entity_of_stored_record _ _ He) as (id' & fn & at' & su & Hid' & _ & ->).
  assert (id' = id) as -> by congruence.
  eexists _, _. split; [reflexivity|]. simpl. auto.
Qed.

(** ** The outputs of the tasks as data *)

Section TaskOutputs.

Variable PdfReader : list Byte.byte -> result Pypdf.reader.

Lemma extract_text_json_ok (inputData text : pyval) :
  extract_text PdfReader inputData = Ok text ->
  json_ok text = true
  /\ exists b, get_default text "hasText" (PBool false) = Ok (PBool b).
Proof.
  unfold extract_text, try_except.
  destruct (open_reader PdfReader inputData) as [reader|e]; simpl;
    [|intros [= <-]; split; [vm_compute; reflexivity|eexists; reflexivity]].
  destruct (Pypdf.pages reader) as [pages|e]; simpl;
    [|intros [= <-]; split; [vm_compute; reflexivity|eexists; reflexivity]].
  destruct (nonempty_texts pages) as [all_text|e]; simpl;
    intros [= <-]; (split; [vm_compute; reflexivity|eexists; reflexivity]).
Qed.

Lemma extract_metadata_json_ok (inputData metadata : pyval) :
  extract_metadata PdfReader inputData = Ok metadata ->
  json_ok metadata = true.
Proof.
  unfold extract_metadata, try_except.
  destruct (open_reader PdfReader inputData) as [reader|e]; simpl;
    [|intros [= <-]; reflexivity].
  destruct (Pypdf.metadata reader) as [[info|]|e]; simpl;
    try (intros [= <-]; reflexivity).
  destruct (Pypdf.creation_date info) as [[c|]|e0]; simpl; try (intros [= <-]; reflexivity).
  destruct (Pypdf.modification_date info) as [[m0|]|e0]; simpl; intros [= <-]; try reflexivity.
  destruct (Pypdf.title info), (Pypdf.author info), (Pypdf.creator info),
    (Pypdf.producer info); reflexivity.
Qed.

Lemma extract_metadata_dict (inputData metadata : pyval) :
  extract_metadata PdfReader inputData = Ok metadata ->
  exists d, metadata = PDict d /\ dict_lookup "format" d = None.
Proof.
  unfold extract_metadata, try_except.
  destruct (open_reader PdfReader inputData) as [reader|e]; simpl;
    [|intros [= <-]; eexists; split; reflexivity].
  destruct (Pypdf.metadata reader) as [[info|]|e]; simpl;
    try (intros [= <-]; eexists; split; reflexivity).
  destruct (Pypdf.creation_date info) as [[c|]|e0]; simpl;
    try (intros [= <-]; eexists; split; reflexivity).
  destruct (Pypdf.modification_date info) as [[m0|]|e0]; simpl; intros [= <-];
    eexists; split; reflexivity.
Qed.

End TaskOutputs.

(** The report built from a text path and the results of the four tasks. *)
Lemma generate_report_of_results (blob_name : string) (text metadata : dict)
    (statistics sensitive_data : pyval) (b : bool) (h : host) :
  dict_lookup "hasText" text = Some (PBool b) ->
  dict_lookup "format" metadata = None ->
  generate_report
    (PDict [("blob_name", PStr blob_name); ("text", PDict text);
            ("metadata", PDict metadata); ("statistics", statistics);
            ("sensitive_data", sensitive_data)]) h
  = (Ok (PDict [("id", PStr (uuid_stream h (uuid_calls h)));
                ("fileName", PStr (if contains_char "/" blob_name
                                   then last_segment "/" blob_name else blob_name));
                ("blobPath", PStr blob_name);
                ("analyzedAt", PStr (clock h (clock_calls h)));
                ("analyses", PDict [("text", PDict text);
                                    ("metadata", PDict metadata);
                                    ("statistics", statistics);
                                    ("sensitive_data", sensitive_data)]);
                ("summary", PDict [("format", PStr "Unknown");
                                   ("hasText", PBool b)])]),
     snd (utcnow (snd (uuid4 h)))).
Proof.
  intros Hflag Hformat. unfold generate_report. simpl. rewrite Hflag, Hformat.
  reflexivity.
Qed.

(** ** Runs of the orchestrator *)

Section Runs.

Variable PdfReader : list Byte.byte -> result Pypdf.reader.
Variable re_findall : pattern -> string -> list string.

Local Abbreviation analysis_results := (analysis_results PdfReader re_findall).
Local Abbreviation file_result := (file_result PdfReader re_findall).

Lemma foldl_file_result_length input_data order :
  forall slots, length (foldl (file_result input_data) slots order) = length slots.
Proof.
  induction order as [|i order IH]; intros slots; simpl; [reflexivity|].
  by rewrite IH, file_result_length.
Qed.

Lemma unfinished_task_is_not_filed input_data order :
  forall slots j,
    j ∉ order ->
    foldl (file_result input_data) slots order !! j = slots !! j.
Proof.
  induction order as [|i order IH]; intros slots j Hj; simpl; [reflexivity|].
  apply not_elem_of_cons in Hj as [Hne Hj].
  rewrite (IH _ _ Hj). unfold file_result.
  destruct (analysis_results input_data !! i); [|reflexivity].
  by apply list_lookup_insert_ne.
Qed.

Lemma gather_unfilled (slots : list (option (result pyval))) (j : nat) :
  slots !! j = Some None -> gather slots = None.
Proof.
  revert j. induction slots as [|slot slots IH]; intros [|j]; simpl; try discriminate.
  - by intros [= ->].
  - intros Hj. destruct slot; [|reflexivity]. by rewrite (IH j Hj).
Qed.

(** Once each of the four tasks has completed, in whatever order and however
    often reported, the fan-in yields their results in fan-out order. *)
Lemma task_all_completed (input_data : pyval) (order : list nat) (w : world) :
  (forall j, (j < 4)%nat -> j ∈ order) ->
  exists text metadata statistics sensitive_data,
    extract_text PdfReader input_data = Ok text
    /\ extract_metadata PdfReader input_data = Ok metadata
    /\ analyze_statistics PdfReader input_data = Ok statistics
    /\ detect_sensitive_data PdfReader re_findall input_data = Ok sensitive_data
    /\ task_all PdfReader re_findall (analysis_tasks input_data) order w
       = (Some (Ok [text; metadata; statistics; sensitive_data]), w).
Proof.
  intros Hall.
  destruct (extract_text_total PdfReader input_data) as [t Ht].
  destruct (extract_metadata_total PdfReader input_data) as [m Hm].
  destruct (analyze_statistics_total PdfReader input_data) as [s Hs].
  destruct (detect_sensitive_data_total PdfReader re_findall input_data) as [d Hd].
  exists t, m, s, d. repeat split; auto.
  unfold task_all. rewrite complete_analysis_tasks.
  set (slots := foldl _ _ _).
  assert (Hfiled : forall j r, analysis_results input_data !! j = Some r ->
                               slots !! j = Some (Some r)).
  { intros j r Hr. apply completed_task_is_filed; [exact Hr| |].
    - apply lookup_lt_Some in Hr. simpl in *. lia.
    - apply Hall. apply lookup_lt_Some in Hr. simpl in Hr. lia. }
  assert (Hlen : length slots = 4%nat) by apply foldl_file_result_length.
  assert (slots = [Some (Ok t); Some (Ok m); Some (Ok s); Some (Ok d)]) as ->.
  { pose proof (Hfiled 0%nat _ eq_refl) as H0.
    pose proof (Hfiled 1%nat _ eq_refl) as H1.
    pose proof (Hfiled 2%nat _ eq_refl) as H2.
    pose proof (Hfiled 3%nat _ eq_refl) as H3.
    rewrite ?Ht, ?Hm, ?Hs, ?Hd in *.
    destruct slots as [|a [|b [|c [|e [|]]]]]; simpl in Hlen; try lia.
    simpl in *. congruence. }
  reflexivity.
Qed.

(** A run whose four tasks have completed is the reducer on their results
    followed by the store. *)
Lemma orchestrator_run (input_data blob_name : pyval) (order : list nat) (w : world) :
  getitem input_data "blob_name" = Ok blob_name ->
  (forall j, (j < 4)%nat -> j ∈ order) ->
  exists text metadata statistics sensitive_data,
    extract_text PdfReader input_data = Ok text
    /\ extract_metadata PdfReader input_data = Ok metadata
    /\ analyze_statistics PdfReader input_data = Ok statistics
    /\ detect_sensitive_data PdfReader re_findall input_data = Ok sensitive_data
    /\ pdf_analyzer_orchestrator PdfReader re_findall input_data order w
       = match generate_report
                 (PDict [("blob_name", blob_name); ("text", text);
                         ("metadata", metadata); ("statistics", statistics);
                         ("sensitive_data", sensitive_data)]) (w_host w) with
         | (Raise e, h) => (Failed e, {| w_host := h; w_storage := w_storage w |})
         | (Ok report, h) =>
             match store_results report (w_storage w) with
             | (Raise e, st) => (Failed e, {| w_host := h; w_storage := st |})
             | (Ok record, st) => (Completed record, {| w_host := h; w_storage := st |})
             end
         end.
Proof.
  intros Hname Hall.
  destruct (task_all_completed input_data order w Hall)
    as (t & m & s & d & Ht & Hm & Hs & Hd & Htasks).
  exists t, m, s, d. repeat split; auto.
  unfold pdf_analyzer_orchestrator. rewrite Hname, Htasks.
  unfold report_input_of. rewrite Hname. simpl bind.
  unfold run_activity. simpl.
  destruct (generate_report _ (w_host w)) as [[report|e] h]; [|reflexivity].
  cbn [w_storage w_host].
  destruct (store_results report (w_storage w)) as [[record|e] st]; reflexivity.
Qed.

(** X15: the orchestrator goes no further than the fan-in while one of the four
    analysis tasks has not completed: the run is pending, no identifier or
    time stamp has been drawn and nothing has been stored. *)
Theorem orchestrator_waits_for_all_four
    (input_data blob_name : pyval) (order : list nat) (w : world) (j : nat) :
  getitem input_data "blob_name" = Ok blob_name ->
  (j < 4)%nat ->
  j ∉ order ->
  pdf_analyzer_orchestrator PdfReader re_findall input_data order w = (Pending, w).
Proof.
  intros Hname Hj Hnot.
  unfold pdf_analyzer_orchestrator, task_all. rewrite Hname, complete_analysis_tasks.
  rewrite (gather_unfilled _ j); [reflexivity|].
  rewrite unfinished_task_is_not_filed by exact Hnot.
  destruct j as [|[|[|[|j]]]]; [reflexivity..|lia].
Qed.

(** X16: a run over an input whose [blob_name] is text always completes once
    the four tasks have: whatever the bytes, the PDF library and the table
    service do, the orchestrator returns a record with status [stored] or
    [error].  The record carries the one identifier drawn during the run; one
    time stamp was read. *)
Theorem orchestrator_always_completes
    (input_data : pyval) (blob_name : string) (order : list nat) (w : world) :
  getitem input_data "blob_name" = Ok (PStr blob_name) ->
  (forall j, (j < 4)%nat -> j ∈ order) ->
  exists record w',
    pdf_analyzer_orchestrator PdfReader re_findall input_data order w
    = (Completed record, w')
    /\ getitem record "id" = Ok (PStr (uuid_stream (w_host w) (uuid_calls (w_host w))))
    /\ (getitem record "status" = Ok (PStr "stored")
        \/ getitem record "status" = Ok (PStr "error"))
    /\ uuid_calls (w_host w') = S (uuid_calls (w_host w))
    /\ clock_calls (w_host w') = S (clock_calls (w_host w)).
Proof.
  intros Hname Hall.
  destruct (orchestrator_run _ _ order w Hname Hall)
    as (t & m & s & d & Ht & Hm & _ & _ & ->).
  destruct (extract_text_flag PdfReader _ _ Ht) as (dt & b & ? & -> & Hflag & _ & _).
  destruct (extract_metadata_dict PdfReader _ _ Hm) as (dm & -> & Hformat).
  rewrite (generate_report_of_results blob_name dt dm s d b (w_host w) Hflag Hformat).
  set (report := PDict _).
  destruct (store_results_returns report (w_storage w) _ _ eq_refl eq_refl)
    as (record & st & Hstore & Hid & Hstatus).
  rewrite Hstore. eexists record, _. split; [reflexivity|].
  split; [exact Hid|]. split; [exact Hstatus|]. split; reflexivity.
Qed.

(** X17: on a working account, a run over any document ends with a [stored]
    record, and asking the query function for the identifier in that record
    is answered 200 with the text and metadata analyses exactly as the two
    tasks returned them, under the file name and path of the blob. *)
Theorem stored_run_can_be_queried
    (input_data : pyval) (blob_name : string) (order : list nat) (w : world)
    (req : HttpRequest) :
  getitem input_data "blob_name" = Ok (PStr blob_name) ->
  (forall j, (j < 4)%nat -> j ∈ order) ->
  is_Some (environ (w_storage w) !! "PDFStorageConnection") ->
  (forall r, outage (w_storage w) r = None) ->
  let id := uuid_stream (w_host w) (uuid_calls (w_host w)) in
  id <> "" ->
  route_params req !! "id" = Some id ->
  exists record w' text metadata result,
    pdf_analyzer_orchestrator PdfReader re_findall input_data order w
    = (Completed record, w')
    /\ getitem record "id" = Ok (PStr id)
    /\ getitem record "status" = Ok (PStr "stored")
    /\ extract_text PdfReader input_data = Ok text
    /\ extract_metadata PdfReader input_data = Ok metadata
    /\ get_results req (w_storage w')
       = (Ok (json_response result (Some 2%nat) 200), w_storage w')
    /\ getitem result "id" = Ok (PStr id)
    /\ getitem result "blobPath" = Ok (PStr blob_name)
    /\ getitem result "analyses"
       = Ok (PDict [("text", text); ("metadata", metadata)]).
Proof.
  intros Hname Hall Henv Hout id Hne Hreq.
  destruct (orchestrator_run _ _ order w Hname Hall)
    as (t & m & s & d & Ht & Hm & _ & _ & ->).
  destruct (extract_text_json_ok PdfReader _ _ Ht) as (Hokt & _).
  pose proof (extract_metadata_json_ok PdfReader _ _ Hm) as Hokm.
  destruct (extract_text_flag PdfReader _ _ Ht) as (dt & b & ? & -> & Hflag & _ & _).
  destruct (extract_metadata_dict PdfReader _ _ Hm) as (dm & -> & Hformat).
  rewrite (generate_report_of_results blob_name dt dm s d b (w_host w) Hflag Hformat).
  set (report := PDict _).
  destruct (entity_of report) as [entity|e] eqn:He; [|discriminate].
  destruct (store_results_working report (w_storage w) id entity eq_refl He Henv Hout)
    as (record & st1 & Hstore & Hrec & Henv1 & Hout1 & Hrow).
  rewrite Hstore. injection Hrec as <-.
  eexists _, _, (PDict dt), (PDict dm), _.
  split; [reflexivity|]. split; [reflexivity|]. split; [reflexivity|].
  split; [exact Ht|]. split; [exact Hm|]. cbn [w_storage]. split.
  - apply (get_results_stored_row req st1 id entity); auto.
    + by rewrite Henv1.
    + intros r. by rewrite Hout1.
    + eapply (result_of_entity_of report entity); [exact He|reflexivity..| | |];
        [reflexivity|exact Hokt|exact Hokm].
  - repeat split.
Qed.

End Runs.

(** X15 with the metadata task still running. *)
Lemma orchestrator_waits_for_all_four_witness :
  (1%nat ∉ [0; 2; 3]%nat)
  /\ pdf_analyzer_orchestrator Sample.PdfReader Sample.re_findall
       (Sample.input_data [37; 80]) [0; 2; 3]%nat Sample.the_world
     = (Pending, Sample.the_world).
Proof.
  assert (H : 1%nat ∉ [0; 2; 3]%nat).
  { apply not_elem_of_cons. split; [discriminate|].
    apply not_elem_of_cons. split; [discriminate|].
    apply not_elem_of_cons. split; [discriminate|]. apply not_elem_of_nil. }
  split; [exact H|].
  apply (orchestrator_waits_for_all_four Sample.PdfReader Sample.re_findall
           (Sample.input_data [37; 80]) (PStr "pdf/report.pdf") [0; 2; 3]%nat
           Sample.the_world 1%nat).
  - reflexivity.
  - lia.
  - exact H.
Defined.

Lemma all_four_completed : forall j, (j < 4)%nat -> j ∈ [3; 1; 0; 2]%nat.
Proof.
  intros j Hj. rewrite !elem_of_cons.
  destruct j as [|[|[|[|j]]]]; [auto..|lia].
Qed.

(** X16 at the sample document, behind a service that refuses every
    request: the run completes, with an [error] record. *)
Lemma orchestrator_always_completes_witness :
  let w := {| w_host := Sample.the_host;
              w_storage := {| environ := environ Sample.the_storage;
                              outage := fun _ => Some "Service unavailable";
                              tables := ∅ |} |} in
  exists record w',
    pdf_analyzer_orchestrator Sample.PdfReader Sample.re_findall
      (Sample.input_data [37; 80]) [3; 1; 0; 2]%nat w
    = (Completed record, w')
    /\ getitem record "id" = Ok (PStr "0000-0")
    /\ (getitem record "status" = Ok (PStr "stored")
        \/ getitem record "status" = Ok (PStr "error"))
    /\ uuid_calls (w_host w') = 1%nat
    /\ clock_calls (w_host w') = 1%nat.
Proof.
  intros w.
  apply (orchestrator_always_completes Sample.PdfReader Sample.re_findall
           (Sample.input_data [37; 80]) "pdf/report.pdf" [3; 1; 0; 2]%nat w).
  - reflexivity.
  - exact all_four_completed.
Defined.

(** X17 at the sample document and the empty sample account. *)
Lemma stored_run_can_be_queried_witness :
  exists record w' text metadata result,
    pdf_analyzer_orchestrator Sample.PdfReader Sample.re_findall
      (Sample.input_data [37; 80]) [3; 1; 0; 2]%nat Sample.the_world
    = (Completed record, w')
    /\ getitem record "id" = Ok (PStr "0000-0")
    /\ getitem record "status" = Ok (PStr "stored")
    /\ extract_text Sample.PdfReader (Sample.input_data [37; 80]) = Ok text
    /\ extract_metadata Sample.PdfReader (Sample.input_data [37; 80]) = Ok metadata
    /\ get_results (Sample.request_for "0000-0") (w_storage w')
       = (Ok (json_response result (Some 2%nat) 200), w_storage w')
    /\ getitem result "id" = Ok (PStr "0000-0")
    /\ getitem result "blobPath" = Ok (PStr "pdf/report.pdf")
    /\ getitem result "analyses" = Ok (PDict [("text", text); ("metadata", metadata)]).
Proof.
  apply (stored_run_can_be_queried Sample.PdfReader Sample.re_findall
           (Sample.input_data [37; 80]) "pdf/report.pdf" [3; 1; 0; 2]%nat
           Sample.the_world (Sample.request_for "0000-0")).
  - reflexivity.
  - exact all_four_completed.
  - eexists. vm_compute. reflexivity.
  - intros r. reflexivity.
  - discriminate.
  - vm_compute. reflexivity.
Defined.

(** ** The blob trigger, properties *)

Lemma bytes_of_ints_list (b : list Byte.byte) :
  bytes_of_ints (map (fun x => PInt (Z.of_N (Byte.to_N x))) b) = Ok b.
Proof.
  induction b as [|x b IH]; [reflexivity|].
  cbn [map bytes_of_ints]. unfold bind at 1.
  pose proof (Byte.to_N_bounded x) as Hx.
  assert (H0 : (0 <=? Z.of_N (Byte.to_N x)) = true) by (apply Z.leb_le; lia).
  assert (H1 : (Z.of_N (Byte.to_N x) <? 256) = true) by (apply Z.ltb_lt; lia).
  rewrite H0, H1, N2Z.id, Byte.of_to_N, IH. reflexivity.
Qed.

Lemma json_ok_list_of_bytes (b : list Byte.byte) : json_ok (list_of_bytes b) = true.
Proof.
  unfold list_of_bytes. simpl. induction b as [|x b IH]; [reflexivity|exact IH].
Qed.

Lemma frac_exact_zero (fuel : nat) (d : N) : Json.frac_exact fuel 0 d = true.
Proof. destruct fuel; reflexivity. Qed.

Lemma frac_exact_hundredths (fuel : nat) (r d : N) :
  (100 mod d = 0)%N -> Json.frac_exact (S (S fuel)) r d = true.
Proof.
  intros Hd. cbn [Json.frac_exact].
  replace (10 * (10 * r mod d) mod d)%N with 0%N.
  - rewrite frac_exact_zero. by rewrite !orb_true_r.
  - rewrite N.Div0.mul_mod_idemp_r, N.mul_assoc.
    change (10 * 10)%N with 100%N.
    rewrite <- N.Div0.mul_mod_idemp_l, Hd. reflexivity.
Qed.

Lemma printable_reduced_hundredths (q : Q) (n : Z) :
  Qred q = q -> (q == n # 100)%Q -> printable_float q = true.
Proof.
  intros Hred Hq. unfold printable_float.
  apply andb_true_intro. split.
  - rewrite Hred. apply andb_true_intro. split; [apply Z.eqb_refl|apply Pos.eqb_refl].
  - change Json.float_digits with (S (S 38)).
    apply frac_exact_hundredths.
    assert (Hdiv : (Zpos (Qden q) | 100)%Z).
    { apply (Z.gauss _ (Qnum q)).
      - exists n. unfold Qeq in Hq. simpl in Hq. lia.
      - rewrite Z.gcd_comm. by apply Qcanon.Qred_identity2. }
    apply Z.mod_divide in Hdiv; [|lia].
    apply N2Z.inj. rewrite N2Z.inj_mod. exact Hdiv.
Qed.

Lemma printable_hundredths (n : Z) :
  printable_float (Qred (inject_Z n / inject_Z 100)) = true.
Proof.
  apply (printable_reduced_hundredths _ n).
  - apply Qcanon.Qred_involutive.
  - rewrite Qred_correct. symmetry. apply (Qmake_Qdiv n 100).
Qed.

Lemma Qdiv_100 (a : Q) : (a / 100 == a * (1 # 100))%Q.
Proof. reflexivity. Qed.

Lemma py_round_hundredths (x : Q) :
  exists n : Z, py_round x 2 = Qred (inject_Z n / inject_Z 100)
                /\ (Qabs (inject_Z n / inject_Z 100 - x) <= 1 # 200)%Q.
Proof.
  unfold py_round. change (10 ^ Z.of_nat 2) with 100.
  set (y := (x * inject_Z 100)%Q). set (below := Qfloor y).
  pose proof (Qfloor_le y) as Hle. pose proof (Qlt_floor y) as Hlt.
  fold below in Hle, Hlt. rewrite inject_Z_plus in Hlt.
  change (inject_Z 1) with 1%Q in Hlt.
  assert (Hy : (y == x * 100)%Q) by reflexivity.
  clearbody y below.
  eexists. split; [reflexivity|].
  apply Qabs_Qle_condition.
  change (inject_Z 100) with 100%Q.
  destruct (Qcompare (2 * (y - inject_Z below)) 1) eqn:Hc.
  - apply Qeq_alt in Hc.
    destruct (Z.even below); rewrite ?inject_Z_plus, Qdiv_100;
      change (inject_Z 1) with 1%Q; split; lra.
  - apply Qlt_alt in Hc. rewrite Qdiv_100. split; lra.
  - apply Qgt_alt in Hc. rewrite inject_Z_plus, Qdiv_100. change (inject_Z 1) with 1%Q.
    split; lra.
Qed.

Lemma blob_input_Ok (myblob : Func.InputStream) :
  blob_input myblob
  = Ok (PDict [("blob_name", PStr (Func.name myblob));
               ("blob_bytes", list_of_bytes (Func.read myblob));
               ("blob_size_kb",
                PFloat (py_round
                          (Qred (inject_Z (Z.of_nat (length (Func.read myblob)))
                                 / inject_Z 1024)) 2))]).
Proof. reflexivity. Qed.

Lemma json_ok_blob_input (blob_name : string) (blob_bytes : list Byte.byte) (kb : Q) :
  printable_float kb = true ->
  json_ok (PDict [("blob_name", PStr blob_name);
                  ("blob_bytes", list_of_bytes blob_bytes);
                  ("blob_size_kb", PFloat kb)]) = true.
Proof.
  intros Hkb.
  change (json_ok (PDict [("blob_name", PStr blob_name);
                          ("blob_bytes", list_of_bytes blob_bytes);
                          ("blob_size_kb", PFloat kb)]))
    with (distinct ["blob_name"; "blob_bytes"; "blob_size_kb"]
          && (true && (json_ok (list_of_bytes blob_bytes)
                       && (printable_float kb && true)))).
  rewrite json_ok_list_of_bytes, Hkb. reflexivity.
Qed.

(** X18: the trigger starts one orchestration, [pdf_analyzer_orchestrator],
    and what that orchestration reads as its input, after the passage
    through JSON text, is the dictionary the trigger built: the name of the
    blob, its bytes as a list of integers and its size. *)
Theorem blob_trigger_hands_over_the_blob
    (myblob : Func.InputStream) (client : DurableOrchestrationClient) :
  exists input_data inst,
    blob_input myblob = Ok input_data
    /\ blob_trigger myblob client
       = (Ok tt, {| new_instance_id := new_instance_id client;
                    instances := instances client ++ [inst] |})
    /\ orchestration_function_name inst = "pdf_analyzer_orchestrator"
    /\ get_input inst = Ok input_data
    /\ getitem input_data "blob_name" = Ok (PStr (Func.name myblob))
    /\ getitem input_data "blob_bytes" = Ok (list_of_bytes (Func.read myblob)).
Proof.
  unfold blob_trigger. rewrite blob_input_Ok.
  eexists _, _. split; [reflexivity|]. split; [reflexivity|].
  split; [reflexivity|]. split; [|split; reflexivity].
  unfold get_input. cbn [input]. apply loads_dumps, json_ok_blob_input.
  destruct (py_round_hundredths
              (Qred (inject_Z (Z.of_nat (length (Func.read myblob))) / inject_Z 1024)))
    as (n & -> & _).
  apply printable_hundredths.
Qed.

(** X20: the list of integers that the trigger puts into the input gives the
    bytes of the blob back: every analysis task constructs its reader on
    exactly the bytes that the trigger read. *)
Theorem tasks_read_the_uploaded_bytes (myblob : Func.InputStream) :
  exists input_data,
    blob_input myblob = Ok input_data
    /\ (let* blob := getitem input_data "blob_bytes" in py_bytes blob)
       = Ok (Func.read myblob)
    /\ forall PdfReader : list Byte.byte -> result Pypdf.reader,
         open_reader PdfReader input_data = PdfReader (Func.read myblob).
Proof.
  rewrite blob_input_Ok. eexists. split; [reflexivity|].
  assert (H : py_bytes (list_of_bytes (Func.read myblob)) = Ok (Func.read myblob))
    by apply bytes_of_ints_list.
  split.
  - cbn [getitem dict_lookup]. simpl String.eqb. cbv iota. unfold bind. exact H.
  - intros PdfReader. unfold open_reader.
    cbn [getitem dict_lookup]. simpl String.eqb. cbv iota.
    unfold bind at 1. rewrite H. reflexivity.
Qed.

(** The sample blob: two bytes, 0.0 KB after rounding, handed to the tasks
    as they were read. *)
Example blob_input_of_sample :
  blob_input Sample.blob
  = Ok (PDict [("blob_name", PStr "pdf/report.pdf");
               ("blob_bytes", PList [PInt 37; PInt 80]);
               ("blob_size_kb", PFloat 0)])
  /\ py_round (1 # 8) 2 = (3 # 25)%Q
  /\ py_round (3 # 8) 2 = (19 # 50)%Q.
Proof. repeat split; vm_compute; reflexivity. Qed.

(** ** The metadata of a document *)

Section Metadata.

Variable PdfReader : list Byte.byte -> result Pypdf.reader.

(** X21: the metadata task reports no error exactly when the document
    opens, carries document information and has both of its dates, each of
    them well formed; title, author, creator and producer may be missing and
    then come out as [None].  In every other case the result is the failure
    shape. *)
Theorem extract_metadata_succeeds_iff_dated (inputData m : pyval) :
  extract_metadata PdfReader inputData = Ok m ->
  (getitem m "error" = Raise "'error'"
   <-> exists reader info created modified,
         open_reader PdfReader inputData = Ok reader
         /\ Pypdf.metadata reader = Ok (Some info)
         /\ Pypdf.creation_date info = Ok (Some created)
         /\ Pypdf.modification_date info = Ok (Some modified)
         /\ m = PDict [("title", opt_str (Pypdf.title info));
                       ("author", opt_str (Pypdf.author info));
                       ("creator", opt_str (Pypdf.creator info));
                       ("producer", opt_str (Pypdf.producer info));
                       ("creation_date", PStr (Pypdf.isoformat created));
                       ("mod_date", PStr (Pypdf.isoformat modified))])
  /\ (getitem m "error" = Raise "'error'"
      \/ exists e, m = PDict [("title", PStr ""); ("author", PStr "");
                              ("error", PStr e)]).
Proof.
  unfold extract_metadata, try_except.
  destruct (open_reader PdfReader inputData) as [reader|e] eqn:Hopen; simpl.
  2:{ intros [= <-]. split; [|eauto]. split; [discriminate|].
      intros (? & ? & ? & ? & ? & _); discriminate. }
  destruct (Pypdf.metadata reader) as [[info|]|e] eqn:Hmeta; simpl.
  2,3:(intros [= <-]; split; [|eauto]; split; [discriminate|];
       intros (r' & ? & ? & ? & Hr & Hm' & _); injection Hr as <-; congruence).
  destruct (Pypdf.creation_date info) as [[created|]|e] eqn:Hc; simpl.
  2,3:(intros [= <-]; split; [|eauto]; split; [discriminate|];
       intros (r' & i' & ? & ? & Hr & Hm' & Hc' & _);
       injection Hr as <-; rewrite Hmeta in Hm'; injection Hm' as <-; congruence).
  destruct (Pypdf.modification_date info) as [[modified|]|e] eqn:Hmod; simpl.
  2,3:(intros [= <-]; split; [|eauto]; split; [discriminate|];
       intros (r' & i' & ? & ? & Hr & Hm' & _ & Hmod' & _);
       injection Hr as <-; rewrite Hmeta in Hm'; injection Hm' as <-; congruence).
  intros [= <-]. split; [|left; reflexivity]. split; [|reflexivity].
  intros _. exists reader, info, created, modified. auto.
Qed.

End Metadata.

(** X21 at the sample document, which has no creator, and at the one with a
    malformed date. *)
Lemma extract_metadata_succeeds_iff_dated_witness :
  extract_metadata Sample.PdfReader (Sample.input_data [37; 80])
  = Ok Sample.metadata_out
  /\ getitem Sample.metadata_out "error" = Raise "'error'"
  /\ getitem Sample.metadata_out "creator" = Ok PNone
  /\ exists m e,
       extract_metadata Sample.PdfReader (Sample.input_data [2]) = Ok m
       /\ m = PDict [("title", PStr ""); ("author", PStr ""); ("error", PStr e)].
Proof.
  split; [reflexivity|].
  destruct (extract_metadata_succeeds_iff_dated Sample.PdfReader
              (Sample.input_data [37; 80]) Sample.metadata_out eq_refl) as [[_ H] _].
  split; [|split; [reflexivity|]].
  - apply H.
    exists {| Pypdf.pages := Ok Sample.two_pages;
              Pypdf.metadata := Ok (Some Sample.info) |},
      Sample.info, {| Pypdf.isoformat := "2024-01-15T10:00:00" |},
      {| Pypdf.isoformat := "2024-01-16T11:30:00" |}.
    repeat split.
  - destruct (extract_metadata_total Sample.PdfReader (Sample.input_data [2]))
      as [m Hm].
    destruct (extract_metadata_succeeds_iff_dated Sample.PdfReader
                (Sample.input_data [2]) m Hm) as [[Hdated _] [Hok|[e He]]].
    + exfalso. destruct (Hdated Hok) as (r & i & c & md & Hr & Hi & _ & Hmod & _).
      injection Hr as <-. injection Hi as <-. discriminate.
    + by exists m, e.
Defined.

(** ** Stored reports in the listing *)

(** The listing over an existing table, when it is answered 200 under a
    limit that cuts nothing: the summaries of the partition, reordered. *)
Lemma full_listing
    (req : HttpRequest) (st : storage) (rows : gmap (string * string) dict)
    (limit : Z) (response : HttpResponse) :
  truthy (opt_str (route_params req !! "id")) = false ->
  tables st !! TABLE_NAME = Some rows ->
  py_int (default "10" (params req !! "limit")) = Ok limit ->
  Z.of_nat (length (map_to_list rows)) <= limit ->
  fst (get_results req st) = Ok response ->
  status_code response = 200 ->
  exists lines results,
    Forall2 (fun entity line => summary_of_entity entity = Ok line)
      (partition_entities "PDFAnalysis" rows) lines
    /\ Permutation results lines
    /\ response = json_response
                    (PDict [("count", PInt (Z.of_nat (length results)));
                            ("results", PList results)])
                    (Some 2%nat) 200.
Proof.
  intros Hid Hrows Hlimit Hbig Hget H200.
  destruct (get_results_listing_cases req st rows Hid Hrows)
    as [[e He]|(limit' & lines & sorted & Hlimit' & Hlines & Hsorted & He)];
    rewrite He in Hget; simpl in Hget; injection Hget as <-; [discriminate|].
  assert (limit' = limit) as -> by congruence.
  pose proof (sort_desc_perm _ _ Hsorted) as Hperm.
  apply summaries_Ok in Hlines.
  rewrite slice_to_all.
  2:{ rewrite (Permutation_length Hperm), <- (Forall2_length _ _ _ Hlines).
      unfold partition_entities. rewrite length_map.
      rewrite (Permutation_length (sort_rows_perm _)).
      pose proof (length_filter (fun kv => fst (fst kv) = "PDFAnalysis")
                    (map_to_list rows)). lia. }
  exists lines, sorted. auto.
Qed.

(** X22: a report that the store activity answered [stored] for is in the
    listing: with a limit that cuts nothing, a listing answered 200 holds
    the line of the report, with its identifier, file name, time stamp and
    summary. *)
Theorem stored_report_is_listed
    (report record : pyval) (st st1 : storage) (rows : gmap (string * string) dict)
    (req : HttpRequest) (limit : Z) (response : HttpResponse)
    (id fileName analyzedAt summary : pyval) :
  store_results report st = (Ok record, st1) ->
  getitem record "status" = Ok (PStr "stored") ->
  getitem report "id" = Ok id ->
  getitem report "fileName" = Ok fileName ->
  getitem report "analyzedAt" = Ok analyzedAt ->
  getitem report "summary" = Ok summary ->
  json_ok summary = true ->
  truthy (opt_str (route_params req !! "id")) = false ->
  tables st1 !! TABLE_NAME = Some rows ->
  py_int (default "10" (params req !! "limit")) = Ok limit ->
  Z.of_nat (length (map_to_list rows)) <= limit ->
  fst (get_results req st1) = Ok response ->
  status_code response = 200 ->
  exists results,
    response = json_response
                 (PDict [("count", PInt (Z.of_nat (length results)));
                         ("results", PList results)])
                 (Some 2%nat) 200
    /\ PDict [("id", id); ("fileName", fileName); ("analyzedAt", analyzedAt);
              ("summary", summary)] ∈ results.
Proof.
  intros Hstore Hstatus Hid Hf Ha Hs Hok Hreq Hrows Hlimit Hbig Hget H200.
  destruct (store_results_stored _ _ _ _ Hstore Hstatus)
    as (id' & entity & rows' & Hid' & He & _ & Hrows' & Hrow).
  assert (rows' = rows) as -> by congruence.
  destruct (full_listing req st1 rows limit response Hreq Hrows Hlimit Hbig Hget H200)
    as (lines & results & Hlines & Hperm & ->).
  exists results. split; [reflexivity|]. rewrite Hperm.
  assert (Hin : entity ∈ partition_entities "PDFAnalysis" rows)
    by (apply partition_entities_spec; eauto).
  apply list_elem_of_lookup in Hin as [i Hi].
  destruct (Forall2_lookup_l _ _ _ _ _ Hlines Hi) as (line & Hline & Hsum).
  apply list_elem_of_lookup_2 in Hline.
  assert (line = PDict [("id", id); ("fileName", fileName); ("analyzedAt", analyzedAt);
                        ("summary", summary)]) as <-; [|exact Hline].
  apply entity_of_Ok in He
    as (? & ? & ? & ? & ? & ? & ? & ? & Hid2 & Hf2 & _ & Ha2 & Hs2 & _ & _ & _ & ->).
  revert Hsum. unfold summary_of_entity.
  match goal with
  | |- context [loads_field ?entity "Summary"] =>
      rewrite (loads_field_dumps entity "Summary" _ eq_refl
                 ltac:(rewrite Hs in Hs2; injection Hs2 as <-; exact Hok))
  end.
  simpl. intros [= <-]. congruence.
Qed.

(** X22 at the second of the three sample reports. *)
Lemma stored_report_is_listed_witness :
  let before := snd (store_results (Sample.report_at "a" "2024-05-01T08:00:00")
                       Sample.the_storage) in
  let after := snd (store_results (Sample.report_at "b" "2024-05-03T08:00:00") before) in
  exists results,
    fst (get_results (Sample.request_list None) after)
    = Ok (json_response
            (PDict [("count", PInt (Z.of_nat (length results)));
                    ("results", PList results)])
            (Some 2%nat) 200)
    /\ Sample.line "b" "2024-05-03T08:00:00" ∈ results.
Proof.
  intros before after.
  destruct (stored_report_is_listed
              (Sample.report_at "b" "2024-05-03T08:00:00")
              (PDict [("id", PStr "b"); ("fileName", PStr "report.pdf");
                      ("status", PStr "stored");
                      ("analyzedAt", PStr "2024-05-03T08:00:00");
                      ("summary", PDict [("format", PStr "Unknown");
                                         ("hasText", PBool true)])])
              before after (default ∅ (tables after !! TABLE_NAME))
              (Sample.request_list None) 10
              (Sample.listing [Sample.line "b" "2024-05-03T08:00:00";
                               Sample.line "a" "2024-05-01T08:00:00"])
              (PStr "b") (PStr "report.pdf") (PStr "2024-05-03T08:00:00")
              (PDict [("format", PStr "Unknown"); ("hasText", PBool true)]))
    as (results & Hresp & Hin).
  - unfold after. destruct (store_results _ before) as [r st'] eqn:E.
    assert (Hr : fst (store_results (Sample.report_at "b" "2024-05-03T08:00:00") before)
                 = Ok (PDict [("id", PStr "b"); ("fileName", PStr "report.pdf");
                              ("status", PStr "stored");
                              ("analyzedAt", PStr "2024-05-03T08:00:00");
                              ("summary", PDict [("format", PStr "Unknown");
                                                 ("hasText", PBool true)])]))
      by (vm_compute; reflexivity).
    rewrite E in Hr. simpl in Hr |- *. by rewrite Hr.
  - reflexivity.
  - reflexivity.
  - reflexivity.
  - reflexivity.
  - reflexivity.
  - vm_compute. reflexivity.
  - reflexivity.
  - apply table_rows. vm_compute. reflexivity.
  - reflexivity.
  - apply Z.leb_le. vm_compute. reflexivity.
  - vm_compute. reflexivity.
  - reflexivity.
  - exists results. split; [|exact Hin].
    rewrite <- Hresp. vm_compute. reflexivity.
Defined.

(** ** The sample run *)

(** The sample document through the four tasks, the reducer and the store. *)
Example sample_pipeline :
  extract_text Sample.PdfReader (Sample.input_data [37; 80]) = Ok Sample.text_out
  /\ extract_metadata Sample.PdfReader (Sample.input_data [37; 80])
     = Ok Sample.metadata_out
  /\ analyze_statistics Sample.PdfReader (Sample.input_data [37; 80])
     = Ok Sample.statistics_out
  /\ detect_sensitive_data Sample.PdfReader Sample.re_findall
       (Sample.input_data [37; 80])
     = Ok Sample.sensitive_out
  /\ fst (generate_report Sample.report_data Sample.the_host) = Ok Sample.report
  /\ fst (pdf_analyzer_orchestrator Sample.PdfReader Sample.re_findall
            (Sample.input_data [37; 80]) [3; 1; 0; 2]%nat
            {| w_host := Sample.the_host; w_storage := Sample.the_storage |})
     = Completed Sample.record.
Proof. repeat split; vm_compute; reflexivity. Qed.

(** What [json.loads] makes of an escape above [U+00FF], of a surrogate
    pair and of the constants that are no numbers; what [json.dumps] writes
    for the title of the sample document; an entity with such a summary has
    its line in the listing. *)
Example escapes_and_constants :
  Json.loads (Sample.quoted "a \u2014 b")
  = Ok (PStr (String.append "a " (String.append Sample.em_dash " b")))
  /\ Json.loads (Sample.quoted "\ud83d\ude00")
     = Ok (PStr (String "240" (String "159" (String "152" (String "128" "")))))
  /\ Json.loads "[NaN, Infinity, -Infinity]"
     = Ok (PList [PNonFinite NaN; PNonFinite Infinity; PNonFinite NegInfinity])
  /\ Json.dumps (PStr Sample.title) None = Sample.quoted "Report \u2014 2024"
  /\ summary_of_entity Sample.foreign
     = Ok (PDict [("id", PStr "f"); ("fileName", PStr "report.pdf");
                  ("analyzedAt", PStr "2024-05-04T08:00:00");
                  ("summary",
                   PStr (String.append "a " (String.append Sample.em_dash " b")))]).
Proof. repeat split; vm_compute; reflexivity. Qed.

(** What [int] and [str.split] make of white space and digits outside
    ASCII: the file separator [U+001C] is no blank for [int], a no-break
    space [U+00A0] is one for both, Arabic-Indic digits count. *)
Example int_and_split_of_unicode :
  (exists e, py_int (String "028" "2") = Raise e)
  /\ py_int (String "194" (String "160" "42")) = Ok 42
  /\ py_int (String "217" (String "161" (String "217" (String "162" "")))) = Ok 12
  /\ py_split (String.append "a" (String "194" (String "160" "b c"))) = ["a"; "b"; "c"].
Proof. split; [by eexists|]. repeat split; vm_compute; reflexivity. Qed.
